(** * Race-car simulation core: dynamics integrator, track knowledge, episode environment

    Shallow embedding of
      - [f1_physics_simulator.py]  (CarState, CarPhysics, F1PhysicsSimulator),
      - [ai_racing_agent.py]       (MonacoTrackKnowledge, AIRacingAgent),
      - [train.py]                 (TrainingConfig, RacingEnv, the returns of
                                    PPOTrainer).

    Numbers.  Python [float] values are read as real numbers ([R]): rounding,
    infinities and NaN are not tracked, and [float('inf')] used as the start
    value of a running minimum is the extra point [Inf] of [ExtR].  Python
    [int] values are [Z] (or [nat] for counters that only count up from 0).
    Objects mutated in place ([CarState], [RacingEnv]) are passed and
    returned explicitly.  Reads of the wall clock ([time.time()]) are inputs
    of the functions that perform them. *)

From Stdlib Require Import Reals Lra Lia ZArith List Bool Psatz Sorted Relations_1.
Import ListNotations.

Open Scope R_scope.

(** ** Python and NumPy primitives *)

Module Py.

(** [max(a, b)]: the first argument unless the second is strictly larger. *)
Definition max (a b : R) : R := if Rlt_dec a b then b else a.

(** [min(a, b)]: the first argument unless the second is strictly smaller. *)
Definition min (a b : R) : R := if Rlt_dec b a then b else a.

(** [np.clip(v, lo, hi)] is [minimum(maximum(v, lo), hi)]. *)
Definition clip (v lo hi : R) : R := min (max v lo) hi.

(** [np.sign]. *)
Definition sign (v : R) : R :=
  if Rlt_dec v 0 then -1 else if Rlt_dec 0 v then 1 else 0.

(** [int(v)] on a float: truncation toward zero. *)
Definition int (v : R) : Z :=
  if Rle_dec 0 v then Int_part v else (- Int_part (- v))%Z.

(** [v % m] on floats, for a positive modulus: [v - m * floor (v / m)]. *)
Definition fmod (v m : R) : R := v - m * IZR (Int_part (v / m)).

(** [math.radians]. *)
Definition radians (deg : R) : R := deg * PI / 180.

(** [np.arctan2(dy, dx)]: the angle of the vector [(dx, dy)] in (-pi, pi]. *)
Definition arctan2 (dy dx : R) : R :=
  if Rlt_dec 0 dx then atan (dy / dx)
  else if Rlt_dec dx 0 then
    (if Rle_dec 0 dy then atan (dy / dx) + PI else atan (dy / dx) - PI)
  else if Rlt_dec 0 dy then PI / 2
  else if Rlt_dec dy 0 then - PI / 2
  else 0.

(** Truthiness of a number: [if v:] holds unless [v] is zero. *)
Definition truthy (v : R) : bool := if Req_dec_T v 0 then false else true.

Definition ltb (a b : R) : bool := if Rlt_dec a b then true else false.
Definition leb (a b : R) : bool := if Rle_dec a b then true else false.
Definition eqb (a b : R) : bool := if Req_dec_T a b then true else false.

(** [math.degrees]. *)
Definition degrees (rad : R) : R := rad * 180 / PI.

(** [range(0, stop, 50)]. *)
Definition range_by_50 (stop : Z) : list Z :=
  map (fun k => (50 * Z.of_nat k)%Z) (seq 0 (Z.to_nat ((stop + 49) / 50))).

End Py.

(** Reals extended with [float('inf')]. *)
Inductive ExtR : Type :=
| Inf : ExtR
| Fin : R -> ExtR.

(** [d < m] for a real [d] and an extended [m]. *)
Definition lt_ext (d : R) (m : ExtR) : bool :=
  match m with
  | Inf => true
  | Fin r => Py.ltb d r
  end.

(** [min(m, d)] for an extended [m] and a real [d]. *)
Definition min_ext (m : ExtR) (d : R) : ExtR :=
  match m with
  | Inf => Fin d
  | Fin r => Fin (Py.min r d)
  end.

(** [m > c] for an extended [m] and a real constant [c]. *)
Definition gt_ext (m : ExtR) (c : R) : bool :=
  match m with
  | Inf => true
  | Fin r => Py.ltb c r
  end.

(** The running minimum has not reached 0 yet. *)
Definition positive_ext (m : ExtR) : Prop :=
  match m with
  | Inf => True
  | Fin d => 0 < d
  end.

(** ** f1_physics_simulator.py *)

Module CarState.

Record t : Type := mk {
  x : R;
  y : R;
  heading : R;
  speed : R;
  vx : R;
  vy : R;
  throttle : R;
  brake : R;
  steering : R;
  gear : Z;
  rpm : Z;
  tire_temp : R;
  fuel_kg : R;
  lap_time : R;
  distance : R
}.

(** [CarState()] with the dataclass defaults. *)
Definition default : t :=
  mk 0 0 0 0 0 0 0 0 0 1%Z 0%Z 80 100 0 0.

(** Two states that agree in every field. *)
Definition same_fields (a b : t) : Prop :=
  x a = x b /\ y a = y b /\ heading a = heading b
  /\ speed a = speed b /\ vx a = vx b /\ vy a = vy b
  /\ throttle a = throttle b /\ brake a = brake b /\ steering a = steering b
  /\ gear a = gear b /\ rpm a = rpm b
  /\ tire_temp a = tire_temp b /\ fuel_kg a = fuel_kg b
  /\ lap_time a = lap_time b /\ distance a = distance b.

End CarState.

Module CarPhysics.

Record t : Type := mk {
  mass : R;
  drag_coefficient : R;
  frontal_area : R;
  downforce_coefficient : R;
  max_power : R;
  max_rpm : Z;
  idle_rpm : Z;
  power_curve_peak : Z;
  gear_ratios : list R;
  final_drive : R;
  max_brake_force : R;
  brake_balance : R;
  tire_grip_coefficient : R;
  tire_optimal_temp : R;
  tire_optimal_slip : R;
  track_friction : R
}.

(** [CarPhysics()] after [__post_init__] has filled in the gear ratios. *)
Definition default : t :=
  mk 798 0.9 1.5 3 710000 15000%Z 5000%Z 11000%Z
     [3.5; 2.8; 2.2; 1.8; 1.5; 1.3; 1.15; 1]
     3.5 18000 0.58 1.4 90 10 1.

End CarPhysics.

Module F1PhysicsSimulator.

Record t : Type := mk {
  physics : CarPhysics.t;
  dt : R;
  air_density : R;
  gravity : R
}.

(** [F1PhysicsSimulator(physics)]. *)
Definition init (physics : CarPhysics.t) : t := mk physics 0.01 1.2 9.81.

(** [F1PhysicsSimulator()], the only way the repository builds one. *)
Definition default : t := init CarPhysics.default.

(** Two simulators with the same parameter set, timestep and constants. *)
Definition same_parameters (a b : t) : Prop :=
  physics a = physics b /\ dt a = dt b
  /\ air_density a = air_density b /\ gravity a = gravity b.

End F1PhysicsSimulator.

Section Simulator.

Variable self : F1PhysicsSimulator.t.

Let physics := F1PhysicsSimulator.physics self.

Definition calculate_engine_power (rpm : Z) (throttle : R) : R :=
  let rpm := if (rpm <? CarPhysics.idle_rpm physics)%Z
             then CarPhysics.idle_rpm physics else rpm in
  let rpm := if (CarPhysics.max_rpm physics <? rpm)%Z
             then CarPhysics.max_rpm physics else rpm in
  let rpm_ratio := IZR rpm / IZR (CarPhysics.power_curve_peak physics) in
  let power_factor := exp (- 0.5 * ((rpm_ratio - 1) ^ 2) / 0.3) in
  CarPhysics.max_power physics * power_factor * (throttle / 100).

Definition calculate_aerodynamic_forces (speed : R) : R * R :=
  let drag := 0.5 * F1PhysicsSimulator.air_density self * (speed ^ 2)
              * CarPhysics.drag_coefficient physics
              * CarPhysics.frontal_area physics in
  let downforce := 0.5 * F1PhysicsSimulator.air_density self * (speed ^ 2)
                   * CarPhysics.downforce_coefficient physics
                   * CarPhysics.frontal_area physics in
  (drag, downforce).

Definition calculate_braking_force (brake_input speed downforce : R) : R :=
  let normal_force :=
    CarPhysics.mass physics * F1PhysicsSimulator.gravity self + downforce in
  let max_brake := normal_force * CarPhysics.tire_grip_coefficient physics in
  Py.min (CarPhysics.max_brake_force physics * (brake_input / 100)) max_brake.

(** The engine branch of [update_car_state]: the pair (engine force, rpm)
    left in the state after the [if state.gear >= 1 and ...] statement. *)
Definition engine_force_and_rpm (speed : R) (gear : Z) (throttle normal_force : R)
  : R * Z :=
  if ((1 <=? gear)%Z
      && (gear <=? Z.of_nat (length (CarPhysics.gear_ratios physics)))%Z)%bool
  then
    let gear_ratio := nth (Z.to_nat (gear - 1)) (CarPhysics.gear_ratios physics) 0 in
    let rpm :=
      if Rlt_dec 0.1 speed then
        let wheel_rpm := (speed * 60) / (2 * PI * 0.33) in
        Py.int (wheel_rpm * gear_ratio * CarPhysics.final_drive physics)
      else CarPhysics.idle_rpm physics in
    let rpm := Z.max (CarPhysics.idle_rpm physics)
                     (Z.min rpm (CarPhysics.max_rpm physics)) in
    let power := calculate_engine_power rpm throttle in
    let speed_kmh := speed * 3.6 in
    if Rlt_dec speed_kmh 100 then
      let desired_force :=
        if Rlt_dec 0.5 speed then power / speed
        else 10000 * (throttle / 100) in
      let base_grip := 0.85 in
      let speed_factor := speed_kmh / 100 in
      let effective_grip :=
        base_grip
        + (CarPhysics.tire_grip_coefficient physics - base_grip) * speed_factor in
      let max_traction := normal_force * effective_grip in
      (Py.min desired_force max_traction, rpm)
    else
      let engine_force := power / speed in
      let max_traction :=
        normal_force * CarPhysics.tire_grip_coefficient physics in
      (Py.min engine_force max_traction, rpm)
  else (0, CarPhysics.idle_rpm physics).

(** The heading after the bicycle-model turning step. *)
Definition turn_heading (heading speed steering : R) : R :=
  if Rlt_dec 0.01 (Rabs steering) then
    let steering_angle := steering * Py.radians 30 in
    let wheelbase := 3.6 in
    let turning_radius := wheelbase / tan (Rabs steering_angle) in
    let angular_velocity := speed / turning_radius * Py.sign steering in
    Py.fmod (heading + angular_velocity * F1PhysicsSimulator.dt self) (2 * PI)
  else heading.

(** The automatic gearbox rule at the end of [update_car_state]. *)
Definition shift_gear (rpm gear : Z) : Z :=
  if (Py.ltb (IZR (CarPhysics.max_rpm physics) * 0.95) (IZR rpm)
      && (gear <? 8)%Z)%bool
  then (gear + 1)%Z
  else if (Py.ltb (IZR rpm) (IZR (CarPhysics.max_rpm physics) * 0.5)
           && (1 <? gear)%Z)%bool
  then (gear - 1)%Z
  else gear.

(** [update_car_state(state, throttle, brake, steering)]: the state object
    is mutated in place and returned; here the new state is returned.  The
    divisions of the source are by the mass, by the peak rpm, by the speed
    (guarded by [speed > 0.5] or by the 100 km/h test) and by a tangent of an
    angle between 0.3 and 30 degrees: with the parameters of [CarPhysics()]
    none of them is by zero. *)
Definition update_car_state (state : CarState.t) (throttle brake steering : R)
  : CarState.t :=
  let dt := F1PhysicsSimulator.dt self in
  (* Update inputs *)
  let throttle := Py.clip throttle 0 100 in
  let brake := Py.clip brake 0 100 in
  let steering := Py.clip steering (-1) 1 in
  (* Aerodynamic forces at the incoming speed *)
  let '(drag, downforce) := calculate_aerodynamic_forces (CarState.speed state) in
  let normal_force :=
    CarPhysics.mass physics * F1PhysicsSimulator.gravity self + downforce in
  (* Engine force, rpm *)
  let '(engine_force, rpm) :=
    engine_force_and_rpm (CarState.speed state) (CarState.gear state)
                         throttle normal_force in
  (* Braking force *)
  let brake_force :=
    calculate_braking_force brake (CarState.speed state) downforce in
  let net_force := engine_force - drag - brake_force in
  let acceleration := net_force / CarPhysics.mass physics in
  (* Update speed *)
  let speed := Py.max 0 (CarState.speed state + acceleration * dt) in
  (* Turning *)
  let heading := turn_heading (CarState.heading state) speed steering in
  (* Update position *)
  let vx := speed * cos heading in
  let vy := speed * sin heading in
  CarState.mk
    (CarState.x state + vx * dt)
    (CarState.y state + vy * dt)
    heading
    speed
    vx
    vy
    throttle
    brake
    steering
    (shift_gear rpm (CarState.gear state))
    rpm
    (CarState.tire_temp state)
    (CarState.fuel_kg state)
    (CarState.lap_time state + dt)
    (CarState.distance state + speed * dt).

End Simulator.

(** The run of the test at the end of [f1_physics_simulator.py]: a state
    advanced [n] times with [throttle=100, brake=0, steering=0]. *)
Fixpoint full_throttle_run (start : CarState.t) (n : nat) : CarState.t :=
  match n with
  | O => start
  | S k =>
      update_car_state F1PhysicsSimulator.default (full_throttle_run start k) 100 0 0
  end.

(** ** ai_racing_agent.py: MonacoTrackKnowledge *)

(** One entry of [verstappen_data['telemetry']] as loaded from JSON.  The
    ['distance'] key is optional in the file. *)
Module RawSample.

Record t : Type := mk {
  x : R;
  y : R;
  z : R;
  distance : option R;
  speed : R;
  throttle : R;
  brake : R
}.

End RawSample.

(** A telemetry entry once ['distance'] is known to be present. *)
Module Sample.

Record t : Type := mk {
  x : R;
  y : R;
  z : R;
  distance : R;
  speed : R;
  throttle : R;
  brake : R
}.

(** Placeholder for list accesses that are always in range. *)
Definition zero : t := mk 0 0 0 0 0 0 0.

End Sample.

(** An element of [racing_line]. *)
Module LinePoint.

Record t : Type := mk {
  distance : R;
  x : R;
  y : R;
  speed : R;
  throttle : R;
  brake : R
}.

End LinePoint.

Module BrakingZone.

Record t : Type := mk {
  start_distance : R;
  end_distance : R;
  entry_speed : R;
  exit_speed : R;
  braking_distance : R
}.

End BrakingZone.

Module Apex.

Record t : Type := mk {
  distance : R;
  x : R;
  y : R;
  speed : R
}.

End Apex.

Module Turn.

Record t : Type := mk {
  apex_distance : R;
  apex_speed : R;
  braking_point : R;
  braking_distance : R;
  entry_speed : R;
  apex_coords : R * R
}.

End Turn.

(** The ['type'] of a curvature zone. *)
Module CurveType.

Inductive t : Type :=
| straight
| fast_corner
| medium_corner
| slow_corner.

Definition eqb (a b : t) : bool :=
  match a, b with
  | straight, straight => true
  | fast_corner, fast_corner => true
  | medium_corner, medium_corner => true
  | slow_corner, slow_corner => true
  | _, _ => false
  end.

End CurveType.

(** An element of the list [_analyze_curvature] returns. *)
Module Zone.

Record t : Type := mk {
  type : CurveType.t;
  severity : R;
  start_distance : R;
  end_distance : R;
  min_speed : R;
  entry_speed : R
}.

End Zone.

(** An element of the list [_calculate_speed_targets] returns. *)
Module SpeedTarget.

Record t : Type := mk {
  distance : R;
  distance_ahead : Z;
  target_speed : R;
  recommended_throttle : R;
  recommended_brake : R
}.

End SpeedTarget.

(** The strings [_classify_section] returns. *)
Module SectionType.

Inductive t : Type :=
| final_straight
| straight
| braking_approach
| corner_entry
| apex_zone
| corner_exit.

End SectionType.

(** The dictionary [_get_racing_line_strategy] returns, one constructor per
    value of ['strategy'], with the numbers that dictionary carries.  The
    texts (['description'], ['positioning'], ['risk_level'], ['focus']) are
    fixed by the strategy, up to the distance printed in the description of
    [prepare_braking], and are left out. *)
Module Strategy.

Inductive t : Type :=
| maximum_attack
| straight_line_speed (target_speed : R)
| prepare_braking (braking_point target_entry_speed : R)
| braking_zone (target_apex_speed : R)
| apex_approach (target_apex_speed : R)
| corner_exit.

End Strategy.

(** The dictionary [get_track_section_info] returns. *)
Module SectionInfo.

Record t : Type := mk {
  current_distance : R;
  track_progress_pct : R;
  next_turn : option Turn.t;
  upcoming_turns : list Turn.t;
  distance_to_next_turn : option R;
  curvature_zones : list Zone.t;
  speed_targets : list SpeedTarget.t;
  racing_line_strategy : Strategy.t;
  section_type : SectionType.t
}.

End SectionInfo.

(** The dictionary [get_optimal_speed_and_angle] returns. *)
Module Guidance.

Record t : Type := mk {
  optimal_speed : R;
  steering_angle : R;
  section_type : SectionType.t;
  reference_throttle : R;
  reference_brake : R;
  qualifying_speed : R;
  race_speed : R;
  overtaking_speed : R;
  defending_speed : R;
  wet_speed : R;
  next_turn_info : option Turn.t;
  recommended_strategy : Strategy.t
}.

End Guidance.

(** [min(values)] of a list: the first smallest element.  Python raises on
    an empty list; every call below passes a non-empty one. *)
Definition list_min (values : list R) : R :=
  match values with
  | [] => 0
  | v :: rest => fold_left Py.min rest v
  end.

(** [max(values)] of a list: the first largest element. *)
Definition list_max (values : list R) : R :=
  match values with
  | [] => 0
  | v :: rest => fold_left Py.max rest v
  end.

Module MonacoTrackKnowledge.

Record t : Type := mk {
  telemetry : list Sample.t;
  track_length : R;
  racing_line : list LinePoint.t;
  braking_zones : list BrakingZone.t;
  apex_points : list Apex.t;
  critical_turns : list Turn.t
}.

(** The loop of [__init__] that fills in ['distance'] when the first entry
    has none: cumulative 3-D length, 0 for the first entry.  [prev] is the
    previous entry ([None] when [i = 0]) and [distance] the running sum. *)
Fixpoint compute_distances (prev : option RawSample.t) (distance : R)
                           (telemetry : list RawSample.t) : list Sample.t :=
  match telemetry with
  | [] => []
  | point :: rest =>
      let distance :=
        match prev with
        | None => distance
        | Some prev =>
            let dx := RawSample.x point - RawSample.x prev in
            let dy := RawSample.y point - RawSample.y prev in
            let dz := RawSample.z point - RawSample.z prev in
            distance + sqrt (dx ^ 2 + dy ^ 2 + dz ^ 2)
        end in
      Sample.mk (RawSample.x point) (RawSample.y point) (RawSample.z point)
                distance
                (RawSample.speed point) (RawSample.throttle point)
                (RawSample.brake point)
      :: compute_distances (Some point) distance rest
  end.

(** Entries read with their own ['distance']; [None] is the [KeyError] of
    the first later access to a missing key. *)
Fixpoint given_distances (telemetry : list RawSample.t) : option (list Sample.t) :=
  match telemetry with
  | [] => Some []
  | point :: rest =>
      match RawSample.distance point, given_distances rest with
      | Some d, Some rest' =>
          Some (Sample.mk (RawSample.x point) (RawSample.y point)
                          (RawSample.z point) d
                          (RawSample.speed point) (RawSample.throttle point)
                          (RawSample.brake point) :: rest')
      | _, _ => None
      end
  end.

(** Telemetry after the ['distance' not in self.telemetry[0]] block;
    [None] for the [IndexError] on an empty list and for a [KeyError]. *)
Definition with_distances (telemetry : list RawSample.t) : option (list Sample.t) :=
  match telemetry with
  | [] => None
  | first :: _ =>
      match RawSample.distance first with
      | None => Some (compute_distances None 0 telemetry)
      | Some _ => given_distances telemetry
      end
  end.

Definition _extract_racing_line (telemetry : list Sample.t) : list LinePoint.t :=
  map (fun t => LinePoint.mk (Sample.distance t) (Sample.x t) (Sample.y t)
                             (Sample.speed t) (Sample.throttle t)
                             (Sample.brake t))
      telemetry.

(** The [while j < len(...) and self.telemetry[j]['brake']] scan, run on the
    entries from index [j] on: the first index at which the brake is off, or
    the length of the telemetry. *)
Fixpoint brake_run_end (from_j : list Sample.t) (j : nat) : nat :=
  match from_j with
  | [] => j
  | t :: rest =>
      if Py.truthy (Sample.brake t) then brake_run_end rest (S j) else j
  end.

Definition _find_braking_zones (telemetry : list Sample.t) : list BrakingZone.t :=
  flat_map
    (fun i =>
       let t := nth i telemetry Sample.zero in
       if (Py.truthy (Sample.brake t)
           && ((i =? 0)%nat
               || negb (Py.truthy (Sample.brake (nth (i - 1) telemetry Sample.zero)))))%bool
       then
         let braking_start := Sample.distance t in
         let entry_speed := Sample.speed t in
         let j := brake_run_end (skipn i telemetry) i in
         if (j <? length telemetry)%nat then
           let braking_end := Sample.distance (nth j telemetry Sample.zero) in
           let exit_speed := Sample.speed (nth j telemetry Sample.zero) in
           [BrakingZone.mk braking_start braking_end entry_speed exit_speed
                           (braking_end - braking_start)]
         else []
       else [])
    (seq 0 (length telemetry)).

Definition window : nat := 20.

(** The test of [_find_apex_points] at index [i]. *)
Definition is_apex_index (telemetry : list Sample.t) (i : nat) : bool :=
  let speeds :=
    map (fun j => Sample.speed (nth j telemetry Sample.zero))
        (seq (i - window) ((i + window) - (i - window))) in
  let speed_i := Sample.speed (nth i telemetry Sample.zero) in
  (Py.eqb speed_i (list_min speeds) && Py.ltb speed_i 150)%bool.

Definition apex_of (t : Sample.t) : Apex.t :=
  Apex.mk (Sample.distance t) (Sample.x t) (Sample.y t) (Sample.speed t).

(** [for i in range(window, len(self.telemetry) - window)]. *)
Definition _find_apex_points (telemetry : list Sample.t) : list Apex.t :=
  flat_map
    (fun i =>
       if is_apex_index telemetry i
       then [apex_of (nth i telemetry Sample.zero)]
       else [])
    (seq window (length telemetry - window - window)).

(** The inner [for bz in self.braking_zones: ... break] search. *)
Definition corresponding_zone (braking_zones : list BrakingZone.t) (apex : Apex.t)
  : option BrakingZone.t :=
  find (fun bz =>
          (Py.ltb (BrakingZone.start_distance bz) (Apex.distance apex)
           && Py.ltb (Apex.distance apex) (BrakingZone.end_distance bz + 100))%bool)
       braking_zones.

Definition _analyze_critical_turns (braking_zones : list BrakingZone.t)
                                   (apex_points : list Apex.t) : list Turn.t :=
  flat_map
    (fun apex =>
       match corresponding_zone braking_zones apex with
       | Some braking_zone =>
           [Turn.mk (Apex.distance apex) (Apex.speed apex)
                    (BrakingZone.start_distance braking_zone)
                    (BrakingZone.braking_distance braking_zone)
                    (BrakingZone.entry_speed braking_zone)
                    (Apex.x apex, Apex.y apex)]
       | None => []
       end)
    apex_points.

(** [MonacoTrackKnowledge(path)], from the telemetry list the JSON file
    holds. *)
Definition init (raw : list RawSample.t) : option t :=
  match with_distances raw with
  | None => None
  | Some telemetry =>
      let track_length := list_max (map Sample.distance telemetry) in
      let racing_line := _extract_racing_line telemetry in
      let braking_zones := _find_braking_zones telemetry in
      let apex_points := _find_apex_points telemetry in
      let critical_turns := _analyze_critical_turns braking_zones apex_points in
      Some (mk telemetry track_length racing_line braking_zones apex_points
               critical_turns)
  end.

(** The scan of [get_nearest_line_point] with its two loop variables. *)
Fixpoint nearest_scan (x y : R) (line : list LinePoint.t)
                      (min_dist : ExtR) (nearest : option LinePoint.t)
  : option LinePoint.t :=
  match line with
  | [] => nearest
  | point :: rest =>
      let dist := sqrt ((LinePoint.x point - x) ^ 2 + (LinePoint.y point - y) ^ 2) in
      if lt_ext dist min_dist
      then nearest_scan x y rest (Fin dist) (Some point)
      else nearest_scan x y rest min_dist nearest
  end.

(** Returns Python's [None] (here [None]) when the racing line is empty. *)
Definition get_nearest_line_point (self : t) (x y : R) : option LinePoint.t :=
  nearest_scan x y (racing_line self) Inf None.

(** [get_upcoming_turn]: the first turn, in list order, whose apex lies
    beyond [current_distance]. *)
Definition get_upcoming_turn (self : t) (current_distance : R) : option Turn.t :=
  find (fun turn => Py.ltb current_distance (Turn.apex_distance turn))
       (critical_turns self).

(** The scan of [_get_telemetry_index], run on the entries from index [i]
    on, with its two loop variables. *)
Fixpoint index_scan (distance : R) (from_i : list Sample.t) (i : nat)
                    (min_diff : ExtR) (best_idx : nat) : nat :=
  match from_i with
  | [] => best_idx
  | point :: rest =>
      let diff := Rabs (Sample.distance point - distance) in
      if lt_ext diff min_diff
      then index_scan distance rest (S i) (Fin diff) i
      else index_scan distance rest (S i) min_diff best_idx
  end.

Definition _get_telemetry_index (self : t) (distance : R) : nat :=
  index_scan distance (telemetry self) 0 Inf 0.

(** The curve type and severity [_analyze_curvature] reads off a speed. *)
Definition classify_speed (speed : R) : CurveType.t * R :=
  if Rlt_dec 250 speed then (CurveType.straight, 0)
  else if Rlt_dec 200 speed then (CurveType.fast_corner, 0.3)
  else if Rlt_dec 150 speed then (CurveType.medium_corner, 0.6)
  else (CurveType.slow_corner, 0.9).

(** The loop of [_analyze_curvature] over the entries it visits, with
    [zones] and [current_zone] as loop variables; [limit] is
    [start_distance + lookahead], beyond which the loop breaks. *)
Fixpoint curvature_scan (limit : R) (entries : list Sample.t)
                        (zones : list Zone.t) (current_zone : option Zone.t)
  : list Zone.t * option Zone.t :=
  match entries with
  | [] => (zones, current_zone)
  | t :: rest =>
      if Py.ltb limit (Sample.distance t) then (zones, current_zone)
      else
        let speed := Sample.speed t in
        let '(curve_type, severity) := classify_speed speed in
        let opened :=
          Zone.mk curve_type severity (Sample.distance t) (Sample.distance t)
                  speed speed in
        match current_zone with
        | None => curvature_scan limit rest zones (Some opened)
        | Some zone =>
            if CurveType.eqb (Zone.type zone) curve_type
            then
              curvature_scan limit rest zones
                (Some (Zone.mk (Zone.type zone) (Zone.severity zone)
                               (Zone.start_distance zone) (Sample.distance t)
                               (Py.min (Zone.min_speed zone) speed)
                               (Zone.entry_speed zone)))
            else curvature_scan limit rest (zones ++ [zone]) (Some opened)
        end
  end.

(** [_analyze_curvature(start_idx, lookahead)]; the entries visited are those
    of [range(start_idx, min(start_idx + 200, len(self.telemetry)))].  [None]
    is the [IndexError] of [self.telemetry[start_idx]]. *)
Definition _analyze_curvature (self : t) (start_idx : nat) (lookahead : R)
  : option (list Zone.t) :=
  match nth_error (telemetry self) start_idx with
  | None => None
  | Some start =>
      let start_distance := Sample.distance start in
      let '(zones, current_zone) :=
        curvature_scan (start_distance + lookahead)
                       (firstn 200 (skipn start_idx (telemetry self))) [] None in
      match current_zone with
      | Some zone => Some (zones ++ [zone])
      | None => Some zones
      end
  end.

(** [_calculate_speed_targets(start_idx, lookahead)]. *)
Definition _calculate_speed_targets (self : t) (start_idx : nat) (lookahead : R)
  : option (list SpeedTarget.t) :=
  match nth_error (telemetry self) start_idx with
  | None => None
  | Some start =>
      let start_distance := Sample.distance start in
      Some
        (flat_map
           (fun distance_ahead =>
              let target_distance := start_distance + IZR distance_ahead in
              let idx := _get_telemetry_index self target_distance in
              match nth_error (telemetry self) idx with
              | Some point =>
                  [SpeedTarget.mk (Sample.distance point) distance_ahead
                                  (Sample.speed point) (Sample.throttle point)
                                  (Sample.brake point)]
              | None => []
              end)
           (Py.range_by_50 (Py.int lookahead)))
  end.

Definition _get_racing_line_strategy (current_distance : R) (next_turn : option Turn.t)
  : Strategy.t :=
  match next_turn with
  | None => Strategy.maximum_attack
  | Some next_turn =>
      let distance_to_turn := Turn.braking_point next_turn - current_distance in
      if Rlt_dec 150 distance_to_turn then
        Strategy.straight_line_speed (Turn.entry_speed next_turn)
      else if Rlt_dec 50 distance_to_turn then
        Strategy.prepare_braking (Turn.braking_point next_turn)
                                 (Turn.entry_speed next_turn)
      else if Rlt_dec 0 distance_to_turn then
        Strategy.braking_zone (Turn.apex_speed next_turn)
      else
        let distance_to_apex := Turn.apex_distance next_turn - current_distance in
        if Rlt_dec 0 distance_to_apex
        then Strategy.apex_approach (Turn.apex_speed next_turn)
        else Strategy.corner_exit
  end.

Definition _classify_section (current_distance : R) (next_turn : option Turn.t)
  : SectionType.t :=
  match next_turn with
  | None => SectionType.final_straight
  | Some next_turn =>
      let distance_to_braking := Turn.braking_point next_turn - current_distance in
      let distance_to_apex := Turn.apex_distance next_turn - current_distance in
      if Rlt_dec 100 distance_to_braking then SectionType.straight
      else if Rlt_dec 0 distance_to_braking then SectionType.braking_approach
      else if Rlt_dec 0 distance_to_apex then SectionType.corner_entry
      else if Rlt_dec (-50) distance_to_apex then SectionType.apex_zone
      else SectionType.corner_exit
  end.

(** [get_track_section_info(current_distance, lookahead)]; [None] is the
    [IndexError] of the two helpers on an empty telemetry or the
    [ZeroDivisionError] of the progress percentage. *)
Definition get_track_section_info (self : t) (current_distance lookahead : R)
  : option SectionInfo.t :=
  let current_idx := _get_telemetry_index self current_distance in
  let lookahead_distance := current_distance + lookahead in
  let upcoming_turns :=
    filter (fun turn =>
              (Py.ltb current_distance (Turn.apex_distance turn)
               && Py.leb (Turn.apex_distance turn) lookahead_distance)%bool)
           (critical_turns self) in
  let next_turn := nth_error upcoming_turns 0 in
  match _analyze_curvature self current_idx lookahead with
  | None => None
  | Some curvature_zones =>
      match _calculate_speed_targets self current_idx lookahead with
      | None => None
      | Some speed_targets =>
          let racing_line_advice :=
            _get_racing_line_strategy current_distance next_turn in
          if Py.eqb (track_length self) 0 then None
          else
            Some (SectionInfo.mk
                    current_distance
                    ((current_distance / track_length self) * 100)
                    next_turn
                    upcoming_turns
                    (match next_turn with
                     | Some next_turn =>
                         Some (Turn.braking_point next_turn - current_distance)
                     | None => None
                     end)
                    curvature_zones
                    speed_targets
                    racing_line_advice
                    (_classify_section current_distance next_turn))
      end
  end.

(** The lookahead [get_track_section_info] uses when none is given. *)
Definition default_lookahead : R := 200.

(** [get_optimal_speed_and_angle(current_distance)]. *)
Definition get_optimal_speed_and_angle (self : t) (current_distance : R)
  : option Guidance.t :=
  let idx := _get_telemetry_index self current_distance in
  match nth_error (telemetry self) idx with
  | None => None
  | Some reference_point =>
      match get_track_section_info self current_distance default_lookahead with
      | None => None
      | Some section_info =>
          let optimal_speed := Sample.speed reference_point in
          let steering_angle :=
            if ((0 <? idx)%nat && (idx <? length (telemetry self) - 1)%nat)%bool
            then
              let prev := nth (idx - 1) (telemetry self) Sample.zero in
              let next_p := nth (idx + 1) (telemetry self) Sample.zero in
              let dx1 := Sample.x reference_point - Sample.x prev in
              let dy1 := Sample.y reference_point - Sample.y prev in
              let dx2 := Sample.x next_p - Sample.x reference_point in
              let dy2 := Sample.y next_p - Sample.y reference_point in
              let angle1 := Py.arctan2 dy1 dx1 in
              let angle2 := Py.arctan2 dy2 dx2 in
              let steering_angle := Py.degrees (angle2 - angle1) in
              Py.max (-45) (Py.min 45 steering_angle)
            else 0 in
          Some (Guidance.mk
                  optimal_speed
                  steering_angle
                  (SectionInfo.section_type section_info)
                  (Sample.throttle reference_point)
                  (Sample.brake reference_point)
                  optimal_speed
                  (optimal_speed * 0.97)
                  (optimal_speed * 1.02)
                  (optimal_speed * 0.98)
                  (optimal_speed * 0.85)
                  (SectionInfo.next_turn section_info)
                  (SectionInfo.racing_line_strategy section_info))
      end
  end.

End MonacoTrackKnowledge.

(** ** ai_racing_agent.py: AIRacingAgent *)

(** The phase [decide_controls] assigns to the car. *)
Module Phase.

Inductive t : Type :=
| straight
| braking
| turn_in
| apex
| exit.

End Phase.

(** [AIDecision]; the three reason texts are left out, and [risk_level] is
    [true] for ["aggressive"], [false] for ["balanced"]. *)
Module AIDecision.

Record t : Type := mk {
  time : R;
  distance : R;
  speed : R;
  position_x : R;
  position_y : R;
  upcoming_turn_distance : R;
  upcoming_turn_radius : R;
  current_turn_phase : Phase.t;
  throttle_decision : R;
  brake_decision : R;
  steering_decision : R;
  expected_speed_change : R;
  expected_time_gain : R;
  risk_level_aggressive : bool
}.

End AIDecision.

Module AIRacingAgent.

Record t : Type := mk {
  track : MonacoTrackKnowledge.t;
  simulator : F1PhysicsSimulator.t;
  brake_aggression : R;
  apex_precision : R;
  throttle_confidence : R;
  current_decisions : list AIDecision.t
}.

(** [AIRacingAgent(track_knowledge)]. *)
Definition init (track_knowledge : MonacoTrackKnowledge.t) : t :=
  mk track_knowledge F1PhysicsSimulator.default 0.8 0.9 0.7 [].

(** The phase, [dist_to_turn] and [braking_point] of [decide_controls]. *)
Definition current_phase (upcoming_turn : option Turn.t) (distance : R)
  : Phase.t * R * R :=
  match upcoming_turn with
  | Some upcoming_turn =>
      let dist_to_turn := Turn.apex_distance upcoming_turn - distance in
      let braking_point := Turn.braking_point upcoming_turn - distance in
      let phase :=
        if Rlt_dec dist_to_turn (-50) then Phase.exit
        else if (Py.ltb braking_point 10 && Py.ltb 10 dist_to_turn)%bool
        then Phase.braking
        else if (Py.ltb dist_to_turn 10 && Py.ltb (-20) dist_to_turn)%bool
        then Phase.apex
        else if Rlt_dec dist_to_turn 50 then Phase.turn_in
        else Phase.straight in
      (phase, dist_to_turn, braking_point)
  | None => (Phase.straight, 1000, 1000)
  end.

Definition throttle_for (self : t) (phase : Phase.t) : R :=
  match phase with
  | Phase.straight => 100
  | Phase.exit => 80 + throttle_confidence self * 20
  | Phase.apex => 30
  | Phase.turn_in => 50
  | Phase.braking => 0
  end.

Definition brake_for (self : t) (phase : Phase.t) (upcoming_turn : option Turn.t)
                     (speed : R) : R :=
  match phase with
  | Phase.braking =>
      match upcoming_turn with
      | Some upcoming_turn =>
          let speed_diff := speed * 3.6 - Turn.apex_speed upcoming_turn in
          let brake_intensity := Py.min 100 (speed_diff / 2) in
          brake_intensity * brake_aggression self
      | None => 0
      end
  | Phase.turn_in => 20
  | _ => 0
  end.

(** [while heading_error > math.pi: heading_error -= 2 * math.pi], for at
    most [rounds] rounds. *)
Fixpoint wrap_down (rounds : nat) (heading_error : R) : R :=
  match rounds with
  | O => heading_error
  | S rounds =>
      if Rlt_dec PI heading_error
      then wrap_down rounds (heading_error - 2 * PI)
      else heading_error
  end.

(** [while heading_error < -math.pi: heading_error += 2 * math.pi], for at
    most [rounds] rounds. *)
Fixpoint wrap_up (rounds : nat) (heading_error : R) : R :=
  match rounds with
  | O => heading_error
  | S rounds =>
      if Rlt_dec heading_error (- PI)
      then wrap_up rounds (heading_error + 2 * PI)
      else heading_error
  end.

(** A number of rounds after which either loop has stopped. *)
Definition enough_rounds (heading_error : R) : nat :=
  Z.to_nat (up (Rabs heading_error / (2 * PI))).

(** The two normalisation loops, one after the other. *)
Definition normalize_heading_error (heading_error : R) : R :=
  let heading_error := wrap_down (enough_rounds heading_error) heading_error in
  wrap_up (enough_rounds heading_error) heading_error.

Definition steering_for (nearest : option LinePoint.t) (state : CarState.t) : R :=
  match nearest with
  | Some nearest =>
      let target_x := LinePoint.x nearest in
      let target_y := LinePoint.y nearest in
      let dx := target_x - CarState.x state in
      let dy := target_y - CarState.y state in
      let target_heading := Py.arctan2 dy dx in
      let heading_error := target_heading - CarState.heading state in
      let heading_error := normalize_heading_error heading_error in
      Py.clip (heading_error / Py.radians 30) (-1) 1
  | None => 0
  end.

(** [decide_controls(state, time)]: the agent with the decision appended to
    its log, and the controls [(throttle, brake, steering)]. *)
Definition decide_controls (self : t) (state : CarState.t) (time : R)
  : t * (R * R * R) :=
  let nearest :=
    MonacoTrackKnowledge.get_nearest_line_point
      (track self) (CarState.x state) (CarState.y state) in
  let upcoming_turn :=
    MonacoTrackKnowledge.get_upcoming_turn (track self) (CarState.distance state) in
  let '(phase, dist_to_turn, braking_point) :=
    current_phase upcoming_turn (CarState.distance state) in
  let throttle := throttle_for self phase in
  let brake := brake_for self phase upcoming_turn (CarState.speed state) in
  let steering := steering_for nearest state in
  let decision :=
    AIDecision.mk time (CarState.distance state) (CarState.speed state * 3.6)
                  (CarState.x state) (CarState.y state)
                  dist_to_turn
                  (match upcoming_turn with Some _ => 100 | None => 0 end)
                  phase throttle brake steering 0 0
                  (Py.ltb 0.85 (brake_aggression self)) in
  (mk (track self) (simulator self) (brake_aggression self) (apex_precision self)
      (throttle_confidence self) (current_decisions self ++ [decision]),
   (throttle, brake, steering)).

End AIRacingAgent.

(** A track on which the environment can run: [__init__] did not fail, so
    telemetry and racing line are not empty, and the track has a length. *)
Definition usable (track : MonacoTrackKnowledge.t) : Prop :=
  MonacoTrackKnowledge.racing_line track <> []
  /\ MonacoTrackKnowledge.telemetry track <> []
  /\ MonacoTrackKnowledge.track_length track <> 0.

(** A racing-line point located at [(x, y)]. *)
Definition same_position (x y : R) (p : LinePoint.t) : bool :=
  (Py.eqb (LinePoint.x p) x && Py.eqb (LinePoint.y p) y)%bool.

(** Orders on telemetry entries and on turns, by their distance. *)
Definition by_distance (rel : R -> R -> Prop) (a b : Sample.t) : Prop :=
  rel (Sample.distance a) (Sample.distance b).

Definition by_apex_distance (rel : R -> R -> Prop) (a b : Turn.t) : Prop :=
  rel (Turn.apex_distance a) (Turn.apex_distance b).

(** Entry [i] is slowest among the entries at most [window] places away
    from it, on either side. *)
Definition symmetric_window_minimum (telemetry : list Sample.t) (i : nat) : Prop :=
  forall j, (i - MonacoTrackKnowledge.window <= j <= i + MonacoTrackKnowledge.window)%nat ->
            (j < length telemetry)%nat ->
            Sample.speed (nth i telemetry Sample.zero)
            <= Sample.speed (nth j telemetry Sample.zero).

(** The distance [get_nearest_line_point] measures from [(x, y)] to a
    racing-line point. *)
Definition line_distance (x y : R) (point : LinePoint.t) : R :=
  sqrt ((LinePoint.x point - x) ^ 2 + (LinePoint.y point - y) ^ 2).

(** The difference [_get_telemetry_index] measures at index [i]. *)
Definition index_diff (telemetry : list Sample.t) (distance : R) (i : nat) : R :=
  Rabs (Sample.distance (nth i telemetry Sample.zero) - distance).

(** A zone that has the type and severity of the speed class in which both
    its entry speed and its minimum speed lie, the minimum not above the
    entry speed. *)
Definition zone_of_class (zone : Zone.t) : Prop :=
  MonacoTrackKnowledge.classify_speed (Zone.entry_speed zone)
  = (Zone.type zone, Zone.severity zone)
  /\ MonacoTrackKnowledge.classify_speed (Zone.min_speed zone)
     = (Zone.type zone, Zone.severity zone)
  /\ Zone.min_speed zone <= Zone.entry_speed zone.

(** No two neighbours in the list have the same type. *)
Fixpoint alternating (zones : list Zone.t) : Prop :=
  match zones with
  | a :: (b :: _) as rest => Zone.type a <> Zone.type b /\ alternating rest
  | _ => True
  end.

(** The zone [_analyze_curvature] is still extending, as a list. *)
Definition open_zone (current_zone : option Zone.t) : list Zone.t :=
  match current_zone with
  | Some zone => [zone]
  | None => []
  end.

(** The first critical turn whose apex lies ahead of [current_distance],
    at most [lookahead] away. *)
Definition next_turn_within (self : MonacoTrackKnowledge.t) (current_distance lookahead : R)
  : option Turn.t :=
  find (fun turn =>
          (Py.ltb current_distance (Turn.apex_distance turn)
           && Py.leb (Turn.apex_distance turn) (current_distance + lookahead))%bool)
       (MonacoTrackKnowledge.critical_turns self).

(** The car state at the start of an episode: position and heading are read
    off the racing-line points [first] and [second], speed, gear and engine
    speed are fixed, the controls and the lap counters are cleared, and the
    velocity components, tyre temperature and fuel are those of the state
    [before]. *)
Definition start_state (first second : LinePoint.t) (before : CarState.t) : CarState.t :=
  CarState.mk (LinePoint.x first) (LinePoint.y first)
              (Py.arctan2 (LinePoint.y second - LinePoint.y first)
                          (LinePoint.x second - LinePoint.x first))
              8.3 (CarState.vx before) (CarState.vy before)
              0 0 0 2%Z 6000%Z
              (CarState.tire_temp before) (CarState.fuel_kg before) 0 0.

(** ** train.py: TrainingConfig and RacingEnv *)

Module TrainingConfig.

Record t : Type := mk {
  max_steps_per_episode : Z;
  crash_penalty : R;
  completion_reward : R;
  progress_reward : R;
  speed_reward : R;
  time_penalty : R
}.

(** [TrainingConfig()]; the learning-rate fields play no role in the
    environment and are left out. *)
Definition default : t := mk 10000%Z (-50) 200 1 0.01 (-0.01).

End TrainingConfig.

(** An element of [left_boundary] / [right_boundary]. *)
Module BoundaryPoint.

Record t : Type := mk {
  x : R;
  y : R
}.

Definition eq_dec (p q : t) : {p = q} + {p <> q}.
Proof.
  destruct p as [px py], q as [qx qy].
  destruct (Req_dec_T px qx) as [Hx | Hx].
  - destruct (Req_dec_T py qy) as [Hy | Hy].
    + left. now subst.
    + right. intros H. now inversion H.
  - right. intros H. now inversion H.
Defined.

End BoundaryPoint.

(** [boundary == self.left_boundary]: equality of lists by value. *)
Definition boundary_eqb (a b : list BoundaryPoint.t) : bool :=
  if list_eq_dec BoundaryPoint.eq_dec a b then true else false.

Inductive crash_reason : Type :=
| off_track
| stuck
| backwards.

(** The [info] dictionary of [_calculate_reward], one constructor per shape
    it can take. *)
Inductive Info : Type :=
| InfoCrash (crash_reason : crash_reason)
| InfoCompleted (lap_time : R)
| InfoTimeout
| InfoOngoing (distance speed distance_from_line : R).

(** An element of [position_history]. *)
Module HistoryEntry.

Record t : Type := mk {
  x : R;
  y : R;
  speed : R;
  distance : R
}.

End HistoryEntry.

(** What [step] returns besides the observation. *)
Module StepResult.

Record t : Type := mk {
  reward : R;
  done : bool;
  info : Info
}.

End StepResult.

Module RacingEnv.

Record t : Type := mk {
  track : MonacoTrackKnowledge.t;
  config : TrainingConfig.t;
  simulator : F1PhysicsSimulator.t;
  (* [has_boundaries], [left_boundary], [right_boundary] *)
  boundaries : option (list BoundaryPoint.t * list BoundaryPoint.t);
  state : CarState.t;
  steps : nat;
  last_distance : R;
  best_distance : R;
  lap_start_time : R;
  consecutive_no_progress : nat;
  position_history : list HistoryEntry.t;
  last_x : R;
  last_y : R;
  total_physical_distance : R
}.

(** [RacingEnv(track, config)]; [boundaries] is the content of the
    boundaries file when it exists. *)
Definition init (track : MonacoTrackKnowledge.t) (config : TrainingConfig.t)
                (boundaries : option (list BoundaryPoint.t * list BoundaryPoint.t))
  : t :=
  mk track config F1PhysicsSimulator.default boundaries CarState.default
     0 0 0 0 0 [] 0 0 0.

(** [_get_observation] reads the environment without changing it; its
    vector is given by [_get_observation] below.  [reset] and [step] keep
    only its failures: [get_track_section_info] indexes the telemetry,
    which must not be empty, and its progress percentage divides by
    [track_length]. *)
Definition observation_fails (self : t) : bool :=
  match MonacoTrackKnowledge.telemetry (track self) with
  | [] => true
  | _ :: _ => Py.eqb (MonacoTrackKnowledge.track_length (track self)) 0
  end.

(** [reset()]; [now] is the value [time.time()] returns. *)
Definition reset (self : t) (now : R) : option t :=
  let racing_line := MonacoTrackKnowledge.racing_line (track self) in
  match nth_error racing_line 0,
        nth_error racing_line (Nat.min 5 (length racing_line - 1)) with
  | Some first, Some second =>
      let dx := LinePoint.x second - LinePoint.x first in
      let dy := LinePoint.y second - LinePoint.y first in
      let s := state self in
      let state :=
        CarState.mk (LinePoint.x first) (LinePoint.y first)
                    (Py.arctan2 dy dx)
                    8.3 (CarState.vx s) (CarState.vy s)
                    0 0 0 2%Z 6000%Z
                    (CarState.tire_temp s) (CarState.fuel_kg s) 0 0 in
      let self :=
        mk (track self) (config self) (simulator self) (boundaries self)
           state 0 0 0 now 0 []
           (CarState.x state) (CarState.y state) 0 in
      if observation_fails self then None else Some self
  | _, _ => None
  end.

Definition distance_to (x y px py : R) : R :=
  sqrt ((x - px) ^ 2 + (y - py) ^ 2).

(** The distance [_is_off_track] computes for a boundary point. *)
Definition boundary_point_distance (x y : R) (point : BoundaryPoint.t) : R :=
  distance_to x y (BoundaryPoint.x point) (BoundaryPoint.y point).

(** The two nested loops of [_is_off_track] over
    [[self.left_boundary, self.right_boundary]]. *)
Definition boundary_min_dists (x y : R) (left_boundary right_boundary : list BoundaryPoint.t)
  : ExtR * ExtR :=
  fold_left
    (fun acc boundary =>
       fold_left
         (fun '(min_dist_left, min_dist_right) point =>
            let dist := boundary_point_distance x y point in
            if boundary_eqb boundary left_boundary
            then (min_ext min_dist_left dist, min_dist_right)
            else (min_dist_left, min_ext min_dist_right dist))
         boundary acc)
    [left_boundary; right_boundary]
    (Inf, Inf).

(** [None] is the [TypeError] raised by subscripting the [None] that
    [get_nearest_line_point] returns on an empty racing line. *)
Definition _is_off_track (self : t) : option bool :=
  let x := CarState.x (state self) in
  let y := CarState.y (state self) in
  match boundaries self with
  | None =>
      match MonacoTrackKnowledge.get_nearest_line_point (track self) x y with
      | None => None
      | Some nearest =>
          let distance_from_line :=
            distance_to x y (LinePoint.x nearest) (LinePoint.y nearest) in
          Some (Py.ltb 25 distance_from_line)
      end
  | Some (left_boundary, right_boundary) =>
      let '(min_dist_left, min_dist_right) :=
        boundary_min_dists x y left_boundary right_boundary in
      if (gt_ext min_dist_left 50 && gt_ext min_dist_right 50)%bool
      then Some true
      else Some false
  end.

(** The ongoing-reward part of [_calculate_reward]. *)
Definition ongoing_reward (self : t) (progress_this_step distance_from_line : R) : R :=
  let cfg := config self in
  let s := state self in
  let reward := 0 in
  let reward :=
    if Rlt_dec 0 progress_this_step
    then reward + progress_this_step * TrainingConfig.progress_reward cfg
    else reward in
  let reward :=
    if Rlt_dec distance_from_line 15
    then reward + (CarState.speed s * 3.6) * TrainingConfig.speed_reward cfg
    else reward in
  let reward :=
    if Rlt_dec distance_from_line 10 then reward + 0.1
    else if Rlt_dec distance_from_line 20 then reward + 0.05
    else reward in
  let reward :=
    if Rlt_dec 0.8 (Rabs (CarState.steering s)) then reward - 0.02 else reward in
  let reward :=
    if Rlt_dec 80 (CarState.brake s) then reward - 0.01 else reward in
  reward + TrainingConfig.time_penalty cfg.

(** [_calculate_reward(step_distance, progress_this_step)] returns
    [(reward, done, info)]; [now] is what [time.time()] returns in the
    completion branch.  [None] stands for a raised exception. *)
Definition _calculate_reward (self : t) (step_distance progress_this_step now : R)
  : option (R * bool * Info) :=
  let cfg := config self in
  let s := state self in
  let track_length := MonacoTrackKnowledge.track_length (track self) in
  match MonacoTrackKnowledge.get_nearest_line_point
          (track self) (CarState.x s) (CarState.y s) with
  | None => None
  | Some nearest =>
      let distance_from_line :=
        distance_to (CarState.x s) (CarState.y s)
                    (LinePoint.x nearest) (LinePoint.y nearest) in
      match _is_off_track self with
      | None => None
      | Some true =>
          (* 1. Off track *)
          Some (TrainingConfig.crash_penalty cfg, true, InfoCrash off_track)
      | Some false =>
          if (500 <? consecutive_no_progress self)%nat then
            (* 2. Stuck *)
            Some (TrainingConfig.crash_penalty cfg, true, InfoCrash stuck)
          else if Rlt_dec (CarState.speed s) 0 then
            (* 3. Going backwards *)
            Some (TrainingConfig.crash_penalty cfg * 0.5, true, InfoCrash backwards)
          else if Rle_dec track_length (CarState.distance s) then
            (* Completion *)
            let lap_time := now - lap_start_time self in
            let reward := TrainingConfig.completion_reward cfg in
            let reward :=
              if Rlt_dec lap_time 100 then reward + (100 - lap_time) * 2
              else reward in
            Some (reward, true, InfoCompleted lap_time)
          else if (TrainingConfig.max_steps_per_episode cfg <=? Z.of_nat (steps self))%Z then
            (* Timeout; the division raises on a zero track length *)
            if Py.eqb track_length 0 then None
            else Some ((CarState.distance s / track_length) * 50, true, InfoTimeout)
          else
            Some (ongoing_reward self progress_this_step distance_from_line,
                  false,
                  InfoOngoing (CarState.distance s) (CarState.speed s * 3.6)
                              distance_from_line)
      end
  end.

(** The displacement [step] measures for an action: the distance between
    the position after the physics update and [(last_x, last_y)]. *)
Definition physical_movement (self : t) (action : R * R * R) : R :=
  let '(a0, a1, a2) := action in
  let throttle := Py.clip ((a0 + 1) * 50) 0 100 in
  let brake := Py.clip ((a1 + 1) * 50) 0 100 in
  let steering := Py.clip a2 (-1) 1 in
  let s := update_car_state (simulator self) (state self) throttle brake steering in
  distance_to (CarState.x s) (CarState.y s) (last_x self) (last_y self).

(** [step(action)]; [now] is what [time.time()] returns if the completion
    branch reads the clock. *)
Definition step (self : t) (action : R * R * R) (now : R)
  : option (t * StepResult.t) :=
  let '(a0, a1, a2) := action in
  let throttle := Py.clip ((a0 + 1) * 50) 0 100 in
  let brake := Py.clip ((a1 + 1) * 50) 0 100 in
  let steering := Py.clip a2 (-1) 1 in
  let old_x := CarState.x (state self) in
  let old_y := CarState.y (state self) in
  (* Physics update *)
  let s := update_car_state (simulator self) (state self) throttle brake steering in
  let position_history :=
    if (steps self mod 10 =? 0)%nat
    then position_history self
         ++ [HistoryEntry.mk (CarState.x s) (CarState.y s)
                             (CarState.speed s * 3.6) (CarState.distance s)]
    else position_history self in
  let step_distance := distance_to (CarState.x s) (CarState.y s) old_x old_y in
  (* Update distance along track *)
  match MonacoTrackKnowledge.get_nearest_line_point
          (track self) (CarState.x s) (CarState.y s) with
  | None => None
  | Some nearest =>
      let s :=
        CarState.mk (CarState.x s) (CarState.y s) (CarState.heading s)
                    (CarState.speed s) (CarState.vx s) (CarState.vy s)
                    (CarState.throttle s) (CarState.brake s) (CarState.steering s)
                    (CarState.gear s) (CarState.rpm s) (CarState.tire_temp s)
                    (CarState.fuel_kg s) (CarState.lap_time s)
                    (LinePoint.distance nearest) in
      (* Physical movement and stuck detection *)
      let physical_movement :=
        distance_to (CarState.x s) (CarState.y s) (last_x self) (last_y self) in
      let total_physical_distance :=
        total_physical_distance self + physical_movement in
      let consecutive_no_progress :=
        if Rlt_dec physical_movement 0.01
        then S (consecutive_no_progress self)
        else O in
      (* Progress along the racing line *)
      let progress_this_step := CarState.distance s - last_distance self in
      let best_distance := Py.max (best_distance self) (CarState.distance s) in
      let self :=
        mk (track self) (config self) (simulator self) (boundaries self)
           s (S (steps self)) (CarState.distance s) best_distance
           (lap_start_time self) consecutive_no_progress position_history
           (CarState.x s) (CarState.y s) total_physical_distance in
      match _calculate_reward self step_distance progress_this_step now with
      | None => None
      | Some (reward, done, info) =>
          if observation_fails self then None
          else Some (self, StepResult.mk reward done info)
      end
  end.

(** The controls [step] derives from an action. *)
Definition controls (action : R * R * R) : R * R * R :=
  let '(a0, a1, a2) := action in
  (Py.clip ((a0 + 1) * 50) 0 100, Py.clip ((a1 + 1) * 50) 0 100, Py.clip a2 (-1) 1).

(** The car state right after the physics update of [step]. *)
Definition advanced (self : t) (action : R * R * R) : CarState.t :=
  let '(throttle, brake, steering) := controls action in
  update_car_state (simulator self) (state self) throttle brake steering.

(** Successive calls of [step], one per element of [inputs] (an action and
    the clock reading of that call); the results are listed in call order. *)
Fixpoint run (self : t) (inputs : list (R * R * R * R))
  : option (t * list StepResult.t) :=
  match inputs with
  | [] => Some (self, [])
  | (action, now) :: rest =>
      match step self action now with
      | None => None
      | Some (self, result) =>
          match run self rest with
          | None => None
          | Some (self, results) => Some (self, result :: results)
          end
      end
  end.

(** The off-track rule of the termination checks, for the position held in
    [self]: without boundary data the nearest racing-line point is more than
    25 away; with boundary data every point of both boundaries is more than
    50 away (their minimum distance exceeds 50). *)
Definition off_track_rule (self : t) : Prop :=
  let x := CarState.x (state self) in
  let y := CarState.y (state self) in
  match boundaries self with
  | None =>
      exists nearest,
        MonacoTrackKnowledge.get_nearest_line_point (track self) x y = Some nearest
        /\ 25 < distance_to x y (LinePoint.x nearest) (LinePoint.y nearest)
  | Some (left_boundary, right_boundary) =>
      (forall p, In p left_boundary -> 50 < boundary_point_distance x y p)
      /\ (forall p, In p right_boundary -> 50 < boundary_point_distance x y p)
  end.

(** [_get_observation()]: the twelve numbers of the observation, before
    their conversion to [float32].  [None] stands for a raised exception. *)
Definition _get_observation (self : t) : option (list R) :=
  let s := state self in
  match MonacoTrackKnowledge.get_nearest_line_point
          (track self) (CarState.x s) (CarState.y s) with
  | None => None
  | Some nearest =>
      let pos_error :=
        sqrt ((CarState.x s - LinePoint.x nearest) ^ 2
              + (CarState.y s - LinePoint.y nearest) ^ 2) in
      match MonacoTrackKnowledge.get_track_section_info
              (track self) (CarState.distance s)
              MonacoTrackKnowledge.default_lookahead with
      | None => None
      | Some section_info =>
          let '(turn_dist, turn_severity, target_speed) :=
            match SectionInfo.next_turn section_info with
            | Some next_turn =>
                (Turn.braking_point next_turn - CarState.distance s,
                 1 - Turn.apex_speed next_turn / 250,
                 Turn.entry_speed next_turn)
            | None => (1000, 0, 250)
            end in
          match MonacoTrackKnowledge.get_optimal_speed_and_angle
                  (track self) (CarState.distance s) with
          | None => None
          | Some guidance =>
              let optimal_speed := Guidance.optimal_speed guidance in
              Some [CarState.speed s / 100;
                    pos_error / 20;
                    CarState.heading s / PI;
                    CarState.distance s / 3300;
                    turn_dist / 500;
                    turn_severity;
                    optimal_speed / 100;
                    target_speed / 100;
                    CarState.throttle s / 100;
                    CarState.brake s / 100;
                    CarState.steering s;
                    CarState.tire_temp s / 100]
          end
      end
  end.

End RacingEnv.

(** ** train.py: PPOTrainer *)

Module PPOTrainer.

(** The body of the loop of [_calculate_returns]: from the running return
    [R] (here [ret]) and the returns collected so far to the same after a
    step with the given reward and done flag. *)
Definition returns_step (gamma : R) (acc : R * list R) (entry : R * bool)
  : R * list R :=
  let '(ret, returns) := acc in
  let '(reward, done) := entry in
  let ret := if done : bool then 0 else ret in
  let ret := reward + gamma * ret in
  (ret, ret :: returns).

(** [_calculate_returns(rewards, values, dones)] for the discount factor
    [gamma] of the configuration; [values] is not read.  The loop runs over
    [zip(reversed(rewards), reversed(dones))]. *)
Definition _calculate_returns (gamma : R) (rewards : list R) (dones : list bool)
  : list R :=
  snd (fold_left (returns_step gamma)
                 (combine (rev rewards) (rev dones))
                 (0, [])).

End PPOTrainer.

(** ** Reference laps and environments used in the examples *)

(** A telemetry entry on the x axis whose distance is its abscissa. *)
Definition lap_sample (speed brake position : R) : RawSample.t :=
  RawSample.mk position 0 0 (Some position) speed 0 brake.

(** Two entries, 100 apart. *)
Definition straight_lap : list RawSample.t :=
  [lap_sample 120 0 0; lap_sample 120 0 100].

Definition straight_track : MonacoTrackKnowledge.t :=
  MonacoTrackKnowledge.mk
    [Sample.mk 0 0 0 0 120 0 0; Sample.mk 100 0 0 100 120 0 0]
    100
    [LinePoint.mk 0 0 0 120 0 0; LinePoint.mk 100 100 0 120 0 0]
    [] [] [].

(** Two entries, 0.1 apart. *)
Definition short_lap : list RawSample.t :=
  [lap_sample 120 0 0; lap_sample 120 0 0.1].

Definition short_track : MonacoTrackKnowledge.t :=
  MonacoTrackKnowledge.mk
    [Sample.mk 0 0 0 0 120 0 0; Sample.mk 0.1 0 0 0.1 120 0 0]
    0.1
    [LinePoint.mk 0 0 0 120 0 0; LinePoint.mk 0.1 0.1 0 120 0 0]
    [] [] [].

(** A lap that ends where it started: three entries, the last one at the
    position of the first. *)
Definition closed_lap : list RawSample.t :=
  [RawSample.mk 0 0 0 (Some 0) 120 0 0;
   RawSample.mk 10 0 0 (Some 10) 120 0 0;
   RawSample.mk 0 0 0 (Some 20) 120 0 0].

Definition closed_lap_start : LinePoint.t := LinePoint.mk 0 0 0 120 0 0.
Definition closed_lap_finish : LinePoint.t := LinePoint.mk 20 0 0 120 0 0.

(** 42 entries; the brake is on over entries 5 to 9; entry 20, the slowest,
    is recorded twice (entries 20 and 21 are the same sample). *)
Definition repeated_sample_lap : list RawSample.t :=
  map (lap_sample 120 0) [0; 1; 2; 3; 4]
  ++ map (lap_sample 120 1) [5; 6; 7; 8; 9]
  ++ map (lap_sample 120 0) [10; 11; 12; 13; 14; 15; 16; 17; 18; 19]
  ++ map (lap_sample 80 0) [20; 20]
  ++ map (lap_sample 120 0) [21; 22; 23; 24; 25; 26; 27; 28; 29; 30;
                             31; 32; 33; 34; 35; 36; 37; 38; 39; 40].

Definition repeated_sample_turn : Turn.t := Turn.mk 20 80 5 5 120 (20, 0).

(** 41 entries at speed 120, except entry 20 at speed 100 and entry 40,
    twenty places after it, at speed 90. *)
Definition late_dip_lap : list RawSample.t :=
  map (lap_sample 120 0) [0; 1; 2; 3; 4; 5; 6; 7; 8; 9;
                          10; 11; 12; 13; 14; 15; 16; 17; 18; 19]
  ++ [lap_sample 100 0 20]
  ++ map (lap_sample 120 0) [21; 22; 23; 24; 25; 26; 27; 28; 29; 30;
                             31; 32; 33; 34; 35; 36; 37; 38; 39]
  ++ [lap_sample 90 0 40].

(** [RacingEnv(track, config)] on the straight lap, without boundary data:
    the car of [CarState()] sits at rest on the first racing-line point. *)
Definition parked_env : RacingEnv.t :=
  RacingEnv.init straight_track TrainingConfig.default None.

(** The action that maps to no throttle, no brake, no steering. *)
Definition idle : R * R * R := (-1, -1, 0).

(** A car at rest [offset] units beside the first point of the straight
    lap, without boundary data. *)
Definition beside_line (offset : R) : RacingEnv.t :=
  RacingEnv.mk straight_track TrainingConfig.default F1PhysicsSimulator.default None
    (CarState.mk 0 offset 0 0 0 0 0 0 0 1%Z 5000%Z 80 100 0 0)
    0 0 0 0 0 [] 0 offset 0.

(** The car is at rest at the start of the straight lap and the last
    [ticks] calls of [step], all there have been, measured no movement. *)
Definition parked (self : RacingEnv.t) (ticks : nat) : Prop :=
  RacingEnv.track self = straight_track
  /\ RacingEnv.config self = TrainingConfig.default
  /\ RacingEnv.simulator self = F1PhysicsSimulator.default
  /\ RacingEnv.boundaries self = None
  /\ CarState.x (RacingEnv.state self) = 0
  /\ CarState.y (RacingEnv.state self) = 0
  /\ CarState.speed (RacingEnv.state self) = 0
  /\ RacingEnv.last_x self = 0
  /\ RacingEnv.last_y self = 0
  /\ RacingEnv.last_distance self = 0
  /\ RacingEnv.consecutive_no_progress self = ticks
  /\ RacingEnv.steps self = ticks.

Definition still_running : StepResult.t :=
  StepResult.mk 0.09 false (InfoOngoing 0 0 0).

Definition crashed_stuck : StepResult.t :=
  StepResult.mk (-50) true (InfoCrash stuck).

(** The environment [reset()] leaves on the short lap when the clock
    reads 1000. *)
Definition short_env_start : RacingEnv.t :=
  RacingEnv.mk short_track TrainingConfig.default F1PhysicsSimulator.default None
    (CarState.mk 0 0 0 8.3 0 0 0 0 0 2%Z 6000%Z 80 100 0 0)
    0 0 0 1000 0 [] 0 0 0.

(** Two telemetry entries, the brake on at the first one only. *)
Definition brake_tap : list Sample.t :=
  [Sample.mk 0 0 0 0 100 0 1; Sample.mk 1 0 0 1 90 0 0].

Definition brake_tap_zone : BrakingZone.t := BrakingZone.mk 0 1 100 90 (1 - 0).

(** Two entries of a file without distances, 5 apart. *)
Definition unmeasured_lap : list RawSample.t :=
  [RawSample.mk 0 0 0 None 120 0 0; RawSample.mk 3 4 0 None 120 0 0].

(** The environment [reset()] leaves on the straight lap when the clock
    reads 0. *)
Definition straight_env_start : RacingEnv.t :=
  RacingEnv.mk straight_track TrainingConfig.default F1PhysicsSimulator.default None
    (CarState.mk 0 0 0 8.3 0 0 0 0 0 2%Z 6000%Z 80 100 0 0)
    0 0 0 0 0 [] 0 0 0.

(** An environment on the straight lap whose episodes last one step. *)
Definition one_step_env : RacingEnv.t :=
  RacingEnv.init straight_track (TrainingConfig.mk 1 (-50) 200 1 0.01 (-0.01)) None.

(** ** What one tick of the dynamics reads *)

(** The state fields [update_car_state] reads: position, heading, speed,
    gear and the two running totals, and the tyre temperature and fuel
    load, which it hands back as they are.  The six other fields ([vx],
    [vy], [throttle], [brake], [steering], [rpm]) are assigned before any
    read of them. *)
Definition same_read_fields (a b : CarState.t) : Prop :=
  CarState.x a = CarState.x b /\ CarState.y a = CarState.y b
  /\ CarState.heading a = CarState.heading b
  /\ CarState.speed a = CarState.speed b
  /\ CarState.gear a = CarState.gear b
  /\ CarState.tire_temp a = CarState.tire_temp b
  /\ CarState.fuel_kg a = CarState.fuel_kg b
  /\ CarState.lap_time a = CarState.lap_time b
  /\ CarState.distance a = CarState.distance b.

(** The parameters [update_car_state] and the three methods it calls read:
    the timestep, the two constants, and all of [CarPhysics] but the brake
    balance, the tyre's optimal temperature and slip, and the track
    friction. *)
Definition same_read_parameters (a b : F1PhysicsSimulator.t) : Prop :=
  let p := F1PhysicsSimulator.physics a in
  let q := F1PhysicsSimulator.physics b in
  F1PhysicsSimulator.dt a = F1PhysicsSimulator.dt b
  /\ F1PhysicsSimulator.air_density a = F1PhysicsSimulator.air_density b
  /\ F1PhysicsSimulator.gravity a = F1PhysicsSimulator.gravity b
  /\ CarPhysics.mass p = CarPhysics.mass q
  /\ CarPhysics.drag_coefficient p = CarPhysics.drag_coefficient q
  /\ CarPhysics.frontal_area p = CarPhysics.frontal_area q
  /\ CarPhysics.downforce_coefficient p = CarPhysics.downforce_coefficient q
  /\ CarPhysics.max_power p = CarPhysics.max_power q
  /\ CarPhysics.max_rpm p = CarPhysics.max_rpm q
  /\ CarPhysics.idle_rpm p = CarPhysics.idle_rpm q
  /\ CarPhysics.power_curve_peak p = CarPhysics.power_curve_peak q
  /\ CarPhysics.gear_ratios p = CarPhysics.gear_ratios q
  /\ CarPhysics.final_drive p = CarPhysics.final_drive q
  /\ CarPhysics.max_brake_force p = CarPhysics.max_brake_force q
  /\ CarPhysics.tire_grip_coefficient p = CarPhysics.tire_grip_coefficient q.



(** [calculate_engine_power(rpm, throttle)] as a call that can fail: the
    division [rpm / power_curve_peak] raises ZeroDivisionError when the
    peak-power engine speed is 0, whatever the two arguments. *)
Definition calculate_engine_power_or_error (self : F1PhysicsSimulator.t)
  (rpm : Z) (throttle : R) : option R :=
  if (CarPhysics.power_curve_peak (F1PhysicsSimulator.physics self) =? 0)%Z
  then None
  else Some (calculate_engine_power self rpm throttle).

(** 42 entries, one unit apart; the brake is on over entries 5 to 9;
    entries 20 and 21 are the slowest, at the same speed. *)
Definition twin_dip_lap : list RawSample.t :=
  map (lap_sample 120 0) [0; 1; 2; 3; 4]
  ++ map (lap_sample 120 1) [5; 6; 7; 8; 9]
  ++ map (lap_sample 120 0) [10; 11; 12; 13; 14; 15; 16; 17; 18; 19]
  ++ map (lap_sample 80 0) [20; 21]
  ++ map (lap_sample 120 0) [22; 23; 24; 25; 26; 27; 28; 29; 30; 31;
                             32; 33; 34; 35; 36; 37; 38; 39; 40; 41].

Definition twin_dip_first_turn : Turn.t := Turn.mk 20 80 5 5 120 (20, 0).
Definition twin_dip_second_turn : Turn.t := Turn.mk 21 80 5 5 120 (21, 0).

(** * Properties *)

(** ** Python primitives *)

Lemma ltb_true a b : Py.ltb a b = true <-> a < b.
Proof.
  unfold Py.ltb. destruct (Rlt_dec a b); split; intros; try lra; try discriminate; auto.
Qed.

Lemma ltb_false a b : Py.ltb a b = false <-> b <= a.
Proof.
  unfold Py.ltb. destruct (Rlt_dec a b); split; intros; try lra; try discriminate; auto.
Qed.

Lemma eqb_true a b : Py.eqb a b = true <-> a = b.
Proof.
  unfold Py.eqb. destruct (Req_dec_T a b); split; intros; try discriminate; auto;
    contradiction.
Qed.

Lemma eqb_false a b : Py.eqb a b = false <-> a <> b.
Proof.
  unfold Py.eqb. destruct (Req_dec_T a b); split; intros; try discriminate; auto;
    contradiction.
Qed.

Lemma eqb_refl a : Py.eqb a a = true.
Proof. now apply eqb_true. Qed.

Lemma truthy_0 : Py.truthy 0 = false.
Proof. unfold Py.truthy. destruct (Req_dec_T 0 0); [reflexivity | contradiction]. Qed.

Lemma truthy_1 : Py.truthy 1 = true.
Proof. unfold Py.truthy. destruct (Req_dec_T 1 0); [lra | reflexivity]. Qed.

Lemma py_max_le_l a b : a <= Py.max a b.
Proof. unfold Py.max. destruct (Rlt_dec a b); lra. Qed.

Lemma py_max_le_r a b : b <= Py.max a b.
Proof. unfold Py.max. destruct (Rlt_dec a b); lra. Qed.

Lemma py_max_l a b : b <= a -> Py.max a b = a.
Proof. unfold Py.max. destruct (Rlt_dec a b); lra. Qed.

Lemma py_max_r a b : a <= b -> Py.max a b = b.
Proof. unfold Py.max. destruct (Rlt_dec a b); lra. Qed.

Lemma py_min_le_l a b : Py.min a b <= a.
Proof. unfold Py.min. destruct (Rlt_dec b a); lra. Qed.

Lemma py_min_le_r a b : Py.min a b <= b.
Proof. unfold Py.min. destruct (Rlt_dec b a); lra. Qed.

Lemma py_min_glb a b c : c <= a -> c <= b -> c <= Py.min a b.
Proof. unfold Py.min. destruct (Rlt_dec b a); lra. Qed.

Lemma py_min_l a b : a <= b -> Py.min a b = a.
Proof. unfold Py.min. destruct (Rlt_dec b a); lra. Qed.

Lemma clip_inside v lo hi : lo <= v <= hi -> Py.clip v lo hi = v.
Proof.
  intros [H1 H2]. unfold Py.clip. rewrite (py_max_l v lo H1). apply py_min_l, H2.
Qed.

Lemma le_div a b c : 0 < c -> a * c <= b -> a <= b / c.
Proof.
  intros Hc H. apply Rmult_le_reg_r with c; [assumption |].
  replace (b / c * c) with b by (field; lra). exact H.
Qed.

Lemma int_le_lt v z : 0 <= v -> (Py.int v <= z)%Z -> v < IZR z + 1.
Proof.
  intros Hv Hz. unfold Py.int in Hz.
  destruct (Rle_dec 0 v) as [_ | Hn]; [| contradiction].
  destruct (base_Int_part v) as [_ Hb]. apply IZR_le in Hz. lra.
Qed.

Create HintDb py discriminated.
#[local] Hint Resolve py_max_le_l py_max_le_r py_min_le_l py_min_le_r py_min_glb : py.

(** ** The dynamics integrator *)

(** Unfolds [F1PhysicsSimulator()] down to its constants. *)
Ltac params :=
  unfold F1PhysicsSimulator.default, F1PhysicsSimulator.init, CarPhysics.default;
  cbn [F1PhysicsSimulator.physics F1PhysicsSimulator.dt
       F1PhysicsSimulator.air_density F1PhysicsSimulator.gravity
       CarPhysics.mass CarPhysics.drag_coefficient CarPhysics.frontal_area
       CarPhysics.downforce_coefficient CarPhysics.max_power CarPhysics.max_rpm
       CarPhysics.idle_rpm CarPhysics.power_curve_peak CarPhysics.gear_ratios
       CarPhysics.final_drive CarPhysics.max_brake_force
       CarPhysics.tire_grip_coefficient].

(** Field-by-field reading of [update_car_state]. *)
Lemma update_car_state_fields self state throttle brake steering :
  let s' := update_car_state self state throttle brake steering in
  let p := F1PhysicsSimulator.physics self in
  let dt := F1PhysicsSimulator.dt self in
  let v := CarState.speed state in
  let aero := calculate_aerodynamic_forces self v in
  let normal_force := CarPhysics.mass p * F1PhysicsSimulator.gravity self + snd aero in
  let engine :=
    engine_force_and_rpm self v (CarState.gear state) (Py.clip throttle 0 100)
                         normal_force in
  let brake_force := calculate_braking_force self (Py.clip brake 0 100) v (snd aero) in
  CarState.speed s'
  = Py.max 0 (v + (fst engine - fst aero - brake_force) / CarPhysics.mass p * dt)
  /\ CarState.heading s'
     = turn_heading self (CarState.heading state) (CarState.speed s')
                    (Py.clip steering (-1) 1)
  /\ CarState.x s' = CarState.x state + CarState.speed s' * cos (CarState.heading s') * dt
  /\ CarState.y s' = CarState.y state + CarState.speed s' * sin (CarState.heading s') * dt
  /\ CarState.gear s' = shift_gear self (snd engine) (CarState.gear state)
  /\ CarState.lap_time s' = CarState.lap_time state + dt
  /\ CarState.throttle s' = Py.clip throttle 0 100
  /\ CarState.brake s' = Py.clip brake 0 100
  /\ CarState.steering s' = Py.clip steering (-1) 1.
Proof.
  unfold update_car_state, calculate_aerodynamic_forces. cbv zeta. cbn [fst snd].
  destruct (engine_force_and_rpm _ _ _ _ _) as [ef rpm].
  cbn [fst snd CarState.speed CarState.heading CarState.x CarState.y CarState.gear
       CarState.lap_time CarState.throttle CarState.brake CarState.steering].
  repeat split; reflexivity.
Qed.

(** The new speed is a [max(0, ...)]. *)
Lemma update_car_state_speed_is_max self state throttle brake steering :
  exists candidate,
    CarState.speed (update_car_state self state throttle brake steering)
    = Py.max 0 candidate.
Proof.
  destruct (update_car_state_fields self state throttle brake steering) as [Hs _].
  cbv zeta in Hs. rewrite Hs. eexists. reflexivity.
Qed.

(** C5.  Whatever the simulator parameters, the input state and the three
    control values, the state returned by [update_car_state] has a speed
    that is not negative. *)
Theorem update_car_state_speed_nonneg
  (self : F1PhysicsSimulator.t) (state : CarState.t) (throttle brake steering : R) :
  0 <= CarState.speed (update_car_state self state throttle brake steering).
Proof.
  destruct (update_car_state_speed_is_max self state throttle brake steering)
    as [candidate ->].
  auto with py.
Qed.

Lemma same_fields_eq (a b : CarState.t) : CarState.same_fields a b <-> a = b.
Proof.
  split.
  - destruct a, b. unfold CarState.same_fields.
    cbn [CarState.x CarState.y CarState.heading CarState.speed CarState.vx CarState.vy
         CarState.throttle CarState.brake CarState.steering CarState.gear CarState.rpm
         CarState.tire_temp CarState.fuel_kg CarState.lap_time CarState.distance].
    intros H. decompose [and] H. now subst.
  - intros ->. unfold CarState.same_fields. repeat split; reflexivity.
Qed.

Lemma same_parameters_eq (a b : F1PhysicsSimulator.t) :
  F1PhysicsSimulator.same_parameters a b <-> a = b.
Proof.
  split.
  - destruct a, b. unfold F1PhysicsSimulator.same_parameters.
    cbn [F1PhysicsSimulator.physics F1PhysicsSimulator.dt
         F1PhysicsSimulator.air_density F1PhysicsSimulator.gravity].
    intros H. decompose [and] H. now subst.
  - intros ->. unfold F1PhysicsSimulator.same_parameters. repeat split; reflexivity.
Qed.

(** States that agree in every field agree in the fields a tick reads, and
    simulators with the same parameters agree in the parameters it reads. *)
Lemma same_fields_read (a b : CarState.t) :
  CarState.same_fields a b -> same_read_fields a b.
Proof.
  intros H. apply same_fields_eq in H. subst b.
  unfold same_read_fields. repeat split; reflexivity.
Qed.

Lemma same_parameters_read (a b : F1PhysicsSimulator.t) :
  F1PhysicsSimulator.same_parameters a b -> same_read_parameters a b.
Proof.
  intros H. apply same_parameters_eq in H. subst b.
  unfold same_read_parameters. cbv zeta. repeat split; reflexivity.
Qed.



(** *** Full throttle from rest *)

Lemma clip_100 : Py.clip 100 0 100 = 100.
Proof. apply clip_inside. lra. Qed.

Lemma clip_0 : Py.clip 0 0 100 = 0.
Proof. apply clip_inside. lra. Qed.

(** At full throttle the Gaussian power curve never delivers less than half
    of the maximum power, because the rpm is clamped to [5000, 15000]. *)
Lemma full_power_lower rpm :
  355000 <= calculate_engine_power F1PhysicsSimulator.default rpm 100.
Proof.
  unfold calculate_engine_power. cbv zeta. params.
  set (r1 := if (rpm <? 5000)%Z then 5000%Z else rpm).
  set (r2 := if (15000 <? r1)%Z then 15000%Z else r1).
  assert (H : (5000 <= r2 <= 15000)%Z).
  { subst r2 r1. destruct (rpm <? 5000)%Z eqn:E1.
    - simpl. lia.
    - apply Z.ltb_ge in E1. destruct (15000 <? rpm)%Z eqn:E2.
      + lia.
      + apply Z.ltb_ge in E2. lia. }
  destruct H as [Hlo Hhi]. apply IZR_le in Hlo, Hhi.
  set (q := IZR r2 / 11000).
  assert (Hq : 5 / 11 <= q <= 15 / 11) by (unfold q; lra).
  pose proof (exp_ineq1_le (- 0.5 * (q - 1) ^ 2 / 0.3)) as He.
  assert (Hb : (q - 1) ^ 2 <= 36 / 121) by nra.
  lra.
Qed.

(** Up to 60 m/s the engine force at full throttle is at least the drag. *)
Lemma engine_force_covers_drag v gear :
  (1 <= gear <= 8)%Z ->
  0 <= v <= 60 ->
  0.81 * v ^ 2
  <= fst (engine_force_and_rpm F1PhysicsSimulator.default v gear 100
                               (798 * 9.81 + 2.7 * v ^ 2)).
Proof.
  intros Hg [Hv0 Hv1].
  unfold engine_force_and_rpm. cbv zeta. params.
  destruct ((1 <=? gear)%Z && _)%bool eqn:Eg.
  2:{ apply andb_false_iff in Eg. destruct Eg as [Eg | Eg];
      apply Z.leb_gt in Eg; simpl in Eg; lia. }
  match goal with
  | |- context [calculate_engine_power ?s ?r 100] =>
      assert (Hp : 355000 <= calculate_engine_power s r 100)
        by exact (full_power_lower r);
      set (power := calculate_engine_power s r 100) in *
  end.
  assert (Hv2 : 0 <= v ^ 2 <= 3600) by nra.
  assert (Hv3 : v ^ 2 * v <= 216000) by nra.
  destruct (Rlt_dec (v * 3.6) 100) as [Hk | Hk]; cbn [fst].
  - apply py_min_glb.
    + destruct (Rlt_dec 0.5 v) as [Hs | Hs].
      * apply le_div; lra.
      * nra.
    + nra.
  - apply py_min_glb.
    + apply le_div; lra.
    + nra.
Qed.

Lemma no_brake_force v downforce :
  0 <= downforce ->
  calculate_braking_force F1PhysicsSimulator.default 0 v downforce = 0.
Proof.
  intros Hd. unfold calculate_braking_force. cbv zeta. params.
  rewrite py_min_l; lra.
Qed.

(** One tick at full throttle does not slow the car down while it is below
    60 m/s in a valid gear. *)
Lemma full_throttle_accelerates state :
  (1 <= CarState.gear state <= 8)%Z ->
  0 <= CarState.speed state <= 60 ->
  CarState.speed state
  <= CarState.speed (update_car_state F1PhysicsSimulator.default state 100 0 0).
Proof.
  intros Hg [Hv0 Hv1].
  destruct (update_car_state_fields F1PhysicsSimulator.default state 100 0 0) as [Hs _].
  cbv zeta in Hs. rewrite Hs. clear Hs.
  rewrite clip_100, clip_0.
  set (v := CarState.speed state) in *.
  eapply Rle_trans; [| apply py_max_le_r].
  pose proof (engine_force_covers_drag v (CarState.gear state) Hg (conj Hv0 Hv1)) as Hef.
  assert (Hv2 : 0 <= v ^ 2) by nra.
  unfold calculate_aerodynamic_forces. cbv zeta. cbn [fst snd].
  rewrite no_brake_force by (params; nra).
  params.
  replace (798 * 9.81 + 0.5 * 1.2 * v ^ 2 * 3 * 1.5)
    with (798 * 9.81 + 2.7 * v ^ 2) by lra.
  unfold F1PhysicsSimulator.default, F1PhysicsSimulator.init, CarPhysics.default in Hef.
  set (ef := fst _) in *.
  assert (0 <= (ef - 0.5 * 1.2 * v ^ 2 * 0.9 * 1.5 - 0) / 798) by (apply le_div; lra).
  nra.
Qed.

(** A car that is still in first gear after a tick entered it below 52 m/s:
    above that the engine speed passes 95% of the maximum and the gearbox
    shifts up. *)
Lemma first_gear_kept_speed_bound state :
  CarState.gear state = 1%Z ->
  CarState.gear (update_car_state F1PhysicsSimulator.default state 100 0 0) = 1%Z ->
  0 <= CarState.speed state ->
  CarState.speed state < 52.
Proof.
  intros Hg Hk Hv0.
  destruct (update_car_state_fields F1PhysicsSimulator.default state 100 0 0)
    as [_ [_ [_ [_ [Hgear _]]]]].
  cbv zeta in Hgear. rewrite Hgear, Hg in Hk. clear Hgear.
  set (v := CarState.speed state) in *.
  unfold engine_force_and_rpm in Hk. cbv zeta in Hk.
  revert Hk. params. intros Hk.
  destruct ((1 <=? 1)%Z && _)%bool eqn:Eg in Hk; [| cbn in Eg; discriminate Eg].
  clear Eg.
  change (nth (Z.to_nat (1 - 1)) [3.5; 2.8; 2.2; 1.8; 1.5; 1.3; 1.15; 1] 0) with 3.5 in Hk.
  destruct (Rlt_dec 0.1 v) as [Hm | Hm]; [| lra].
  set (w := v * 60 / (2 * PI * 0.33) * 3.5 * 3.5) in *.
  assert (Hrpm : (Z.max 5000 (Z.min (Py.int w) 15000) <= 14250)%Z).
  { destruct (Rlt_dec (v * 3.6) 100); cbn [snd] in Hk;
    unfold shift_gear in Hk; revert Hk; params;
    set (rpm := Z.max 5000 (Z.min (Py.int w) 15000));
    unfold Py.ltb; destruct (Rlt_dec (IZR 15000 * 0.95) (IZR rpm)) as [Hr | Hr];
    cbn; intros Hk; try lia;
    apply Rnot_lt_le in Hr;
    assert (Hr' : IZR rpm <= IZR 14250) by lra;
    apply le_IZR in Hr'; exact Hr'. }
  assert (Hw : (Py.int w <= 14250)%Z) by lia.
  clear Hk Hrpm.
  pose proof PI_RGT_0 as Hpi0. pose proof PI_4 as Hpi4.
  set (d := 2 * PI * 0.33) in *.
  assert (Hd : 0 < d <= 2.64) by (unfold d; lra).
  set (q := v * 60 / d) in *.
  assert (Hq : q * d = v * 60).
  { unfold q, Rdiv. rewrite Rmult_assoc, Rinv_l by lra. lra. }
  assert (Hq0 : 0 <= q) by nra.
  assert (Hw0 : 0 <= w) by (unfold w; nra).
  apply int_le_lt in Hw; [| exact Hw0].
  assert (Hq1 : q < 1164) by (unfold w in Hw; lra).
  nra.
Qed.

(** Below 52 m/s one tick at full throttle adds at most 0.5 m/s: the engine
    force is capped by the traction limit. *)
Lemma full_throttle_speed_step_upper state :
  0 <= CarState.speed state <= 52 ->
  CarState.speed (update_car_state F1PhysicsSimulator.default state 100 0 0)
  <= CarState.speed state + 0.5.
Proof.
  intros [Hv0 Hv1].
  destruct (update_car_state_fields F1PhysicsSimulator.default state 100 0 0) as [Hs _].
  cbv zeta in Hs. rewrite Hs. clear Hs.
  rewrite clip_100, clip_0.
  set (v := CarState.speed state) in *.
  assert (Hv2 : 0 <= v ^ 2 <= 2704) by nra.
  unfold calculate_aerodynamic_forces. cbv zeta. cbn [fst snd].
  rewrite no_brake_force by (params; nra).
  params.
  match goal with
  | |- context [fst ?e] => assert (Hef : fst e <= 21200); [| set (ef := fst e) in * ]
  end.
  { unfold engine_force_and_rpm. cbv zeta. params.
    destruct (_ && _)%bool; [| cbn [fst]; lra].
    destruct (Rlt_dec (v * 3.6) 100) as [Hk | Hk]; cbn [fst];
      (eapply Rle_trans; [apply py_min_le_r |]); nra. }
  unfold Py.max. destruct Rlt_dec; [| lra].
  assert ((ef - 0.5 * 1.2 * v ^ 2 * 0.9 * 1.5 - 0) / 798 <= 30).
  { apply Rmult_le_reg_r with 798; [lra |].
    replace ((ef - 0.5 * 1.2 * v ^ 2 * 0.9 * 1.5 - 0) / 798 * 798)
      with (ef - 0.5 * 1.2 * v ^ 2 * 0.9 * 1.5 - 0) by (field; lra).
    nra. }
  nra.
Qed.

Lemma full_throttle_run_speed_nonneg start n :
  0 <= CarState.speed start -> 0 <= CarState.speed (full_throttle_run start n).
Proof.
  intros Hstart. destruct n; cbn [full_throttle_run]; [exact Hstart |].
  destruct (update_car_state_speed_is_max
              F1PhysicsSimulator.default (full_throttle_run start n) 100 0 0)
    as [candidate ->].
  auto with py.
Qed.

(** The engine speed of a car at rest is the idle speed, in every gear. *)
Lemma rpm_at_rest gear throttle normal_force :
  snd (engine_force_and_rpm F1PhysicsSimulator.default 0 gear throttle normal_force)
  = 5000%Z.
Proof.
  unfold engine_force_and_rpm. cbv zeta. params.
  destruct (_ && _)%bool; [| reflexivity].
  destruct (Rlt_dec 0.1 0) as [H | _]; [lra |].
  destruct (Rlt_dec (0 * 3.6) 100) as [_ | H]; [| lra].
  reflexivity.
Qed.

(** At idle speed the gearbox shifts down from every gear above the first
    and leaves the other gears alone. *)
Lemma shift_gear_idle gear :
  shift_gear F1PhysicsSimulator.default 5000 gear
  = if (1 <? gear)%Z then (gear - 1)%Z else gear.
Proof.
  unfold shift_gear. params.
  replace (Py.ltb (15000 * 0.95) 5000) with false by (symmetry; apply ltb_false; lra).
  replace (Py.ltb 5000 (15000 * 0.5)) with true by (symmetry; apply ltb_true; lra).
  reflexivity.
Qed.

Lemma gear_after_tick_at_rest state :
  CarState.speed state = 0 ->
  CarState.gear (update_car_state F1PhysicsSimulator.default state 100 0 0)
  = if (1 <? CarState.gear state)%Z then (CarState.gear state - 1)%Z
    else CarState.gear state.
Proof.
  intros Hv.
  destruct (update_car_state_fields F1PhysicsSimulator.default state 100 0 0)
    as [_ [_ [_ [_ [Hgear _]]]]].
  cbv zeta in Hgear. rewrite Hgear, Hv, rpm_at_rest. apply shift_gear_idle.
Qed.

(** Outside the gear range the engine delivers no force: a car at rest
    stays at rest. *)
Lemma rest_kept_without_gear state :
  CarState.speed state = 0 ->
  ~ (1 <= CarState.gear state <= 8)%Z ->
  CarState.speed (update_car_state F1PhysicsSimulator.default state 100 0 0) = 0.
Proof.
  intros Hv Hg.
  destruct (update_car_state_fields F1PhysicsSimulator.default state 100 0 0) as [Hs _].
  cbv zeta in Hs. rewrite Hs, Hv. clear Hs.
  rewrite clip_100, clip_0.
  unfold calculate_aerodynamic_forces. cbv zeta. cbn [fst snd].
  rewrite no_brake_force by (params; lra).
  unfold engine_force_and_rpm. cbv zeta. params.
  destruct ((1 <=? CarState.gear state)%Z && _)%bool eqn:Eg.
  { apply andb_true_iff in Eg. destruct Eg as [E1 E2].
    apply Z.leb_le in E1, E2. cbn in E2. lia. }
  cbn [fst]. apply py_max_l. lra.
Qed.

(** C10.  Take any state with zero speed and apply full throttle, no brake
    and no steering at every tick.  The speed does not decrease from tick
    [n] to tick [n + 1] as long as no gear shift has happened up to tick
    [n], that is, as long as every state up to tick [n] is still in the
    starting gear. *)
Theorem full_throttle_speed_monotone (start : CarState.t) (n : nat) :
  CarState.speed start = 0 ->
  (forall k, (k <= n)%nat ->
             CarState.gear (full_throttle_run start k) = CarState.gear start) ->
  CarState.speed (full_throttle_run start n)
  <= CarState.speed (full_throttle_run start (S n)).
Proof.
  intros Hstart Hgear.
  assert (Hnonneg : forall k, 0 <= CarState.speed (full_throttle_run start k)).
  { intros k. apply full_throttle_run_speed_nonneg. lra. }
  destruct n as [| m].
  { cbn [full_throttle_run] in *. rewrite Hstart. apply (Hnonneg 1%nat). }
  (* the first tick has not shifted: the starting gear is not above the first *)
  assert (Hlow : (CarState.gear start <= 1)%Z).
  { pose proof (Hgear 1%nat ltac:(lia)) as H1. cbn [full_throttle_run] in H1.
    rewrite (gear_after_tick_at_rest start Hstart) in H1.
    destruct (1 <? CarState.gear start)%Z eqn:E; [lia |].
    apply Z.ltb_ge in E. exact E. }
  destruct (Z.eq_dec (CarState.gear start) 1) as [Hone | Hnot].
  - (* first gear *)
    pose proof (Hgear m ltac:(lia)) as Hm.
    pose proof (Hgear (S m) ltac:(lia)) as HSm.
    rewrite Hone in Hm, HSm.
    change (full_throttle_run start (S (S m)))
      with (update_car_state F1PhysicsSimulator.default
              (full_throttle_run start (S m)) 100 0 0).
    apply full_throttle_accelerates; [rewrite HSm; lia |].
    split; [apply Hnonneg |].
    cbn [full_throttle_run] in HSm |- *.
    pose proof (first_gear_kept_speed_bound _ Hm HSm (Hnonneg m)) as Hlt.
    pose proof (full_throttle_speed_step_upper (full_throttle_run start m)
                  (conj (Hnonneg m) (Rlt_le _ _ Hlt))) as Hup.
    lra.
  - (* no valid gear: the car never leaves rest *)
    assert (Hrest : forall k, (k <= S m)%nat ->
                              CarState.speed (full_throttle_run start k) = 0).
    { induction k as [| k IH]; intros Hk; [exact Hstart |].
      cbn [full_throttle_run]. apply rest_kept_without_gear; [apply IH; lia |].
      rewrite (Hgear k) by lia. lia. }
    rewrite (Hrest (S m)) by lia. apply Hnonneg.
Qed.

Lemma full_throttle_speed_monotone_witness :
  CarState.speed (full_throttle_run CarState.default 1)
  <= CarState.speed (full_throttle_run CarState.default 2).
Proof.
  apply (full_throttle_speed_monotone CarState.default 1).
  - reflexivity.
  - intros k Hk.
    destruct k as [| [| k]].
    + reflexivity.
    + cbn [full_throttle_run].
      rewrite gear_after_tick_at_rest by reflexivity. reflexivity.
    + lia.
Defined.

(** ** Track knowledge *)

(** *** Nearest racing-line point *)

Lemma line_dist_zero x y p :
  sqrt ((LinePoint.x p - x) ^ 2 + (LinePoint.y p - y) ^ 2) = 0
  <-> same_position x y p = true.
Proof.
  unfold same_position. rewrite andb_true_iff, !eqb_true.
  set (a := LinePoint.x p - x). set (b := LinePoint.y p - y).
  assert (Hs : 0 <= a ^ 2 + b ^ 2) by nra.
  split.
  - intros H. apply sqrt_eq_0 in H; [| exact Hs].
    assert (a = 0) by nra. assert (b = 0) by nra. unfold a, b in *. split; lra.
  - intros [Ha Hb]. replace (a ^ 2 + b ^ 2) with 0; [apply sqrt_0 |].
    unfold a, b. rewrite Ha, Hb. ring.
Qed.

(** Once a point at distance 0 has been found, the scan keeps it. *)
Lemma nearest_scan_at_zero x y line nearest :
  MonacoTrackKnowledge.nearest_scan x y line (Fin 0) nearest = nearest.
Proof.
  induction line as [| p rest IH]; cbn [MonacoTrackKnowledge.nearest_scan];
    [reflexivity |].
  cbv zeta. unfold lt_ext.
  destruct (Py.ltb _ 0) eqn:E; [| exact IH].
  apply ltb_true in E.
  pose proof (sqrt_pos ((LinePoint.x p - x) ^ 2 + (LinePoint.y p - y) ^ 2)). lra.
Qed.

Lemma nearest_scan_first_zero x y line min_dist nearest :
  positive_ext min_dist ->
  (exists p, In p line /\ same_position x y p = true) ->
  MonacoTrackKnowledge.nearest_scan x y line min_dist nearest
  = find (same_position x y) line.
Proof.
  revert min_dist nearest.
  induction line as [| p rest IH]; intros min_dist nearest Hpos [q [Hin Hq]].
  - destruct Hin.
  - cbn [MonacoTrackKnowledge.nearest_scan find]. cbv zeta.
    set (dist := sqrt _).
    destruct (same_position x y p) eqn:Ep.
    + apply line_dist_zero in Ep. fold dist in Ep. rewrite Ep.
      assert (Hlt : lt_ext 0 min_dist = true).
      { destruct min_dist; [reflexivity |]. apply ltb_true. exact Hpos. }
      rewrite Hlt. apply nearest_scan_at_zero.
    + assert (Hd : 0 < dist).
      { pose proof (sqrt_pos ((LinePoint.x p - x) ^ 2 + (LinePoint.y p - y) ^ 2)) as H0.
        fold dist in H0. destruct H0 as [H0 | H0]; [exact H0 |].
        symmetry in H0. apply line_dist_zero in H0. congruence. }
      assert (Hrest : exists p0, In p0 rest /\ same_position x y p0 = true).
      { destruct Hin as [-> | Hin]; [congruence |]. now exists q. }
      destruct (lt_ext dist min_dist); apply IH; auto.
Qed.

Lemma same_position_self p : same_position (LinePoint.x p) (LinePoint.y p) p = true.
Proof. unfold same_position. now rewrite !eqb_refl. Qed.

(** C7, as amended.  For a sample [p] of the racing line,
    [get_nearest_line_point] applied to [p]'s own coordinates returns the
    first sample of the line, in sequence order, that lies at those
    coordinates, hence at distance 0. *)
Theorem nearest_line_point_of_sample
  (self : MonacoTrackKnowledge.t) (p : LinePoint.t) :
  In p (MonacoTrackKnowledge.racing_line self) ->
  exists q,
    MonacoTrackKnowledge.get_nearest_line_point self (LinePoint.x p) (LinePoint.y p)
    = Some q
    /\ find (same_position (LinePoint.x p) (LinePoint.y p))
            (MonacoTrackKnowledge.racing_line self) = Some q
    /\ LinePoint.x q = LinePoint.x p
    /\ LinePoint.y q = LinePoint.y p
    /\ sqrt ((LinePoint.x q - LinePoint.x p) ^ 2 + (LinePoint.y q - LinePoint.y p) ^ 2)
       = 0.
Proof.
  intros Hin. unfold MonacoTrackKnowledge.get_nearest_line_point.
  rewrite nearest_scan_first_zero;
    [| exact I | exists p; split; [exact Hin | apply same_position_self]].
  destruct (find _ _) as [q |] eqn:Ef.
  - exists q. split; [reflexivity |]. split; [reflexivity |].
    apply find_some in Ef. destruct Ef as [_ Hq].
    pose proof (proj2 (line_dist_zero _ _ _) Hq) as Hd.
    unfold same_position in Hq. apply andb_true_iff in Hq.
    destruct Hq as [Hx Hy]. apply eqb_true in Hx, Hy. auto.
  - apply (find_none _ _ Ef) in Hin. rewrite same_position_self in Hin. discriminate.
Qed.

(** The sample itself comes back when no other sample of the line shares
    its coordinates. *)
Lemma nearest_line_point_unique_position (self : MonacoTrackKnowledge.t) (p : LinePoint.t) :
  In p (MonacoTrackKnowledge.racing_line self) ->
  (forall q, In q (MonacoTrackKnowledge.racing_line self) ->
             same_position (LinePoint.x p) (LinePoint.y p) q = true -> q = p) ->
  MonacoTrackKnowledge.get_nearest_line_point self (LinePoint.x p) (LinePoint.y p)
  = Some p.
Proof.
  intros Hin Huniq. unfold MonacoTrackKnowledge.get_nearest_line_point.
  rewrite nearest_scan_first_zero;
    [| exact I | exists p; split; [exact Hin | apply same_position_self]].
  destruct (find _ _) as [q |] eqn:Ef.
  - apply find_some in Ef. destruct Ef as [Hq Hs]. f_equal. now apply Huniq.
  - apply (find_none _ _ Ef) in Hin. rewrite same_position_self in Hin. discriminate.
Qed.

(** Evaluation of [init] on the small laps. *)
Ltac eval_lap :=
  cbv [MonacoTrackKnowledge.with_distances MonacoTrackKnowledge.given_distances
       map app lap_sample RawSample.distance RawSample.x RawSample.y RawSample.z
       RawSample.speed RawSample.throttle RawSample.brake].

Lemma closed_lap_racing_line :
  option_map MonacoTrackKnowledge.racing_line (MonacoTrackKnowledge.init closed_lap)
  = Some [closed_lap_start; LinePoint.mk 10 10 0 120 0 0; closed_lap_finish].
Proof.
  unfold MonacoTrackKnowledge.init, closed_lap. eval_lap. reflexivity.
Qed.

Lemma nearest_line_point_of_sample_witness :
  exists track,
    MonacoTrackKnowledge.init closed_lap = Some track
    /\ exists q,
         MonacoTrackKnowledge.get_nearest_line_point track 0 0 = Some q
         /\ find (same_position 0 0) (MonacoTrackKnowledge.racing_line track) = Some q
         /\ LinePoint.x q = 0
         /\ LinePoint.y q = 0
         /\ sqrt ((LinePoint.x q - 0) ^ 2 + (LinePoint.y q - 0) ^ 2) = 0.
Proof.
  pose proof closed_lap_racing_line as Hline.
  destruct (MonacoTrackKnowledge.init closed_lap) as [track |]; [| discriminate Hline].
  exists track. split; [reflexivity |].
  cbn [option_map] in Hline. injection Hline as Hline.
  apply (nearest_line_point_of_sample track closed_lap_finish).
  rewrite Hline. cbn [In]. tauto.
Defined.

(** C7 as stated fails on a lap that ends where it started: queried with
    the coordinates of its last sample, the scan returns the first sample,
    which sits at the same place. *)
Lemma nearest_of_lap_finish_is_lap_start :
  exists track,
    MonacoTrackKnowledge.init closed_lap = Some track
    /\ In closed_lap_finish (MonacoTrackKnowledge.racing_line track)
    /\ MonacoTrackKnowledge.get_nearest_line_point
         track (LinePoint.x closed_lap_finish) (LinePoint.y closed_lap_finish)
       = Some closed_lap_start
    /\ closed_lap_start <> closed_lap_finish.
Proof.
  pose proof closed_lap_racing_line as Hline.
  destruct (MonacoTrackKnowledge.init closed_lap) as [track |]; [| discriminate Hline].
  exists track. split; [reflexivity |].
  cbn [option_map] in Hline. injection Hline as Hline.
  split; [rewrite Hline; cbn [In]; tauto |]. split.
  - unfold MonacoTrackKnowledge.get_nearest_line_point.
    rewrite nearest_scan_first_zero.
    + rewrite Hline. cbn [find].
      replace (same_position _ _ closed_lap_start) with true; [reflexivity |].
      symmetry. unfold same_position.
      cbn [LinePoint.x LinePoint.y closed_lap_start closed_lap_finish].
      now rewrite !eqb_refl.
    + exact I.
    + exists closed_lap_finish. split; [rewrite Hline; cbn [In]; tauto |].
      apply same_position_self.
  - intros H. apply (f_equal LinePoint.distance) in H.
    cbn [LinePoint.distance closed_lap_start closed_lap_finish] in H. lra.
Qed.

(** *** Order of the critical turns *)

Section SortedThrough.

Variables (A B : Type) (rel : R -> R -> Prop).
Variables (ka : A -> R) (kb : B -> R) (g : A -> list B).

Hypothesis g_keeps_key : forall a b, In b (g a) -> kb b = ka a.
Hypothesis g_at_most_one : forall a, (length (g a) <= 1)%nat.

Lemma Forall_key_flat_map (c : R) (l : list A) :
  Forall (rel c) (map ka l) -> Forall (rel c) (map kb (flat_map g l)).
Proof.
  induction l as [| a l IH]; cbn [map flat_map]; intros H; [constructor |].
  inversion H as [| ? ? Ha Hl]; subst.
  rewrite map_app. apply Forall_app. split; [| auto].
  apply Forall_forall. intros r Hr. apply in_map_iff in Hr.
  destruct Hr as [b [<- Hb]]. rewrite (g_keeps_key a b Hb). exact Ha.
Qed.

(** A loop that turns each element into at most one element with the same
    key keeps a sorted list sorted. *)
Lemma StronglySorted_flat_map (l : list A) :
  StronglySorted rel (map ka l) ->
  StronglySorted rel (map kb (flat_map g l)).
Proof.
  induction l as [| a l IH]; cbn [map flat_map]; intros H; [constructor |].
  inversion H as [| ? ? Hs Hf]; subst.
  specialize (IH Hs).
  pose proof (g_at_most_one a) as Hlen.
  pose proof (g_keeps_key a) as Hkey.
  destruct (g a) as [| b [| b' rest]]; cbn [length] in Hlen; [exact IH | | lia].
  cbn [app map]. constructor; [exact IH |].
  rewrite (Hkey b (or_introl eq_refl)). now apply Forall_key_flat_map.
Qed.

End SortedThrough.

Lemma StronglySorted_nth {A} (rel : R -> R -> Prop) (k : A -> R) (d : A) (l : list A) :
  StronglySorted rel (map k l) ->
  forall i j, (i < j < length l)%nat -> rel (k (nth i l d)) (k (nth j l d)).
Proof.
  induction l as [| a l IH]; cbn [map length]; intros H i j Hij; [lia |].
  inversion H as [| ? ? Hs Hf]; subst.
  destruct j as [| j]; [lia |]. destruct i as [| i]; cbn [nth].
  - rewrite Forall_forall in Hf. apply Hf. apply in_map. apply nth_In. lia.
  - apply IH; [exact Hs | lia].
Qed.

Lemma StronglySorted_seq_nth {A} (rel : R -> R -> Prop) (k : A -> R) (d : A) (l : list A) :
  StronglySorted rel (map k l) ->
  forall len start, (start + len <= length l)%nat ->
  StronglySorted rel (map (fun i => k (nth i l d)) (seq start len)).
Proof.
  intros H len. induction len as [| len IH]; intros start Hb; cbn [seq map];
    [constructor |].
  constructor; [apply IH; lia |].
  apply Forall_forall. intros r Hr. apply in_map_iff in Hr.
  destruct Hr as [j [<- Hj]]. apply in_seq in Hj.
  apply StronglySorted_nth; [exact H | lia].
Qed.

Lemma Sorted_map_key {A} (rel : R -> R -> Prop) (k : A -> R) (l : list A) :
  Sorted (fun a b => rel (k a) (k b)) l <-> Sorted rel (map k l).
Proof.
  induction l as [| a l IH]; cbn [map]; split; intros H; try constructor;
    inversion H as [| ? ? Hs Hh]; subst.
  - now apply IH.
  - destruct l; cbn [map]; constructor. now inversion Hh.
  - now apply IH.
  - destruct l; cbn [map] in *; constructor. now inversion Hh.
Qed.

(** The turns inherit the order of the telemetry distances, for any
    transitive order. *)
Lemma turns_sorted (rel : R -> R -> Prop) (telemetry : list Sample.t) :
  Transitive rel ->
  Sorted (by_distance rel) telemetry ->
  Sorted (by_apex_distance rel)
    (MonacoTrackKnowledge._analyze_critical_turns
       (MonacoTrackKnowledge._find_braking_zones telemetry)
       (MonacoTrackKnowledge._find_apex_points telemetry)).
Proof.
  intros Htr Hs.
  apply (proj2 (Sorted_map_key rel Turn.apex_distance _)). apply StronglySorted_Sorted.
  unfold MonacoTrackKnowledge._analyze_critical_turns.
  apply StronglySorted_flat_map with (ka := Apex.distance).
  - intros a b. destruct (MonacoTrackKnowledge.corresponding_zone _ a); cbn [In];
      [| tauto].
    intros [<- | []]. reflexivity.
  - intros a. destruct (MonacoTrackKnowledge.corresponding_zone _ a); cbn [length]; lia.
  - unfold MonacoTrackKnowledge._find_apex_points.
    apply StronglySorted_flat_map
      with (ka := fun i => Sample.distance (nth i telemetry Sample.zero)).
    + intros i b. destruct (MonacoTrackKnowledge.is_apex_index telemetry i); cbn [In];
        [| tauto].
      intros [<- | []]. reflexivity.
    + intros i. destruct (MonacoTrackKnowledge.is_apex_index telemetry i);
        cbn [length]; lia.
    + unfold MonacoTrackKnowledge.window.
      destruct (Nat.le_gt_cases 40 (length telemetry)) as [Hlen | Hlen].
      * apply StronglySorted_seq_nth; [| lia].
        apply Sorted_StronglySorted; [exact Htr |].
        apply (proj1 (Sorted_map_key rel Sample.distance telemetry)). exact Hs.
      * replace (length telemetry - 20 - 20)%nat with 0%nat by lia. constructor.
Qed.

Lemma init_fields raw track :
  MonacoTrackKnowledge.init raw = Some track ->
  MonacoTrackKnowledge.critical_turns track
  = MonacoTrackKnowledge._analyze_critical_turns
      (MonacoTrackKnowledge._find_braking_zones (MonacoTrackKnowledge.telemetry track))
      (MonacoTrackKnowledge._find_apex_points (MonacoTrackKnowledge.telemetry track))
  /\ MonacoTrackKnowledge.apex_points track
     = MonacoTrackKnowledge._find_apex_points (MonacoTrackKnowledge.telemetry track)
  /\ MonacoTrackKnowledge.with_distances raw
     = Some (MonacoTrackKnowledge.telemetry track).
Proof.
  unfold MonacoTrackKnowledge.init.
  destruct (MonacoTrackKnowledge.with_distances raw) as [telemetry |]; [| discriminate].
  cbv zeta. intros E. inversion E; subst; clear E.
  cbn [MonacoTrackKnowledge.critical_turns MonacoTrackKnowledge.telemetry
       MonacoTrackKnowledge.apex_points].
  repeat split; reflexivity.
Qed.

(** C8, as amended.  For every track built from a reference sample
    sequence: if the distances do not decrease along the sequence, the
    apex distances do not decrease along the turn sequence; and if the
    distances strictly increase along the sequence, then for every
    consecutive pair of turns the apex distance of the first is smaller than
    that of the second. *)
Theorem critical_turns_ordered
  (raw : list RawSample.t) (track : MonacoTrackKnowledge.t) :
  MonacoTrackKnowledge.init raw = Some track ->
  (Sorted (by_distance Rle) (MonacoTrackKnowledge.telemetry track) ->
   Sorted (by_apex_distance Rle) (MonacoTrackKnowledge.critical_turns track))
  /\ (Sorted (by_distance Rlt) (MonacoTrackKnowledge.telemetry track) ->
      Sorted (by_apex_distance Rlt) (MonacoTrackKnowledge.critical_turns track)).
Proof.
  intros Hinit. destruct (init_fields raw track Hinit) as [-> _].
  split; apply turns_sorted.
  - intros a b c. apply Rle_trans.
  - intros a b c. apply Rlt_trans.
Qed.

(** Distances filled in by [__init__] never decrease along the sequence. *)
Lemma compute_distances_sorted raw : forall prev distance,
  Sorted (by_distance Rle) (MonacoTrackKnowledge.compute_distances prev distance raw).
Proof.
  induction raw as [| point rest IH]; intros prev distance;
    cbn [MonacoTrackKnowledge.compute_distances]; [constructor |].
  cbv zeta. constructor; [apply IH |].
  destruct rest as [| next rest']; cbn [MonacoTrackKnowledge.compute_distances];
    constructor.
  unfold by_distance. cbn [Sample.distance].
  match goal with |- _ <= _ + sqrt ?a => pose proof (sqrt_pos a) end. lra.
Qed.

Lemma straight_track_init : MonacoTrackKnowledge.init straight_lap = Some straight_track.
Proof.
  unfold MonacoTrackKnowledge.init, straight_lap. eval_lap.
  cbv zeta. unfold straight_track. f_equal. f_equal.
  - cbv [map list_max Sample.distance fold_left]. apply py_max_r. lra.
  - unfold MonacoTrackKnowledge._find_braking_zones.
    cbv [length seq flat_map nth Sample.brake]. rewrite truthy_0. reflexivity.
Qed.

(** *** Apex detection *)

Lemma fold_min_le_init l m : fold_left Py.min l m <= m.
Proof.
  revert m. induction l as [| v l IH]; intros m; cbn [fold_left]; [lra |].
  eapply Rle_trans; [apply IH |]. auto with py.
Qed.

Lemma fold_min_lower l m c :
  c <= m -> Forall (Rle c) l -> c <= fold_left Py.min l m.
Proof.
  revert m. induction l as [| v l IH]; intros m Hm Hl; cbn [fold_left]; [exact Hm |].
  inversion Hl; subst. apply IH; [| assumption]. auto with py.
Qed.

Lemma fold_min_le_elem l m v : In v l -> fold_left Py.min l m <= v.
Proof.
  revert m. induction l as [| w l IH]; intros m Hin; [destruct Hin |].
  cbn [fold_left]. destruct Hin as [-> | Hin].
  - eapply Rle_trans; [apply fold_min_le_init |]. auto with py.
  - now apply IH.
Qed.

Lemma list_min_le l v : In v l -> list_min l <= v.
Proof.
  destruct l as [| w l]; [intros [] |]. unfold list_min.
  intros [-> | Hin]; [apply fold_min_le_init | now apply fold_min_le_elem].
Qed.

Lemma list_min_is_min l m : In m l -> Forall (Rle m) l -> list_min l = m.
Proof.
  intros Hin Hall. apply Rle_antisym; [now apply list_min_le |].
  destruct l as [| v l]; [destruct Hin |].
  unfold list_min. inversion Hall; subst. now apply fold_min_lower.
Qed.

(** What the test of [_find_apex_points] decides at an index that has
    [window] entries before it: the entry is slower than 150 and no entry
    from [i - window] up to, but not including, [i + window] is slower. *)
Lemma is_apex_index_true telemetry i :
  (MonacoTrackKnowledge.window <= i)%nat ->
  MonacoTrackKnowledge.is_apex_index telemetry i = true
  <-> Sample.speed (nth i telemetry Sample.zero) < 150
      /\ forall j, (i - MonacoTrackKnowledge.window <= j
                    < i + MonacoTrackKnowledge.window)%nat ->
                   Sample.speed (nth i telemetry Sample.zero)
                   <= Sample.speed (nth j telemetry Sample.zero).
Proof.
  unfold MonacoTrackKnowledge.is_apex_index, MonacoTrackKnowledge.window.
  intros Hi. cbv zeta.
  set (speed_at := fun j => Sample.speed (nth j telemetry Sample.zero)).
  change (Sample.speed (nth i telemetry Sample.zero)) with (speed_at i).
  set (speeds := map speed_at (seq (i - 20) (i + 20 - (i - 20)))).
  assert (Hin : forall j, (i - 20 <= j < i + 20)%nat -> In (speed_at j) speeds).
  { intros j Hj. apply in_map. apply in_seq. lia. }
  rewrite andb_true_iff, eqb_true, ltb_true. split.
  - intros [Hmin Hlt]. split; [exact Hlt |].
    intros j Hj. rewrite Hmin. apply list_min_le. now apply Hin.
  - intros [Hlt Hall]. split; [| exact Hlt].
    symmetry. apply list_min_is_min; [apply Hin; lia |].
    apply Forall_forall. intros v Hv. apply in_map_iff in Hv.
    destruct Hv as [j [<- Hj]]. apply in_seq in Hj. apply Hall. lia.
Qed.

(** The apex list holds exactly the entries that pass that test, among
    those with [window] entries on each side. *)
Lemma apex_points_characterised telemetry a :
  In a (MonacoTrackKnowledge._find_apex_points telemetry)
  <-> exists i,
        (MonacoTrackKnowledge.window <= i
         < length telemetry - MonacoTrackKnowledge.window)%nat
        /\ a = MonacoTrackKnowledge.apex_of (nth i telemetry Sample.zero)
        /\ Sample.speed (nth i telemetry Sample.zero) < 150
        /\ forall j, (i - MonacoTrackKnowledge.window <= j
                      < i + MonacoTrackKnowledge.window)%nat ->
                     Sample.speed (nth i telemetry Sample.zero)
                     <= Sample.speed (nth j telemetry Sample.zero).
Proof.
  unfold MonacoTrackKnowledge._find_apex_points. rewrite in_flat_map. split.
  - intros [i [Hi Ha]]. apply in_seq in Hi.
    destruct (MonacoTrackKnowledge.is_apex_index telemetry i) eqn:E; [| destruct Ha].
    destruct Ha as [<- | []]. exists i.
    apply is_apex_index_true in E; [| lia].
    repeat split; try tauto; lia.
  - intros [i [Hi [-> Hspec]]]. exists i. split; [apply in_seq; lia |].
    replace (MonacoTrackKnowledge.is_apex_index telemetry i) with true.
    + now left.
    + symmetry. apply is_apex_index_true; [lia | exact Hspec].
Qed.

(** Every entry with [window] entries on each side that is slower than 150
    and slowest in its symmetric window is in the apex list. *)
Lemma symmetric_minimum_is_apex telemetry i :
  (MonacoTrackKnowledge.window <= i
   < length telemetry - MonacoTrackKnowledge.window)%nat ->
  Sample.speed (nth i telemetry Sample.zero) < 150 ->
  symmetric_window_minimum telemetry i ->
  In (MonacoTrackKnowledge.apex_of (nth i telemetry Sample.zero))
     (MonacoTrackKnowledge._find_apex_points telemetry).
Proof.
  intros Hi Hlt Hmin. apply apex_points_characterised. exists i.
  repeat split; try tauto; try lia.
  intros j Hj. apply Hmin; unfold MonacoTrackKnowledge.window in *; lia.
Qed.

(** The telemetry and the apex list of the late-dip lap. *)
Lemma late_dip_lap_apexes :
  exists telemetry,
    MonacoTrackKnowledge.with_distances late_dip_lap = Some telemetry
    /\ length telemetry = 41%nat
    /\ Sample.speed (nth 20 telemetry Sample.zero) = 100
    /\ Sample.speed (nth 40 telemetry Sample.zero) = 90
    /\ MonacoTrackKnowledge.apex_of (nth 20 telemetry Sample.zero) = Apex.mk 20 20 0 100
    /\ MonacoTrackKnowledge._find_apex_points telemetry = [Apex.mk 20 20 0 100].
Proof.
  unfold late_dip_lap. eval_lap. eexists. split; [reflexivity |].
  split; [reflexivity |]. split; [reflexivity |]. split; [reflexivity |].
  split; [reflexivity |].
  unfold MonacoTrackKnowledge._find_apex_points.
  cbv [length MonacoTrackKnowledge.window Nat.sub seq flat_map].
  unfold MonacoTrackKnowledge.is_apex_index.
  cbv [MonacoTrackKnowledge.window Nat.sub Nat.add seq map nth Sample.speed].
  cbv zeta.
  rewrite (list_min_is_min _ 100).
  - rewrite eqb_refl.
    replace (Py.ltb 100 150) with true by (symmetry; apply ltb_true; lra).
    reflexivity.
  - cbn [In]. tauto.
  - repeat (constructor; [lra |]). constructor.
Qed.

(** C9, on the late-dip lap: the window the code inspects stops one entry
    short on the right.  The apex list of that lap consists of entry 20
    (speed 100), although entry 40, twenty places after it and so inside
    the symmetric window of half-width 20, is slower (speed 90). *)
Theorem late_dip_apex_not_window_minimum :
  exists track,
    MonacoTrackKnowledge.init late_dip_lap = Some track
    /\ MonacoTrackKnowledge.apex_points track
       = [MonacoTrackKnowledge.apex_of
            (nth 20 (MonacoTrackKnowledge.telemetry track) Sample.zero)]
    /\ Sample.speed (nth 20 (MonacoTrackKnowledge.telemetry track) Sample.zero) = 100
    /\ Sample.speed (nth 40 (MonacoTrackKnowledge.telemetry track) Sample.zero) = 90
    /\ ~ symmetric_window_minimum (MonacoTrackKnowledge.telemetry track) 20.
Proof.
  destruct late_dip_lap_apexes as [telemetry [Hw [Hlen [H20 [H40 [Ha Hap]]]]]].
  destruct (MonacoTrackKnowledge.init late_dip_lap) as [track |] eqn:Hinit.
  2:{ unfold MonacoTrackKnowledge.init in Hinit. rewrite Hw in Hinit. discriminate. }
  destruct (init_fields _ _ Hinit) as [_ [Hpoints Htel]].
  rewrite Hw in Htel. injection Htel as Htel. subst telemetry.
  exists track. split; [reflexivity |].
  split; [rewrite Hpoints, Hap, Ha; reflexivity |].
  split; [exact H20 |]. split; [exact H40 |].
  intros Hmin. specialize (Hmin 40%nat).
  unfold MonacoTrackKnowledge.window in Hmin.
  rewrite H20, H40, Hlen in Hmin. specialize (Hmin ltac:(lia) ltac:(lia)). lra.
Qed.

(** The turns of the lap with a repeated sample. *)
Lemma repeated_sample_lap_turns :
  exists telemetry,
    MonacoTrackKnowledge.with_distances repeated_sample_lap = Some telemetry
    /\ Sorted (by_distance Rle) telemetry
    /\ MonacoTrackKnowledge._analyze_critical_turns
         (MonacoTrackKnowledge._find_braking_zones telemetry)
         (MonacoTrackKnowledge._find_apex_points telemetry)
       = [repeated_sample_turn; repeated_sample_turn].
Proof.
  unfold repeated_sample_lap. eval_lap. eexists. split; [reflexivity |].
  set (telemetry := _ :: _). split.
  { unfold telemetry.
    repeat (constructor;
            [| first [ constructor; unfold by_distance; cbn [Sample.distance]; lra
                     | constructor ] ]).
    constructor. }
  assert (Hz : MonacoTrackKnowledge._find_braking_zones telemetry
               = [BrakingZone.mk 5 10 120 120 (10 - 5)]).
  { unfold MonacoTrackKnowledge._find_braking_zones, telemetry.
    cbv [length seq flat_map nth Sample.brake Sample.distance Sample.speed
         MonacoTrackKnowledge.brake_run_end skipn Nat.sub Nat.eqb Nat.ltb Nat.leb
         app].
    rewrite ?truthy_0, ?truthy_1. cbn [andb orb negb app]. reflexivity. }
  assert (Ha : MonacoTrackKnowledge._find_apex_points telemetry
               = [Apex.mk 20 20 0 80; Apex.mk 20 20 0 80]).
  { unfold MonacoTrackKnowledge._find_apex_points, telemetry.
    cbv [length MonacoTrackKnowledge.window Nat.sub seq flat_map].
    unfold MonacoTrackKnowledge.is_apex_index.
    cbv [MonacoTrackKnowledge.window Nat.sub Nat.add seq map nth Sample.speed].
    cbv zeta.
    rewrite !(list_min_is_min _ 80).
    - rewrite eqb_refl.
      replace (Py.ltb 80 150) with true by (symmetry; apply ltb_true; lra).
      reflexivity.
    - cbn [In]. tauto.
    - repeat (constructor; [lra |]). constructor.
    - cbn [In]. tauto.
    - repeat (constructor; [lra |]). constructor. }
  rewrite Hz, Ha.
  unfold MonacoTrackKnowledge._analyze_critical_turns,
    MonacoTrackKnowledge.corresponding_zone.
  cbn [flat_map find BrakingZone.start_distance BrakingZone.end_distance Apex.distance
       BrakingZone.braking_distance BrakingZone.entry_speed Apex.speed Apex.x Apex.y].
  replace (Py.ltb 5 20) with true by (symmetry; apply ltb_true; lra).
  replace (Py.ltb 20 (10 + 100)) with true by (symmetry; apply ltb_true; lra).
  cbn [andb app]. unfold repeated_sample_turn.
  replace (10 - 5) with 5 by lra. reflexivity.
Qed.

(** C8 as stated fails on the lap with a repeated sample, whose distances
    do not decrease: the repeated slowest sample yields two apexes, hence
    two turns, with the same apex distance. *)
Lemma repeated_sample_turns_not_increasing :
  exists track,
    MonacoTrackKnowledge.init repeated_sample_lap = Some track
    /\ Sorted (by_distance Rle) (MonacoTrackKnowledge.telemetry track)
    /\ MonacoTrackKnowledge.critical_turns track
       = [repeated_sample_turn; repeated_sample_turn]
    /\ ~ Sorted (by_apex_distance Rlt) (MonacoTrackKnowledge.critical_turns track).
Proof.
  destruct repeated_sample_lap_turns as [telemetry [Hw [Hsorted Hturns]]].
  destruct (MonacoTrackKnowledge.init repeated_sample_lap) as [track |] eqn:Hinit.
  2:{ unfold MonacoTrackKnowledge.init in Hinit. rewrite Hw in Hinit. discriminate. }
  destruct (init_fields _ _ Hinit) as [Hcrit [_ Htel]].
  rewrite Hw in Htel. injection Htel as Htel. subst telemetry.
  exists track. split; [reflexivity |]. split; [exact Hsorted |].
  rewrite Hcrit, Hturns. split; [reflexivity |].
  intros H. inversion H as [| ? ? _ Hhd]; subst.
  inversion Hhd as [| ? ? Hlt]; subst.
  unfold by_apex_distance in Hlt. cbn [Turn.apex_distance repeated_sample_turn] in Hlt.
  lra.
Qed.

(** Distances that strictly increase do not decrease. *)
Lemma Sorted_by_distance_weaken (telemetry : list Sample.t) :
  Sorted (by_distance Rlt) telemetry -> Sorted (by_distance Rle) telemetry.
Proof.
  induction 1 as [| a l _ IH Hhd]; constructor; [exact IH |].
  destruct Hhd as [| b l' Hab]; constructor.
  unfold by_distance in *. lra.
Qed.

(** The turns of the lap with two equally slow entries, one unit apart. *)
Lemma twin_dip_lap_turns :
  exists telemetry,
    MonacoTrackKnowledge.with_distances twin_dip_lap = Some telemetry
    /\ Sorted (by_distance Rlt) telemetry
    /\ MonacoTrackKnowledge._analyze_critical_turns
         (MonacoTrackKnowledge._find_braking_zones telemetry)
         (MonacoTrackKnowledge._find_apex_points telemetry)
       = [twin_dip_first_turn; twin_dip_second_turn].
Proof.
  unfold twin_dip_lap. eval_lap. eexists. split; [reflexivity |].
  set (telemetry := _ :: _). split.
  { unfold telemetry.
    repeat (constructor;
            [| first [ constructor; unfold by_distance; cbn [Sample.distance]; lra
                     | constructor ] ]).
    constructor. }
  assert (Hz : MonacoTrackKnowledge._find_braking_zones telemetry
               = [BrakingZone.mk 5 10 120 120 (10 - 5)]).
  { unfold MonacoTrackKnowledge._find_braking_zones, telemetry.
    cbv [length seq flat_map nth Sample.brake Sample.distance Sample.speed
         MonacoTrackKnowledge.brake_run_end skipn Nat.sub Nat.eqb Nat.ltb Nat.leb
         app].
    rewrite ?truthy_0, ?truthy_1. cbn [andb orb negb app]. reflexivity. }
  assert (Ha : MonacoTrackKnowledge._find_apex_points telemetry
               = [Apex.mk 20 20 0 80; Apex.mk 21 21 0 80]).
  { unfold MonacoTrackKnowledge._find_apex_points, telemetry.
    cbv [length MonacoTrackKnowledge.window Nat.sub seq flat_map].
    unfold MonacoTrackKnowledge.is_apex_index.
    cbv [MonacoTrackKnowledge.window Nat.sub Nat.add seq map nth Sample.speed].
    cbv zeta.
    rewrite !(list_min_is_min _ 80).
    - rewrite eqb_refl.
      replace (Py.ltb 80 150) with true by (symmetry; apply ltb_true; lra).
      reflexivity.
    - cbn [In]. tauto.
    - repeat (constructor; [lra |]). constructor.
    - cbn [In]. tauto.
    - repeat (constructor; [lra |]). constructor. }
  rewrite Hz, Ha.
  unfold MonacoTrackKnowledge._analyze_critical_turns,
    MonacoTrackKnowledge.corresponding_zone.
  cbn [flat_map find BrakingZone.start_distance BrakingZone.end_distance Apex.distance
       BrakingZone.braking_distance BrakingZone.entry_speed Apex.speed Apex.x Apex.y].
  replace (Py.ltb 5 20) with true by (symmetry; apply ltb_true; lra).
  replace (Py.ltb 20 (10 + 100)) with true by (symmetry; apply ltb_true; lra).
  replace (Py.ltb 5 21) with true by (symmetry; apply ltb_true; lra).
  replace (Py.ltb 21 (10 + 100)) with true by (symmetry; apply ltb_true; lra).
  cbn [andb app]. unfold twin_dip_first_turn, twin_dip_second_turn.
  replace (10 - 5) with 5 by lra. reflexivity.
Qed.

(** On the lap with two equally slow entries one unit apart the distances
    strictly increase, two turns are found, at apex distances 20 and 21,
    and their apex distances both do not decrease and strictly increase. *)
Lemma critical_turns_ordered_witness :
  exists track,
    MonacoTrackKnowledge.init twin_dip_lap = Some track
    /\ Sorted (by_distance Rlt) (MonacoTrackKnowledge.telemetry track)
    /\ MonacoTrackKnowledge.critical_turns track
       = [twin_dip_first_turn; twin_dip_second_turn]
    /\ Sorted (by_apex_distance Rle) (MonacoTrackKnowledge.critical_turns track)
    /\ Sorted (by_apex_distance Rlt) (MonacoTrackKnowledge.critical_turns track).
Proof.
  destruct twin_dip_lap_turns as [telemetry [Hw [Hsorted Hturns]]].
  destruct (MonacoTrackKnowledge.init twin_dip_lap) as [track |] eqn:Hinit.
  2:{ unfold MonacoTrackKnowledge.init in Hinit. rewrite Hw in Hinit. discriminate. }
  destruct (init_fields _ _ Hinit) as [Hcrit [_ Htel]].
  rewrite Hw in Htel. injection Htel as Htel. subst telemetry.
  exists track. split; [reflexivity |]. split; [exact Hsorted |].
  split; [rewrite Hcrit; exact Hturns |].
  destruct (critical_turns_ordered twin_dip_lap track Hinit) as [Hle Hlt].
  split; [apply Hle; apply Sorted_by_distance_weaken; exact Hsorted | apply Hlt; exact Hsorted].
Defined.

(** ** The episode environment *)

(** Projections of an environment or a car state built in place. *)
Ltac env_fields :=
  cbn [RacingEnv.track RacingEnv.config RacingEnv.simulator RacingEnv.boundaries
       RacingEnv.state RacingEnv.steps RacingEnv.last_distance RacingEnv.best_distance
       RacingEnv.lap_start_time RacingEnv.consecutive_no_progress
       RacingEnv.position_history RacingEnv.last_x RacingEnv.last_y
       RacingEnv.total_physical_distance
       CarState.x CarState.y CarState.heading CarState.speed CarState.vx CarState.vy
       CarState.throttle CarState.brake CarState.steering CarState.gear CarState.rpm
       CarState.tire_temp CarState.fuel_kg CarState.lap_time CarState.distance].

(** *** The off-track test *)

Lemma gt_ext_min_ext m d c :
  gt_ext (min_ext m d) c = (gt_ext m c && Py.ltb c d)%bool.
Proof.
  destruct m as [| r]; cbn [min_ext gt_ext]; [reflexivity |].
  unfold Py.min. destruct (Rlt_dec d r) as [H | H].
  - destruct (Py.ltb c d) eqn:E.
    + apply ltb_true in E. rewrite andb_true_r. symmetry. apply ltb_true. lra.
    + rewrite andb_false_r. reflexivity.
  - destruct (Py.ltb c r) eqn:E; cbn [andb]; [| reflexivity].
    apply ltb_true in E. symmetry. apply ltb_true. lra.
Qed.

Section BoundaryLoops.

Variables x y : R.

(** The inner loop while [boundary == self.left_boundary] holds. *)
Lemma inner_loop_left boundary l r :
  fold_left
    (fun '(min_dist_left, min_dist_right) point =>
       if true
       then (min_ext min_dist_left (RacingEnv.boundary_point_distance x y point),
             min_dist_right)
       else (min_dist_left,
             min_ext min_dist_right (RacingEnv.boundary_point_distance x y point)))
    boundary (l, r)
  = (fold_left (fun m p => min_ext m (RacingEnv.boundary_point_distance x y p))
               boundary l,
     r).
Proof.
  revert l. induction boundary as [| p b IH]; intros l; cbn [fold_left];
    [reflexivity | apply IH].
Qed.

(** The inner loop while it does not. *)
Lemma inner_loop_right boundary l r :
  fold_left
    (fun '(min_dist_left, min_dist_right) point =>
       if false
       then (min_ext min_dist_left (RacingEnv.boundary_point_distance x y point),
             min_dist_right)
       else (min_dist_left,
             min_ext min_dist_right (RacingEnv.boundary_point_distance x y point)))
    boundary (l, r)
  = (l,
     fold_left (fun m p => min_ext m (RacingEnv.boundary_point_distance x y p))
               boundary r).
Proof.
  revert r. induction boundary as [| p b IH]; intros r; cbn [fold_left];
    [reflexivity | apply IH].
Qed.

Lemma fold_min_gt boundary m c :
  gt_ext (fold_left (fun m p => min_ext m (RacingEnv.boundary_point_distance x y p))
                    boundary m) c = true
  <-> gt_ext m c = true
      /\ forall p, In p boundary -> c < RacingEnv.boundary_point_distance x y p.
Proof.
  revert m. induction boundary as [| p b IH]; intros m; cbn [fold_left In].
  - intuition.
  - rewrite IH, gt_ext_min_ext, andb_true_iff, ltb_true. split.
    + intros [[Hm Hp] Hb]. split; [exact Hm |]. intros q [<- | Hq]; auto.
    + intros [Hm Hb]. split; [split |]; auto.
Qed.

(** Both running minima exceed 50 exactly when every point of both
    boundaries is more than 50 away, also when the two boundary lists are
    equal and the loop files every distance under the left one. *)
Lemma boundary_min_dists_gt left_boundary right_boundary :
  (let '(l, r) := RacingEnv.boundary_min_dists x y left_boundary right_boundary in
   gt_ext l 50 && gt_ext r 50)%bool = true
  <-> (forall p, In p left_boundary ->
                 50 < RacingEnv.boundary_point_distance x y p)
      /\ (forall p, In p right_boundary ->
                    50 < RacingEnv.boundary_point_distance x y p).
Proof.
  unfold RacingEnv.boundary_min_dists. cbn [fold_left]. cbv zeta.
  unfold boundary_eqb.
  destruct (list_eq_dec BoundaryPoint.eq_dec left_boundary left_boundary) as [_ | Hn];
    [| contradiction].
  rewrite inner_loop_left.
  destruct (list_eq_dec BoundaryPoint.eq_dec right_boundary left_boundary) as [He | Hne].
  - subst right_boundary. rewrite inner_loop_left.
    rewrite andb_true_iff. cbn [gt_ext]. rewrite !fold_min_gt. cbn [gt_ext]. tauto.
  - rewrite inner_loop_right.
    rewrite andb_true_iff, !fold_min_gt. cbn [gt_ext]. tauto.
Qed.

End BoundaryLoops.

Lemma is_off_track_rule self b :
  RacingEnv._is_off_track self = Some b -> (b = true <-> RacingEnv.off_track_rule self).
Proof.
  unfold RacingEnv._is_off_track, RacingEnv.off_track_rule. cbv zeta.
  destruct (RacingEnv.boundaries self) as [[left_boundary right_boundary] |].
  - pose proof (boundary_min_dists_gt (CarState.x (RacingEnv.state self))
                  (CarState.y (RacingEnv.state self)) left_boundary right_boundary) as H.
    destruct (RacingEnv.boundary_min_dists _ _ _ _) as [l r].
    destruct (gt_ext l 50 && gt_ext r 50)%bool; intros E; inversion E; subst.
    + tauto.
    + split; [discriminate |]. intros Hr. apply H in Hr. discriminate.
  - destruct (MonacoTrackKnowledge.get_nearest_line_point _ _ _) as [nearest |];
      [| discriminate].
    intros E. inversion E; subst. rewrite ltb_true. split.
    + intros H. now exists nearest.
    + intros [n [Hn H]]. inversion Hn; subst. exact H.
Qed.

(** *** What a successful [step] leaves behind *)

Lemma step_inversion self action now self' result :
  RacingEnv.step self action now = Some (self', result) ->
  (exists step_distance progress_this_step,
     RacingEnv._calculate_reward self' step_distance progress_this_step now
     = Some (StepResult.reward result, StepResult.done result, StepResult.info result))
  /\ CarState.x (RacingEnv.state self') = CarState.x (RacingEnv.advanced self action)
  /\ CarState.y (RacingEnv.state self') = CarState.y (RacingEnv.advanced self action)
  /\ CarState.speed (RacingEnv.state self')
     = CarState.speed (RacingEnv.advanced self action)
  /\ CarState.lap_time (RacingEnv.state self')
     = CarState.lap_time (RacingEnv.advanced self action)
  /\ RacingEnv.track self' = RacingEnv.track self
  /\ RacingEnv.config self' = RacingEnv.config self
  /\ RacingEnv.boundaries self' = RacingEnv.boundaries self
  /\ RacingEnv.lap_start_time self' = RacingEnv.lap_start_time self
  /\ RacingEnv.steps self' = S (RacingEnv.steps self)
  /\ RacingEnv.consecutive_no_progress self'
     = if Rlt_dec (RacingEnv.physical_movement self action) 0.01
       then S (RacingEnv.consecutive_no_progress self) else O.
Proof.
  unfold RacingEnv.step, RacingEnv.physical_movement, RacingEnv.advanced,
    RacingEnv.controls.
  destruct action as [[a0 a1] a2]. cbv zeta.
  destruct (MonacoTrackKnowledge.get_nearest_line_point _ _ _) as [nearest |];
    [| discriminate].
  match goal with
  | |- match RacingEnv._calculate_reward ?e ?sd ?pr now with _ => _ end = _ -> _ =>
      destruct (RacingEnv._calculate_reward e sd pr now) as [[[reward done] info] |] eqn:Ecr;
      [| discriminate];
      destruct (RacingEnv.observation_fails e); [discriminate |];
      intros E; inversion E; subst; clear E;
      split; [exists sd, pr; exact Ecr |]
  end.
  env_fields. repeat split; reflexivity.
Qed.

(** The branch of [_calculate_reward] behind each shape of [info]. *)
Lemma calculate_reward_inversion self step_distance progress_this_step now reward done info :
  RacingEnv._calculate_reward self step_distance progress_this_step now
  = Some (reward, done, info) ->
  exists off,
    RacingEnv._is_off_track self = Some off
    /\ match info with
       | InfoCrash off_track =>
           off = true
           /\ reward = TrainingConfig.crash_penalty (RacingEnv.config self)
           /\ done = true
       | InfoCrash stuck =>
           off = false
           /\ (500 < RacingEnv.consecutive_no_progress self)%nat
           /\ reward = TrainingConfig.crash_penalty (RacingEnv.config self)
           /\ done = true
       | InfoCrash backwards =>
           off = false
           /\ (RacingEnv.consecutive_no_progress self <= 500)%nat
           /\ CarState.speed (RacingEnv.state self) < 0
       | InfoCompleted lap_time =>
           off = false
           /\ (RacingEnv.consecutive_no_progress self <= 500)%nat
           /\ MonacoTrackKnowledge.track_length (RacingEnv.track self)
              <= CarState.distance (RacingEnv.state self)
           /\ lap_time = now - RacingEnv.lap_start_time self
           /\ reward = TrainingConfig.completion_reward (RacingEnv.config self)
                       + (if Rlt_dec lap_time 100 then (100 - lap_time) * 2 else 0)
           /\ done = true
       | InfoTimeout =>
           off = false
           /\ (RacingEnv.consecutive_no_progress self <= 500)%nat
           /\ done = true
       | InfoOngoing _ _ _ =>
           off = false
           /\ (RacingEnv.consecutive_no_progress self <= 500)%nat
           /\ done = false
       end.
Proof.
  unfold RacingEnv._calculate_reward. cbv zeta.
  destruct (MonacoTrackKnowledge.get_nearest_line_point _ _ _) as [nearest |];
    [| discriminate].
  destruct (RacingEnv._is_off_track self) as [[|] |]; [| | discriminate].
  - intros E; inversion E; subst. exists true. auto.
  - exists false. split; [reflexivity |]. revert H.
    destruct (500 <? RacingEnv.consecutive_no_progress self)%nat eqn:Ek.
    { intros E; inversion E; subst. apply Nat.ltb_lt in Ek. auto. }
    apply Nat.ltb_ge in Ek.
    destruct (Rlt_dec (CarState.speed (RacingEnv.state self)) 0) as [Hs | Hs].
    { intros E; inversion E; subst. auto. }
    destruct (Rle_dec _ _) as [Hc | Hc].
    { intros E; inversion E; subst. repeat split; auto.
      destruct (Rlt_dec _ 100); lra. }
    destruct (_ <=? _)%Z.
    { destruct (Py.eqb _ 0); [discriminate |]. intros E; inversion E; subst. auto. }
    intros E; inversion E; subst. auto.
Qed.

Lemma calculate_reward_off_track self step_distance progress_this_step now reward done info :
  RacingEnv._calculate_reward self step_distance progress_this_step now
  = Some (reward, done, info) ->
  RacingEnv._is_off_track self = Some true ->
  info = InfoCrash off_track.
Proof.
  unfold RacingEnv._calculate_reward. cbv zeta.
  destruct (MonacoTrackKnowledge.get_nearest_line_point _ _ _) as [nearest |];
    [| discriminate].
  intros E Ho. rewrite Ho in E. now inversion E.
Qed.

(** *** [step] returns on a usable track *)

Lemma nearest_scan_keeps x y line : forall min_dist point,
  exists nearest,
    MonacoTrackKnowledge.nearest_scan x y line min_dist (Some point) = Some nearest.
Proof.
  induction line as [| p rest IH]; intros min_dist point;
    cbn [MonacoTrackKnowledge.nearest_scan].
  - now exists point.
  - cbv zeta. destruct (lt_ext _ min_dist); apply IH.
Qed.

Lemma nearest_line_point_exists track x y :
  MonacoTrackKnowledge.racing_line track <> [] ->
  exists nearest, MonacoTrackKnowledge.get_nearest_line_point track x y = Some nearest.
Proof.
  unfold MonacoTrackKnowledge.get_nearest_line_point.
  destruct (MonacoTrackKnowledge.racing_line track) as [| p rest]; [contradiction |].
  intros _. cbn [MonacoTrackKnowledge.nearest_scan lt_ext]. cbv zeta.
  apply nearest_scan_keeps.
Qed.

Lemma is_off_track_returns self :
  MonacoTrackKnowledge.racing_line (RacingEnv.track self) <> [] ->
  exists off, RacingEnv._is_off_track self = Some off.
Proof.
  intros Hline. unfold RacingEnv._is_off_track. cbv zeta.
  destruct (RacingEnv.boundaries self) as [[left_boundary right_boundary] |].
  - destruct (RacingEnv.boundary_min_dists _ _ _ _) as [l r].
    destruct (gt_ext l 50 && gt_ext r 50)%bool; eexists; reflexivity.
  - destruct (nearest_line_point_exists (RacingEnv.track self)
                (CarState.x (RacingEnv.state self)) (CarState.y (RacingEnv.state self))
                Hline) as [nearest ->].
    eexists. reflexivity.
Qed.

Lemma eqb_nonzero v : v <> 0 -> Py.eqb v 0 = false.
Proof. intros H. now apply eqb_false. Qed.

Lemma calculate_reward_returns self step_distance progress_this_step now :
  usable (RacingEnv.track self) ->
  exists outcome,
    RacingEnv._calculate_reward self step_distance progress_this_step now = Some outcome.
Proof.
  intros [Hline [_ Hlen]]. unfold RacingEnv._calculate_reward. cbv zeta.
  destruct (nearest_line_point_exists (RacingEnv.track self)
              (CarState.x (RacingEnv.state self)) (CarState.y (RacingEnv.state self))
              Hline) as [nearest ->].
  destruct (is_off_track_returns self Hline) as [[|] ->]; [eexists; reflexivity |].
  destruct (500 <? _)%nat; [eexists; reflexivity |].
  destruct (Rlt_dec _ 0); [eexists; reflexivity |].
  destruct (Rle_dec _ _); [eexists; reflexivity |].
  destruct (_ <=? _)%Z; [| eexists; reflexivity].
  rewrite (eqb_nonzero _ Hlen). eexists. reflexivity.
Qed.

(** No exception leaves [step] on a usable track. *)
Lemma step_returns self action now :
  usable (RacingEnv.track self) ->
  exists self' result, RacingEnv.step self action now = Some (self', result).
Proof.
  intros Hu. pose proof Hu as [Hline [Htel Hlen]].
  unfold RacingEnv.step. destruct action as [[a0 a1] a2]. cbv zeta.
  match goal with
  | |- context [MonacoTrackKnowledge.get_nearest_line_point ?t ?x ?y] =>
      destruct (nearest_line_point_exists t x y Hline) as [nearest ->]
  end.
  match goal with
  | |- context [RacingEnv._calculate_reward ?e ?sd ?pr now] =>
      destruct (calculate_reward_returns e sd pr now Hu) as [[[reward done] info] ->];
      replace (RacingEnv.observation_fails e) with false
  end.
  - eexists. eexists. reflexivity.
  - unfold RacingEnv.observation_fails. cbn [RacingEnv.track].
    destruct (MonacoTrackKnowledge.telemetry _); [contradiction |].
    symmetry. now apply eqb_nonzero.
Qed.

(** A track built by [__init__] has telemetry and a racing line. *)
Lemma init_not_empty raw track :
  MonacoTrackKnowledge.init raw = Some track ->
  MonacoTrackKnowledge.racing_line track <> []
  /\ MonacoTrackKnowledge.telemetry track <> [].
Proof.
  unfold MonacoTrackKnowledge.init, MonacoTrackKnowledge.with_distances.
  destruct raw as [| first rest]; [discriminate |].
  destruct (RawSample.distance first) eqn:Ed.
  - cbn [MonacoTrackKnowledge.given_distances]. rewrite Ed.
    destruct (MonacoTrackKnowledge.given_distances rest); [| discriminate].
    cbv zeta. intros E. inversion E; subst.
    cbn [MonacoTrackKnowledge.racing_line MonacoTrackKnowledge.telemetry
         MonacoTrackKnowledge._extract_racing_line map].
    split; discriminate.
  - cbn [MonacoTrackKnowledge.compute_distances]. cbv zeta. intros E. inversion E; subst.
    cbn [MonacoTrackKnowledge.racing_line MonacoTrackKnowledge.telemetry
         MonacoTrackKnowledge._extract_racing_line map].
    split; discriminate.
Qed.

Lemma straight_track_usable : usable straight_track.
Proof.
  unfold usable, straight_track.
  cbn [MonacoTrackKnowledge.racing_line MonacoTrackKnowledge.telemetry
       MonacoTrackKnowledge.track_length].
  repeat split; try discriminate. lra.
Qed.

(** The outcome of a call that returned is crashed(off_track) exactly when
    the rule holds in the environment it leaves. *)
Lemma step_off_track_iff self action now self' result :
  RacingEnv.step self action now = Some (self', result) ->
  (StepResult.info result = InfoCrash off_track <-> RacingEnv.off_track_rule self')
  /\ (StepResult.info result = InfoCrash off_track ->
      StepResult.reward result = TrainingConfig.crash_penalty (RacingEnv.config self)
      /\ StepResult.done result = true).
Proof.
  intros Hstep. apply step_inversion in Hstep.
  destruct Hstep as [[sd [pr Hcr]] [_ [_ [_ [_ [_ [Hcfg _]]]]]]].
  pose proof (calculate_reward_inversion _ _ _ _ _ _ _ Hcr) as [off [Hoff Hinfo]].
  pose proof (is_off_track_rule _ _ Hoff) as Hrule.
  split; [split |].
  - intros Hi. rewrite Hi in Hinfo. apply Hrule. tauto.
  - intros Hr. apply Hrule in Hr. subst off.
    exact (calculate_reward_off_track _ _ _ _ _ _ _ Hcr Hoff).
  - intros Hi. rewrite Hi in Hinfo. rewrite <- Hcfg. tauto.
Qed.

(** C4.  On a usable track every call of [step] returns, leaving the car at
    the position reached by the physics update, and it ends the episode as
    crashed(off_track) exactly when the off-track rule holds at that
    position: without boundary data, the nearest racing-line point is more
    than 25 away; with boundary data, the minimum distance to the points of
    each of the two boundaries exceeds 50.  The outcome then carries
    [reward = crash_penalty] and [done = True]. *)
Theorem step_off_track_rule (self : RacingEnv.t) (action : R * R * R) (now : R) :
  usable (RacingEnv.track self) ->
  exists self' result,
    RacingEnv.step self action now = Some (self', result)
    /\ CarState.x (RacingEnv.state self') = CarState.x (RacingEnv.advanced self action)
    /\ CarState.y (RacingEnv.state self') = CarState.y (RacingEnv.advanced self action)
    /\ RacingEnv.track self' = RacingEnv.track self
    /\ RacingEnv.boundaries self' = RacingEnv.boundaries self
    /\ (StepResult.info result = InfoCrash off_track <-> RacingEnv.off_track_rule self')
    /\ (StepResult.info result = InfoCrash off_track ->
        StepResult.reward result = TrainingConfig.crash_penalty (RacingEnv.config self)
        /\ StepResult.done result = true).
Proof.
  intros Hu. destruct (step_returns self action now Hu) as [self' [result Hstep]].
  exists self', result. split; [exact Hstep |].
  destruct (step_off_track_iff _ _ _ _ _ Hstep) as [Hiff Hreward].
  apply step_inversion in Hstep.
  destruct Hstep as [_ [Hx [Hy [_ [_ [Htrack [_ [Hbound _]]]]]]]].
  split; [exact Hx |]. split; [exact Hy |]. split; [exact Htrack |].
  split; [exact Hbound |]. split; [exact Hiff | exact Hreward].
Qed.

(** C6.  No call of [step] returns the outcome crashed(backwards): the
    speed the termination checks read is the one [update_car_state] has just
    clamped at 0. *)
Theorem step_never_backwards
  (self : RacingEnv.t) (action : R * R * R) (now : R)
  (self' : RacingEnv.t) (result : StepResult.t) :
  RacingEnv.step self action now = Some (self', result) ->
  StepResult.info result <> InfoCrash backwards
  /\ 0 <= CarState.speed (RacingEnv.state self').
Proof.
  intros Hstep. apply step_inversion in Hstep.
  destruct Hstep as [[sd [pr Hcr]] [_ [_ [Hspeed _]]]].
  assert (Hnonneg : 0 <= CarState.speed (RacingEnv.state self')).
  { rewrite Hspeed. unfold RacingEnv.advanced.
    destruct (RacingEnv.controls action) as [[throttle brake] steering].
    destruct (update_car_state_speed_is_max
                (RacingEnv.simulator self) (RacingEnv.state self) throttle brake steering)
      as [candidate ->].
    auto with py. }
  split; [| exact Hnonneg].
  intros Hi.
  pose proof (calculate_reward_inversion _ _ _ _ _ _ _ Hcr) as [off [Hoff Hinfo]].
  rewrite Hi in Hinfo. destruct Hinfo as [_ [_ Hneg]]. lra.
Qed.

(** *** Coasting: no throttle, no brake, no steering *)

(** With no throttle the engine delivers no force, whatever the rpm. *)
Lemma engine_force_no_throttle v gear normal_force :
  0 <= v -> 0 <= normal_force ->
  fst (engine_force_and_rpm F1PhysicsSimulator.default v gear 0 normal_force) = 0.
Proof.
  intros Hv Hn. unfold engine_force_and_rpm. cbv zeta. params.
  destruct (_ && _)%bool; [| reflexivity].
  assert (Hp : forall rpm, calculate_engine_power F1PhysicsSimulator.default rpm 0 = 0).
  { intros rpm. unfold calculate_engine_power. cbv zeta. lra. }
  unfold F1PhysicsSimulator.default, F1PhysicsSimulator.init, CarPhysics.default in Hp.
  rewrite Hp.
  destruct (Rlt_dec (v * 3.6) 100) as [Hk | Hk]; cbn [fst].
  - replace (if Rlt_dec 0.5 v then 0 / v else 10000 * (0 / 100)) with 0
      by (destruct (Rlt_dec 0.5 v); lra).
    apply py_min_l. apply Rmult_le_pos; nra.
  - replace (0 / v) with 0 by lra. apply py_min_l. nra.
Qed.

(** A coasting car only loses speed to drag. *)
Lemma coast_speed state :
  0 <= CarState.speed state <= 100 ->
  CarState.speed (update_car_state F1PhysicsSimulator.default state 0 0 0)
  = CarState.speed state - 0.81 * CarState.speed state ^ 2 / 79800.
Proof.
  intros [Hv0 Hv1].
  destruct (update_car_state_fields F1PhysicsSimulator.default state 0 0 0) as [Hs _].
  cbv zeta in Hs. rewrite Hs. clear Hs.
  rewrite !clip_0.
  set (v := CarState.speed state) in *.
  unfold calculate_aerodynamic_forces. cbv zeta. cbn [fst snd].
  assert (Hv2 : 0 <= v ^ 2 <= 10000) by nra.
  rewrite engine_force_no_throttle; [| exact Hv0 | params; nra].
  rewrite no_brake_force by (params; nra).
  params. rewrite py_max_r by nra. lra.
Qed.

Lemma turn_heading_straight self heading speed :
  turn_heading self heading speed 0 = heading.
Proof.
  unfold turn_heading. rewrite Rabs_R0.
  destruct (Rlt_dec 0.01 0); [lra | reflexivity].
Qed.

Lemma distance_to_upper x y px py c :
  0 <= c -> (x - px) ^ 2 + (y - py) ^ 2 <= c ^ 2 -> RacingEnv.distance_to x y px py <= c.
Proof.
  intros Hc H. unfold RacingEnv.distance_to.
  rewrite <- (sqrt_pow2 c Hc). apply sqrt_le_1_alt. exact H.
Qed.

Lemma distance_to_lower x y px py c :
  0 <= c -> c ^ 2 <= (x - px) ^ 2 + (y - py) ^ 2 -> c <= RacingEnv.distance_to x y px py.
Proof.
  intros Hc H. unfold RacingEnv.distance_to.
  rewrite <- (sqrt_pow2 c Hc) at 1. apply sqrt_le_1_alt. exact H.
Qed.

Lemma distance_to_self x y : RacingEnv.distance_to x y x y = 0.
Proof.
  unfold RacingEnv.distance_to. replace ((x - x) ^ 2 + (y - y) ^ 2) with 0 by ring.
  apply sqrt_0.
Qed.

(** *** The fallback rule at 26 and at 24 units *)

Lemma idle_at_rest state :
  CarState.speed state = 0 ->
  CarState.speed (update_car_state F1PhysicsSimulator.default state 0 0 0) = 0
  /\ CarState.x (update_car_state F1PhysicsSimulator.default state 0 0 0)
     = CarState.x state
  /\ CarState.y (update_car_state F1PhysicsSimulator.default state 0 0 0)
     = CarState.y state.
Proof.
  intros Hv.
  destruct (update_car_state_fields F1PhysicsSimulator.default state 0 0 0)
    as [_ [_ [Hx [Hy _]]]].
  cbv zeta in Hx, Hy.
  pose proof (coast_speed state) as Hv'. rewrite Hv in Hv'. specialize (Hv' ltac:(lra)).
  assert (H0 : CarState.speed (update_car_state F1PhysicsSimulator.default state 0 0 0) = 0)
    by (rewrite Hv'; lra).
  rewrite H0 in Hx, Hy. repeat split; [exact H0 | rewrite Hx; lra | rewrite Hy; lra].
Qed.

Lemma idle_controls : RacingEnv.controls idle = (0, 0, 0).
Proof.
  unfold RacingEnv.controls, idle.
  replace ((-1 + 1) * 50) with 0 by lra.
  now rewrite clip_0, (clip_inside 0 (-1) 1) by lra.
Qed.

Lemma nearest_beside_start offset :
  MonacoTrackKnowledge.get_nearest_line_point straight_track 0 offset
  = Some (LinePoint.mk 0 0 0 120 0 0).
Proof.
  unfold MonacoTrackKnowledge.get_nearest_line_point, straight_track.
  cbn [MonacoTrackKnowledge.racing_line MonacoTrackKnowledge.nearest_scan lt_ext
       LinePoint.x LinePoint.y].
  cbv zeta.
  destruct (Py.ltb _ _) eqn:E; [| reflexivity].
  apply ltb_true in E. apply sqrt_lt_0_alt in E. nra.
Qed.

Lemma beside_line_step offset :
  exists self' result,
    RacingEnv.step (beside_line offset) idle 0 = Some (self', result)
    /\ (StepResult.info result = InfoCrash off_track
        <-> 25 < RacingEnv.distance_to 0 offset 0 0).
Proof.
  destruct (step_returns (beside_line offset) idle 0 straight_track_usable)
    as [self' [result Hstep]].
  exists self', result. split; [exact Hstep |].
  destruct (step_off_track_iff _ _ _ _ _ Hstep) as [Hiff _].
  apply step_inversion in Hstep.
  destruct Hstep as [_ [Hx [Hy [_ [_ [Htrack [_ [Hbound _]]]]]]]].
  unfold RacingEnv.advanced in Hx, Hy. rewrite idle_controls in Hx, Hy.
  destruct (idle_at_rest (RacingEnv.state (beside_line offset)) eq_refl)
    as [_ [Hx' Hy']].
  cbn [RacingEnv.simulator RacingEnv.state beside_line] in Hx, Hy, Hx', Hy'.
  rewrite Hx' in Hx. rewrite Hy' in Hy. cbn [CarState.x CarState.y] in Hx, Hy.
  rewrite Hiff. unfold RacingEnv.off_track_rule. cbv zeta.
  rewrite Hbound, Htrack, Hx, Hy. cbn [RacingEnv.boundaries RacingEnv.track beside_line].
  rewrite nearest_beside_start. cbn [LinePoint.x LinePoint.y]. split.
  - intros [nearest [Hn H]]. inversion Hn; subst. exact H.
  - intros H. eexists. split; [reflexivity | exact H].
Qed.

(** At 26 units from the line the next call of [step] ends the episode as
    crashed(off_track) with the crash penalty. *)
Example off_track_at_26 :
  exists self' result,
    RacingEnv.step (beside_line 26) idle 0 = Some (self', result)
    /\ result = StepResult.mk (-50) true (InfoCrash off_track).
Proof.
  destruct (step_returns (beside_line 26) idle 0 straight_track_usable)
    as [self' [result Hstep]].
  exists self', result. split; [exact Hstep |].
  destruct (beside_line_step 26) as [self2 [result2 [Hstep2 Hiff2]]].
  rewrite Hstep in Hstep2. inversion Hstep2; subst self2 result2.
  assert (Hi : StepResult.info result = InfoCrash off_track).
  { apply Hiff2. apply Rlt_le_trans with 26; [lra |].
    apply distance_to_lower; [lra | nra]. }
  destruct (step_off_track_iff _ _ _ _ _ Hstep) as [_ Hreward].
  destruct (Hreward Hi) as [Hr Hd].
  destruct result as [reward done info]. cbn in *. subst. reflexivity.
Qed.

(** At 24 units it does not. *)
Example on_track_at_24 :
  exists self' result,
    RacingEnv.step (beside_line 24) idle 0 = Some (self', result)
    /\ StepResult.info result <> InfoCrash off_track.
Proof.
  destruct (beside_line_step 24) as [self' [result [Hstep Hiff]]].
  exists self', result. split; [exact Hstep |].
  intros Hi. apply Hiff in Hi.
  assert (RacingEnv.distance_to 0 24 0 0 <= 24) by (apply distance_to_upper; [lra | nra]).
  lra.
Qed.

(** *** Stuck detection *)

(** [step] reports stuck only with a counter above 500, and the counter
    grows by one per tick without movement. *)
Lemma step_stuck_counter self action now self' result :
  RacingEnv.step self action now = Some (self', result) ->
  (StepResult.info result = InfoCrash stuck ->
   (500 < RacingEnv.consecutive_no_progress self')%nat)
  /\ RacingEnv.consecutive_no_progress self'
     = if Rlt_dec (RacingEnv.physical_movement self action) 0.01
       then S (RacingEnv.consecutive_no_progress self) else O.
Proof.
  intros Hstep. apply step_inversion in Hstep.
  destruct Hstep as [[sd [pr Hcr]] [_ [_ [_ [_ [_ [_ [_ [_ [_ Hcount]]]]]]]]]].
  split; [| exact Hcount].
  intros Hi.
  pose proof (calculate_reward_inversion _ _ _ _ _ _ _ Hcr) as [off [_ Hinfo]].
  rewrite Hi in Hinfo. tauto.
Qed.

(** During the first 500 calls of [step] after the counter was at zero, and
    so on the 500th consecutive tick without movement, no call reports
    stuck. *)
Lemma no_stuck_within_500_ticks inputs : forall self self' results,
  RacingEnv.run self inputs = Some (self', results) ->
  (RacingEnv.consecutive_no_progress self + length inputs <= 500)%nat ->
  Forall (fun result => StepResult.info result <> InfoCrash stuck) results
  /\ (RacingEnv.consecutive_no_progress self'
      <= RacingEnv.consecutive_no_progress self + length inputs)%nat.
Proof.
  induction inputs as [| [action now] rest IH]; intros self self' results Hrun Hlen.
  - cbn [RacingEnv.run] in Hrun. inversion Hrun; subst. split; [constructor |].
    cbn [length]. lia.
  - cbn [RacingEnv.run] in Hrun. cbn [length] in Hlen |- *.
    destruct (RacingEnv.step self action now) as [[self1 result] |] eqn:Hstep;
      [| discriminate].
    destruct (RacingEnv.run self1 rest) as [[self2 results2] |] eqn:Hrest;
      [| discriminate].
    inversion Hrun; subst; clear Hrun.
    destruct (step_stuck_counter _ _ _ _ _ Hstep) as [Hstuck Hcount].
    assert (Hc1 : (RacingEnv.consecutive_no_progress self1
                   <= S (RacingEnv.consecutive_no_progress self))%nat).
    { rewrite Hcount. destruct (Rlt_dec _ 0.01); lia. }
    destruct (IH self1 self' results2 Hrest ltac:(lia)) as [Hall Hc2].
    split; [| lia].
    constructor; [| exact Hall].
    intros Hi. apply Hstuck in Hi. lia.
Qed.

(** One idle tick of the parked car: nothing moves, the counter goes up,
    and stuck is reported once the counter has passed 500. *)
Lemma parked_step self ticks now :
  parked self ticks -> (Z.of_nat ticks < 9999)%Z ->
  exists self',
    RacingEnv.step self idle now
    = Some (self', if (500 <? S ticks)%nat then crashed_stuck else still_running)
    /\ parked self' (S ticks).
Proof.
  intros Hp Hticks.
  destruct self as [track config simulator boundaries state steps last_distance
                    best_distance lap_start_time counter history last_x last_y total].
  unfold parked in Hp.
  cbn [RacingEnv.track RacingEnv.config RacingEnv.simulator RacingEnv.boundaries
       RacingEnv.state RacingEnv.last_x RacingEnv.last_y RacingEnv.last_distance
       RacingEnv.consecutive_no_progress RacingEnv.steps] in Hp.
  destruct Hp as (-> & -> & -> & -> & Hx & Hy & Hv & -> & -> & -> & -> & ->).
  unfold RacingEnv.step, idle. cbv zeta.
  replace ((-1 + 1) * 50) with 0 by lra.
  rewrite !clip_0, (clip_inside 0 (-1) 1) by lra.
  cbn [RacingEnv.simulator RacingEnv.state].
  destruct (update_car_state_fields F1PhysicsSimulator.default state 0 0 0)
    as [_ [_ [Hx' [Hy' [_ [_ [_ [Hb' Hs']]]]]]]].
  cbv zeta in Hx', Hy', Hb', Hs'.
  pose proof (coast_speed state) as Hv'.
  set (s := update_car_state F1PhysicsSimulator.default state 0 0 0) in *.
  rewrite Hv in Hv'. specialize (Hv' ltac:(lra)).
  assert (Hv0 : CarState.speed s = 0) by (rewrite Hv'; lra). clear Hv'.
  rewrite Hv0, Hx in Hx'. rewrite Hv0, Hy in Hy'.
  assert (Hx0 : CarState.x s = 0) by (rewrite Hx'; lra).
  assert (Hy0 : CarState.y s = 0) by (rewrite Hy'; lra).
  clear Hx' Hy'.
  rewrite clip_0 in Hb'.
  rewrite (clip_inside 0 (-1) 1) in Hs' by lra.
  set (start := LinePoint.mk 0 0 0 120 0 0).
  assert (Hn : MonacoTrackKnowledge.get_nearest_line_point straight_track 0 0
               = Some start).
  { unfold MonacoTrackKnowledge.get_nearest_line_point, straight_track.
    cbn [MonacoTrackKnowledge.racing_line MonacoTrackKnowledge.nearest_scan lt_ext
         LinePoint.x LinePoint.y].
    cbv zeta. replace ((0 - 0) ^ 2 + (0 - 0) ^ 2) with 0 by ring. rewrite sqrt_0.
    destruct (Py.ltb _ 0) eqn:E; [| reflexivity].
    apply ltb_true in E. pose proof (sqrt_pos ((100 - 0) ^ 2 + (0 - 0) ^ 2)). lra. }
  cbn [RacingEnv.track RacingEnv.config RacingEnv.boundaries RacingEnv.last_x
       RacingEnv.last_y RacingEnv.steps RacingEnv.lap_start_time
       RacingEnv.consecutive_no_progress RacingEnv.last_distance
       RacingEnv.best_distance RacingEnv.total_physical_distance
       RacingEnv.position_history].
  rewrite Hx0, Hy0, Hn.
  cbn [CarState.x CarState.y LinePoint.distance start].
  rewrite distance_to_self.
  destruct (Rlt_dec 0 0.01) as [_ | Hn0]; [| lra].
  unfold RacingEnv._calculate_reward, RacingEnv._is_off_track. cbv zeta.
  cbn [RacingEnv.track RacingEnv.state RacingEnv.boundaries CarState.x CarState.y
       RacingEnv.consecutive_no_progress RacingEnv.config RacingEnv.lap_start_time
       RacingEnv.steps CarState.speed CarState.distance].
  rewrite Hn. cbn [LinePoint.x LinePoint.y start].
  rewrite distance_to_self.
  replace (Py.ltb 25 0) with false by (symmetry; apply ltb_false; lra).
  unfold RacingEnv.observation_fails.
  cbn [RacingEnv.track MonacoTrackKnowledge.track_length
       MonacoTrackKnowledge.telemetry straight_track].
  replace (Py.eqb 100 0) with false by (symmetry; apply eqb_false; lra).
  destruct (500 <? S ticks)%nat eqn:Ek.
  - eexists. split; [reflexivity |].
    unfold parked. env_fields. repeat split; auto.
  - rewrite Hv0. destruct (Rlt_dec 0 0) as [Hneg | _]; [lra |].
    destruct (Rle_dec 100 0) as [Hle | _]; [lra |].
    cbn [TrainingConfig.max_steps_per_episode TrainingConfig.default].
    replace (10000 <=? Z.of_nat (S ticks))%Z with false
      by (symmetry; apply Z.leb_gt; lia).
    eexists. split.
    + f_equal. f_equal. unfold still_running. f_equal.
      * unfold RacingEnv.ongoing_reward. cbv zeta.
        cbn [RacingEnv.config RacingEnv.state CarState.speed CarState.steering
             CarState.brake TrainingConfig.progress_reward TrainingConfig.speed_reward
             TrainingConfig.time_penalty TrainingConfig.default].
        rewrite Hb', Hs', Rabs_R0.
        repeat match goal with
               | |- context [Rlt_dec ?a ?b] => destruct (Rlt_dec a b); try lra
               end.
      * f_equal. lra.
    + unfold parked. env_fields. repeat split; auto.
Qed.

Lemma run_app self inputs1 inputs2 :
  RacingEnv.run self (inputs1 ++ inputs2)
  = match RacingEnv.run self inputs1 with
    | None => None
    | Some (self1, results1) =>
        match RacingEnv.run self1 inputs2 with
        | None => None
        | Some (self2, results2) => Some (self2, results1 ++ results2)
        end
    end.
Proof.
  revert self. induction inputs1 as [| [action now] rest IH]; intros self.
  - cbn [app RacingEnv.run]. destruct (RacingEnv.run self inputs2) as [[? ?] |];
      reflexivity.
  - cbn [app RacingEnv.run].
    destruct (RacingEnv.step self action now) as [[self1 r] |]; [| reflexivity].
    rewrite IH. destruct (RacingEnv.run self1 rest) as [[self2 rs] |]; [| reflexivity].
    destruct (RacingEnv.run self2 inputs2) as [[? ?] |]; reflexivity.
Qed.

Lemma parked_run n : forall self ticks,
  parked self ticks -> (ticks + n <= 500)%nat ->
  exists self',
    RacingEnv.run self (repeat (idle, 0) n) = Some (self', repeat still_running n)
    /\ parked self' (ticks + n).
Proof.
  induction n as [| n IH]; intros self ticks Hp Hn.
  - exists self. cbn [repeat RacingEnv.run]. rewrite Nat.add_0_r. auto.
  - cbn [repeat RacingEnv.run].
    destruct (parked_step self ticks 0 Hp ltac:(lia)) as [self1 [Hstep Hp1]].
    rewrite Hstep.
    replace (500 <? S ticks)%nat with false by (symmetry; apply Nat.ltb_ge; lia).
    destruct (IH self1 (S ticks) Hp1 ltac:(lia)) as [self2 [Hrun Hp2]].
    rewrite Hrun. exists self2. split; [reflexivity |].
    replace (ticks + S n)%nat with (S ticks + n)%nat by lia. exact Hp2.
Qed.

Lemma parked_env_parked : parked parked_env 0.
Proof.
  unfold parked, parked_env, RacingEnv.init. env_fields.
  cbn [CarState.default]. env_fields. repeat split; reflexivity.
Qed.

(** C1, on the parked car: the code ends the episode one tick late.  The
    car of a fresh environment stays at rest under 501 idle actions, so
    every tick measures a displacement of 0 and is a qualifying tick.  The
    first 500 calls of [step], the 500th included, return [done = False];
    crashed(stuck) with [reward = crash_penalty] comes back from the 501st
    call, when the counter of ticks without movement reads 501. *)
Theorem stuck_declared_on_tick_501 :
  MonacoTrackKnowledge.init straight_lap = Some straight_track
  /\ exists self',
       RacingEnv.run parked_env (repeat (idle, 0) 501)
       = Some (self', repeat still_running 500 ++ [crashed_stuck])
       /\ RacingEnv.consecutive_no_progress self' = 501%nat.
Proof.
  split; [exact straight_track_init |].
  change 501%nat with (500 + 1)%nat at 1. rewrite repeat_app, run_app.
  destruct (parked_run 500 parked_env 0 parked_env_parked ltac:(lia))
    as [self500 [Hrun Hp]].
  rewrite Hrun. cbn [repeat RacingEnv.run].
  destruct (parked_step self500 500 0 Hp ltac:(lia)) as [self501 [Hstep Hp1]].
  rewrite Hstep. exists self501. split.
  - reflexivity.
  - apply Hp1.
Qed.

Lemma step_off_track_rule_witness :
  exists self' result,
    RacingEnv.step parked_env idle 0 = Some (self', result)
    /\ CarState.x (RacingEnv.state self')
       = CarState.x (RacingEnv.advanced parked_env idle)
    /\ CarState.y (RacingEnv.state self')
       = CarState.y (RacingEnv.advanced parked_env idle)
    /\ RacingEnv.track self' = RacingEnv.track parked_env
    /\ RacingEnv.boundaries self' = RacingEnv.boundaries parked_env
    /\ (StepResult.info result = InfoCrash off_track <-> RacingEnv.off_track_rule self')
    /\ (StepResult.info result = InfoCrash off_track ->
        StepResult.reward result
        = TrainingConfig.crash_penalty (RacingEnv.config parked_env)
        /\ StepResult.done result = true).
Proof.
  apply (step_off_track_rule parked_env idle 0).
  exact straight_track_usable.
Defined.

Lemma step_never_backwards_witness :
  exists self' result,
    RacingEnv.step parked_env idle 0 = Some (self', result)
    /\ StepResult.info result <> InfoCrash backwards
    /\ 0 <= CarState.speed (RacingEnv.state self').
Proof.
  destruct (parked_step parked_env 0 0 parked_env_parked ltac:(lia))
    as [self' [Hstep _]].
  exists self', still_running. split; [exact Hstep |].
  exact (step_never_backwards parked_env idle 0 self' still_running Hstep).
Defined.

(** *** Completion *)

(** Whenever [step] reports a completed lap, the track distance has reached
    the track length, the reward is the completion reward plus twice
    [100 - lap_time] when [lap_time < 100], and [lap_time] is the clock
    reading of this call minus the clock reading stored by [reset]. *)
Lemma step_completed self action now self' result lap_time :
  RacingEnv.step self action now = Some (self', result) ->
  StepResult.info result = InfoCompleted lap_time ->
  MonacoTrackKnowledge.track_length (RacingEnv.track self)
  <= CarState.distance (RacingEnv.state self')
  /\ lap_time = now - RacingEnv.lap_start_time self
  /\ StepResult.reward result
     = TrainingConfig.completion_reward (RacingEnv.config self)
       + (if Rlt_dec lap_time 100 then (100 - lap_time) * 2 else 0)
  /\ StepResult.done result = true.
Proof.
  intros Hstep Hi. apply step_inversion in Hstep.
  destruct Hstep as [[sd [pr Hcr]] [_ [_ [_ [_ [Htrack [Hcfg [_ [Hstart _]]]]]]]]].
  pose proof (calculate_reward_inversion _ _ _ _ _ _ _ Hcr) as [off [_ Hinfo]].
  rewrite Hi in Hinfo. rewrite <- Htrack, <- Hcfg, <- Hstart. tauto.
Qed.

Lemma short_track_init : MonacoTrackKnowledge.init short_lap = Some short_track.
Proof.
  unfold MonacoTrackKnowledge.init, short_lap. eval_lap.
  cbv zeta. unfold short_track. f_equal. f_equal.
  - cbv [map list_max Sample.distance fold_left]. apply py_max_r. lra.
  - unfold MonacoTrackKnowledge._find_braking_zones.
    cbv [length seq flat_map nth Sample.brake]. rewrite truthy_0. reflexivity.
Qed.

Lemma short_env_reset :
  RacingEnv.reset (RacingEnv.init short_track TrainingConfig.default None) 1000
  = Some short_env_start.
Proof.
  unfold RacingEnv.reset, RacingEnv.init, short_track.
  cbn [RacingEnv.track MonacoTrackKnowledge.racing_line nth_error length Nat.sub Nat.min
       LinePoint.x LinePoint.y RacingEnv.state RacingEnv.config RacingEnv.simulator
       RacingEnv.boundaries CarState.vx CarState.vy CarState.tire_temp CarState.fuel_kg
       CarState.default CarState.x CarState.y].
  cbv zeta.
  assert (Hh : Py.arctan2 (0 - 0) (0.1 - 0) = 0).
  { unfold Py.arctan2. destruct (Rlt_dec 0 (0.1 - 0)); [| lra].
    replace ((0 - 0) / (0.1 - 0)) with 0 by lra. apply atan_0. }
  rewrite Hh. cbn [CarState.x CarState.y].
  unfold RacingEnv.observation_fails.
  cbn [RacingEnv.track MonacoTrackKnowledge.track_length
       MonacoTrackKnowledge.telemetry].
  replace (Py.eqb 0.1 0) with false by (symmetry; apply eqb_false; lra).
  reflexivity.
Qed.

(** The first tick on the short lap, coasting, made at clock reading 1003. *)
Lemma short_env_first_step :
  exists self' result,
    RacingEnv.step short_env_start idle 1003 = Some (self', result)
    /\ StepResult.info result = InfoCompleted 3
    /\ StepResult.reward result = 394
    /\ StepResult.done result = true
    /\ CarState.lap_time (RacingEnv.state self') = 0.01.
Proof.
  unfold RacingEnv.step, idle. cbv zeta.
  replace ((-1 + 1) * 50) with 0 by lra.
  rewrite !clip_0, (clip_inside 0 (-1) 1) by lra.
  cbn [RacingEnv.simulator RacingEnv.state short_env_start].
  set (state0 := CarState.mk 0 0 0 8.3 0 0 0 0 0 2%Z 6000%Z 80 100 0 0).
  destruct (update_car_state_fields F1PhysicsSimulator.default state0 0 0 0)
    as [_ [Hh [Hx [Hy [_ [Hl _]]]]]].
  cbv zeta in Hh, Hx, Hy, Hl.
  pose proof (coast_speed state0) as Hv.
  set (s := update_car_state F1PhysicsSimulator.default state0 0 0 0) in *.
  rewrite (clip_inside 0 (-1) 1), turn_heading_straight in Hh by lra.
  cbn [CarState.heading CarState.x CarState.y CarState.lap_time CarState.speed state0] in *.
  rewrite Hh, cos_0, sin_0 in *.
  specialize (Hv ltac:(lra)).
  assert (Hvb : 8.29 < CarState.speed s < 8.3) by (rewrite Hv; lra).
  clear Hv.
  assert (Hxb : 0.0829 < CarState.x s < 0.083) by (rewrite Hx; params; lra).
  assert (Hy0 : CarState.y s = 0) by (rewrite Hy; lra).
  clear Hx Hy.
  set (finish := LinePoint.mk 0.1 0.1 0 120 0 0).
  assert (Hn : MonacoTrackKnowledge.get_nearest_line_point short_track
                 (CarState.x s) (CarState.y s) = Some finish).
  { unfold MonacoTrackKnowledge.get_nearest_line_point, short_track.
    cbn [MonacoTrackKnowledge.racing_line MonacoTrackKnowledge.nearest_scan lt_ext
         LinePoint.x LinePoint.y].
    cbv zeta. rewrite Hy0.
    match goal with
    | |- context [Py.ltb ?a ?b] => replace (Py.ltb a b) with true; [reflexivity |]
    end.
    symmetry. apply ltb_true. apply sqrt_lt_1_alt. nra. }
  assert (Hd : RacingEnv.distance_to (CarState.x s) (CarState.y s) 0.1 0 <= 25).
  { apply distance_to_upper; [lra |]. rewrite Hy0. nra. }
  assert (Hm : 0.01 <= RacingEnv.distance_to (CarState.x s) (CarState.y s) 0 0).
  { apply distance_to_lower; [lra |]. rewrite Hy0. nra. }
  cbn [RacingEnv.track RacingEnv.config RacingEnv.boundaries RacingEnv.last_x
       RacingEnv.last_y RacingEnv.steps RacingEnv.lap_start_time
       RacingEnv.consecutive_no_progress RacingEnv.last_distance
       RacingEnv.best_distance RacingEnv.total_physical_distance
       RacingEnv.position_history short_env_start].
  rewrite Hn.
  cbn [CarState.x CarState.y LinePoint.distance finish].
  destruct (Rlt_dec (RacingEnv.distance_to (CarState.x s) (CarState.y s) 0 0) 0.01)
    as [Hlt | _]; [lra |].
  unfold RacingEnv._calculate_reward, RacingEnv._is_off_track. cbv zeta.
  cbn [RacingEnv.track RacingEnv.state RacingEnv.boundaries CarState.x CarState.y
       RacingEnv.consecutive_no_progress RacingEnv.config RacingEnv.lap_start_time
       CarState.speed CarState.distance].
  rewrite Hn. cbn [LinePoint.x LinePoint.y finish].
  replace (Py.ltb 25 (RacingEnv.distance_to (CarState.x s) (CarState.y s) 0.1 0))
    with false by (symmetry; apply ltb_false; exact Hd).
  cbn [Nat.ltb Nat.leb].
  destruct (Rlt_dec (CarState.speed s) 0) as [Hneg | _]; [lra |].
  cbn [MonacoTrackKnowledge.track_length short_track].
  destruct (Rle_dec 0.1 0.1) as [_ | Hne]; [| lra].
  unfold RacingEnv.observation_fails.
  cbn [RacingEnv.track MonacoTrackKnowledge.track_length
       MonacoTrackKnowledge.telemetry short_track].
  replace (Py.eqb 0.1 0) with false by (symmetry; apply eqb_false; lra).
  eexists. eexists. split; [reflexivity |].
  cbn [StepResult.info StepResult.reward StepResult.done RacingEnv.state CarState.lap_time
       TrainingConfig.completion_reward TrainingConfig.default].
  repeat split.
  - f_equal. lra.
  - destruct (Rlt_dec (1003 - 1000) 100); lra.
  - rewrite Hl. params. lra.
Qed.

(** C2, on the short lap: the code reports wall-clock time.  After
    [reset()] at clock reading 1000, one coasting tick carries the car past
    the last racing-line point, so the first call of [step] completes the
    lap.  Made at clock reading 1003, it reports [lap_time = 3] and the
    reward [200 + (100 - 3) * 2 = 394], while the simulated lap time of the
    state is one timestep, 0.01. *)
Theorem completion_reports_wall_clock :
  MonacoTrackKnowledge.init short_lap = Some short_track
  /\ RacingEnv.reset (RacingEnv.init short_track TrainingConfig.default None) 1000
     = Some short_env_start
  /\ exists self' result,
       RacingEnv.step short_env_start idle 1003 = Some (self', result)
       /\ StepResult.info result = InfoCompleted 3
       /\ StepResult.reward result = 394
       /\ StepResult.done result = true
       /\ CarState.lap_time (RacingEnv.state self') = 0.01.
Proof.
  split; [exact short_track_init |].
  split; [exact short_env_reset | exact short_env_first_step].
Qed.

(** * Further properties: dynamics, track knowledge, agent, environment, returns *)

(** ** One tick of the dynamics: what every call keeps *)

Lemma update_car_state_more_fields self state throttle brake steering :
  let s' := update_car_state self state throttle brake steering in
  let p := F1PhysicsSimulator.physics self in
  let dt := F1PhysicsSimulator.dt self in
  let v := CarState.speed state in
  let aero := calculate_aerodynamic_forces self v in
  let normal_force := CarPhysics.mass p * F1PhysicsSimulator.gravity self + snd aero in
  let engine :=
    engine_force_and_rpm self v (CarState.gear state) (Py.clip throttle 0 100)
                         normal_force in
  CarState.rpm s' = snd engine
  /\ CarState.vx s' = CarState.speed s' * cos (CarState.heading s')
  /\ CarState.vy s' = CarState.speed s' * sin (CarState.heading s')
  /\ CarState.distance s' = CarState.distance state + CarState.speed s' * dt
  /\ CarState.tire_temp s' = CarState.tire_temp state
  /\ CarState.fuel_kg s' = CarState.fuel_kg state.
Proof.
  unfold update_car_state, calculate_aerodynamic_forces. cbv zeta. cbn [fst snd].
  destruct (engine_force_and_rpm _ _ _ _ _) as [ef rpm].
  cbn [fst snd CarState.speed CarState.heading CarState.rpm CarState.vx CarState.vy
       CarState.distance CarState.tire_temp CarState.fuel_kg].
  repeat split; reflexivity.
Qed.

Lemma sqrt_square_sum a b c : 0 <= c -> a ^ 2 + b ^ 2 = c ^ 2 -> sqrt (a ^ 2 + b ^ 2) = c.
Proof.
  intros Hc H. rewrite H. replace (c ^ 2) with (c * c) by ring.
  now apply sqrt_square.
Qed.

Lemma displacement_length self state throttle brake steering :
  0 <= F1PhysicsSimulator.dt self ->
  let s' := update_car_state self state throttle brake steering in
  sqrt ((CarState.x s' - CarState.x state) ^ 2 + (CarState.y s' - CarState.y state) ^ 2)
  = CarState.speed s' * F1PhysicsSimulator.dt self.
Proof.
  intros Hdt s'.
  destruct (update_car_state_fields self state throttle brake steering)
    as (Hs & _ & Hx & Hy & _).
  cbv zeta in *. fold s' in Hs, Hx, Hy.
  assert (Hv : 0 <= CarState.speed s') by (rewrite Hs; apply py_max_le_l).
  pose proof (sin2_cos2 (CarState.heading s')) as Hsc. unfold Rsqr in Hsc.
  set (v := CarState.speed s') in *. set (c := cos (CarState.heading s')) in *.
  set (sn := sin (CarState.heading s')) in *. set (dt := F1PhysicsSimulator.dt self) in *.
  apply sqrt_square_sum; [now apply Rmult_le_pos |].
  rewrite Hx, Hy.
  replace ((CarState.x state + v * c * dt - CarState.x state) ^ 2
           + (CarState.y state + v * sn * dt - CarState.y state) ^ 2)
    with ((v * dt) ^ 2 * (sn * sn + c * c)) by ring.
  rewrite Hsc. ring.
Qed.



(** X2.  When the idle engine speed does not exceed the limiter and the
    gear is one of 1..8, a tick leaves the engine speed between idle and
    the limiter, moves the gear by at most one and keeps it within 1..8. *)
Theorem update_car_state_gearbox
  (self : F1PhysicsSimulator.t) (state : CarState.t) (throttle brake steering : R) :
  let p := F1PhysicsSimulator.physics self in
  let s' := update_car_state self state throttle brake steering in
  (CarPhysics.idle_rpm p <= CarPhysics.max_rpm p)%Z ->
  (1 <= CarState.gear state <= 8)%Z ->
  (CarPhysics.idle_rpm p <= CarState.rpm s' <= CarPhysics.max_rpm p)%Z
  /\ (1 <= CarState.gear s' <= 8)%Z
  /\ (CarState.gear state - 1 <= CarState.gear s' <= CarState.gear state + 1)%Z.
Proof.
  intros p s' Hp Hg.
  destruct (update_car_state_more_fields self state throttle brake steering) as (Hr & _).
  destruct (update_car_state_fields self state throttle brake steering)
    as (_ & _ & _ & _ & Hgear & _).
  cbv zeta in Hr, Hgear. fold s' in Hr, Hgear. split.
  - rewrite Hr. clear Hr Hgear.
    unfold engine_force_and_rpm. cbv zeta. fold p.
    destruct (_ && _)%bool; [| cbn [snd]; lia].
    destruct (Rlt_dec (CarState.speed state * 3.6) 100); cbn [snd]; lia.
  - rewrite Hgear. clear Hr Hgear. unfold shift_gear.
    destruct (Py.ltb _ _ && (CarState.gear state <? 8)%Z)%bool eqn:Eup.
    + apply andb_prop in Eup. destruct Eup as [_ Eup]. apply Z.ltb_lt in Eup. lia.
    + destruct (Py.ltb _ _ && (1 <? CarState.gear state)%Z)%bool eqn:Edown.
      * apply andb_prop in Edown. destruct Edown as [_ Edown]. apply Z.ltb_lt in Edown.
        lia.
      * lia.
Qed.

Lemma update_car_state_gearbox_witness :
  let s' := update_car_state F1PhysicsSimulator.default CarState.default 100 0 0 in
  (5000 <= CarState.rpm s' <= 15000)%Z
  /\ (1 <= CarState.gear s' <= 8)%Z
  /\ (1 - 1 <= CarState.gear s' <= 1 + 1)%Z.
Proof.
  apply (update_car_state_gearbox F1PhysicsSimulator.default CarState.default 100 0 0);
    cbn; lia.
Defined.

Lemma fmod_range v m : 0 < m -> 0 <= Py.fmod v m < m.
Proof.
  intros Hm. unfold Py.fmod.
  destruct (base_Int_part (v / m)) as [H1 H2].
  assert (Hvm : v = v / m * m) by (field; lra).
  set (q := IZR (Int_part (v / m))) in *.
  split; nra.
Qed.

(** X3.  The heading lies in [0, 2 pi) after every tick that steers (a
    steering input larger than 0.01 in size), and a tick that does not
    steer leaves the heading as it is: a heading in [0, 2 pi) stays
    there. *)
Theorem update_car_state_heading_range
  (self : F1PhysicsSimulator.t) (state : CarState.t) (throttle brake steering : R) :
  0.01 < Rabs (Py.clip steering (-1) 1) \/ 0 <= CarState.heading state < 2 * PI ->
  0 <= CarState.heading (update_car_state self state throttle brake steering) < 2 * PI.
Proof.
  intros H.
  destruct (update_car_state_fields self state throttle brake steering) as (_ & Hh & _).
  cbv zeta in Hh. rewrite Hh. clear Hh.
  unfold turn_heading. cbv zeta.
  destruct (Rlt_dec 0.01 (Rabs (Py.clip steering (-1) 1))) as [Hs | Hs].
  - apply fmod_range. pose proof PI_RGT_0. lra.
  - destruct H as [H | H]; [contradiction | exact H].
Qed.

Lemma update_car_state_heading_range_witness :
  0 <= CarState.heading (update_car_state F1PhysicsSimulator.default CarState.default 100 0 1)
    < 2 * PI.
Proof.
  apply (update_car_state_heading_range F1PhysicsSimulator.default CarState.default 100 0 1).
  right. cbn. pose proof PI_RGT_0. lra.
Defined.

(** X4.  [calculate_engine_power] fails exactly when the peak-power engine
    speed is 0 (the division by it raises).  Otherwise, for a peak power
    and a throttle that are not negative, the engine delivers, at every
    engine speed, between nothing and the throttle's share of the peak
    power; and at the peak-power engine speed, when that lies between idle
    and the limiter, it delivers exactly that share. *)
Theorem calculate_engine_power_bounds
  (self : F1PhysicsSimulator.t) (rpm : Z) (throttle : R) :
  let p := F1PhysicsSimulator.physics self in
  0 <= CarPhysics.max_power p ->
  0 <= throttle ->
  match calculate_engine_power_or_error self rpm throttle with
  | None => CarPhysics.power_curve_peak p = 0%Z
  | Some power =>
      CarPhysics.power_curve_peak p <> 0%Z
      /\ 0 <= power <= CarPhysics.max_power p * (throttle / 100)
      /\ (rpm = CarPhysics.power_curve_peak p ->
          (CarPhysics.idle_rpm p <= CarPhysics.power_curve_peak p
           <= CarPhysics.max_rpm p)%Z ->
          power = CarPhysics.max_power p * (throttle / 100))
  end.
Proof.
  intros p Hmax Ht. unfold calculate_engine_power_or_error. fold p.
  destruct (CarPhysics.power_curve_peak p =? 0)%Z eqn:Ep.
  { now apply Z.eqb_eq. }
  apply Z.eqb_neq in Ep. split; [exact Ep |]. split.
  - unfold calculate_engine_power. cbv zeta. fold p.
    match goal with |- context [exp ?e] => set (x := e) end.
    assert (Hx : x <= 0).
    { subst x. match goal with |- - 0.5 * ?a ^ 2 / 0.3 <= 0 => pose proof (pow2_ge_0 a) end.
      lra. }
    assert (He : 0 < exp x <= 1).
    { split; [apply exp_pos |].
      destruct (Req_dec x 0) as [-> | Hnz]; [rewrite exp_0; lra |].
      left. rewrite <- exp_0. apply exp_increasing. lra. }
    assert (Hs : 0 <= CarPhysics.max_power p * (throttle / 100)) by (apply Rmult_le_pos; lra).
    split.
    + apply Rmult_le_pos; [apply Rmult_le_pos; lra | lra].
    + rewrite Rmult_assoc, (Rmult_comm (exp x)), <- Rmult_assoc. nra.
  - intros -> Hr. unfold calculate_engine_power. cbv zeta. fold p.
    replace (CarPhysics.power_curve_peak p <? CarPhysics.idle_rpm p)%Z with false
      by (symmetry; apply Z.ltb_ge; lia).
    replace (CarPhysics.max_rpm p <? CarPhysics.power_curve_peak p)%Z with false
      by (symmetry; apply Z.ltb_ge; lia).
    assert (Hz : IZR (CarPhysics.power_curve_peak p) <> 0) by (now apply not_0_IZR).
    replace (IZR (CarPhysics.power_curve_peak p) / IZR (CarPhysics.power_curve_peak p))
      with 1 by (field; exact Hz).
    replace (- 0.5 * (1 - 1) ^ 2 / 0.3) with 0 by lra.
    rewrite exp_0. ring.
Qed.

(** [F1PhysicsSimulator()] at full throttle: at 9000 rpm the power is within
    the bounds, and at 11000 rpm it is the 710 kW of the parameter set. *)
Lemma calculate_engine_power_bounds_witness :
  (exists power,
     calculate_engine_power_or_error F1PhysicsSimulator.default 9000 100 = Some power
     /\ 0 <= power <= 710000 * (100 / 100))
  /\ calculate_engine_power_or_error F1PhysicsSimulator.default 11000 100
     = Some (710000 * (100 / 100)).
Proof.
  split.
  - pose proof (calculate_engine_power_bounds F1PhysicsSimulator.default 9000 100) as H.
    cbv zeta in H. unfold calculate_engine_power_or_error in *.
    cbn [F1PhysicsSimulator.default F1PhysicsSimulator.init CarPhysics.default
         F1PhysicsSimulator.physics CarPhysics.power_curve_peak CarPhysics.max_power
         CarPhysics.idle_rpm CarPhysics.max_rpm Z.eqb Pos.eqb] in *.
    destruct (H ltac:(lra) ltac:(lra)) as (_ & Hb & _).
    eexists. split; [reflexivity | exact Hb].
  - pose proof (calculate_engine_power_bounds F1PhysicsSimulator.default 11000 100) as H.
    cbv zeta in H. unfold calculate_engine_power_or_error in *.
    cbn [F1PhysicsSimulator.default F1PhysicsSimulator.init CarPhysics.default
         F1PhysicsSimulator.physics CarPhysics.power_curve_peak CarPhysics.max_power
         CarPhysics.idle_rpm CarPhysics.max_rpm Z.eqb Pos.eqb] in *.
    destruct (H ltac:(lra) ltac:(lra)) as (_ & _ & Hp).
    f_equal. apply Hp; [reflexivity | lia].
Defined.

Lemma clip_low v lo hi : lo <= hi -> v <= lo -> Py.clip v lo hi = lo.
Proof.
  intros Hlh Hv. unfold Py.clip, Py.max, Py.min.
  destruct (Rlt_dec v lo); destruct (Rlt_dec hi _); lra.
Qed.

Lemma clip_range v lo hi : lo <= hi -> lo <= Py.clip v lo hi <= hi.
Proof.
  intros Hlh. unfold Py.clip, Py.max, Py.min.
  destruct (Rlt_dec v lo); destruct (Rlt_dec hi _); lra.
Qed.

Lemma braking_force_nonneg brake_input v :
  0 <= brake_input ->
  0 <= calculate_braking_force F1PhysicsSimulator.default brake_input v
         (snd (calculate_aerodynamic_forces F1PhysicsSimulator.default v)).
Proof.
  intros Hb. unfold calculate_braking_force, calculate_aerodynamic_forces.
  cbv zeta. cbn [snd]. params.
  pose proof (pow2_ge_0 v).
  apply py_min_glb; nra.
Qed.

(** X5.  With the parameters of [F1PhysicsSimulator()], a car that is not
    moving backwards never gains speed on a tick with the throttle closed
    (a throttle input of 0 or less), whatever the gear, the brake and the
    steering. *)
Theorem closed_throttle_never_accelerates
  (state : CarState.t) (throttle brake steering : R) :
  0 <= CarState.speed state -> throttle <= 0 ->
  0 <= CarState.speed (update_car_state F1PhysicsSimulator.default state
                                        throttle brake steering)
    <= CarState.speed state.
Proof.
  intros Hv Ht.
  destruct (update_car_state_fields F1PhysicsSimulator.default state throttle brake steering)
    as [Hs _].
  cbv zeta in Hs. rewrite Hs. clear Hs.
  split; [apply py_max_le_l |].
  rewrite (clip_low throttle 0 100) by lra.
  set (v := CarState.speed state) in *.
  pose proof (braking_force_nonneg (Py.clip brake 0 100) v
                (proj1 (clip_range brake 0 100 ltac:(lra)))) as Hb.
  set (bf := calculate_braking_force _ _ _ _) in *.
  unfold calculate_aerodynamic_forces. cbv zeta. cbn [fst snd].
  pose proof (pow2_ge_0 v) as Hv2.
  rewrite engine_force_no_throttle; [| exact Hv | params; nra].
  params.
  unfold Py.max. destruct (Rlt_dec 0 _) as [Hp | Hp]; [| exact Hv].
  assert (Hq : (0 - 0.5 * 1.2 * v ^ 2 * 0.9 * 1.5 - bf) / 798 * 0.01 <= 0).
  { assert (Hi : 0 < / 798) by (apply Rinv_0_lt_compat; lra).
    unfold Rdiv. nra. }
  lra.
Qed.

Lemma closed_throttle_never_accelerates_witness :
  0 <= CarState.speed (update_car_state F1PhysicsSimulator.default CarState.default 0 100 1)
    <= CarState.speed CarState.default.
Proof.
  apply (closed_throttle_never_accelerates CarState.default 0 100 1); cbn; lra.
Defined.

(** ** Loading a reference lap *)

Lemma Rle_is_Transitive : Transitive Rle.
Proof. intros a b c. apply Rle_trans. Qed.

Lemma Rlt_is_Transitive : Transitive Rlt.
Proof. intros a b c. apply Rlt_trans. Qed.

Lemma given_distances_fails raw :
  MonacoTrackKnowledge.given_distances raw = None
  <-> Exists (fun point => RawSample.distance point = None) raw.
Proof.
  induction raw as [| point rest IH]; cbn [MonacoTrackKnowledge.given_distances].
  - split; [discriminate | intros H; inversion H].
  - destruct (RawSample.distance point) as [d |] eqn:Ed.
    + destruct (MonacoTrackKnowledge.given_distances rest) as [rest' |].
      * split; [discriminate |]. intros H. inversion H as [? ? H0 | ? ? H0]; subst.
        -- congruence.
        -- apply IH in H0. discriminate.
      * split; [| reflexivity]. intros _. apply Exists_cons_tl. now apply IH.
    + split; [| reflexivity]. intros _. now apply Exists_cons_hd.
Qed.

(** X6.  Loading a reference lap fails exactly on an empty telemetry list
    ([IndexError]) and on one whose first entry carries a distance while a
    later entry lacks it ([KeyError]); in particular it never fails when
    the first entry has no distance. *)
Theorem init_fails_iff (raw : list RawSample.t) :
  MonacoTrackKnowledge.init raw = None
  <-> raw = []
      \/ exists first rest,
           raw = first :: rest
           /\ RawSample.distance first <> None
           /\ Exists (fun point => RawSample.distance point = None) rest.
Proof.
  unfold MonacoTrackKnowledge.init.
  destruct (MonacoTrackKnowledge.with_distances raw) as [telemetry |] eqn:Ew.
  - split; [discriminate |]. intros [-> | (first & rest & -> & Hf & Hr)].
    + discriminate.
    + unfold MonacoTrackKnowledge.with_distances in Ew.
      destruct (RawSample.distance first) as [d |] eqn:Ed; [| congruence].
      assert (Hn : MonacoTrackKnowledge.given_distances (first :: rest) = None).
      { apply given_distances_fails. now apply Exists_cons_tl. }
      congruence.
  - split; [| reflexivity]. intros _.
    destruct raw as [| first rest]; [now left | right].
    exists first, rest. unfold MonacoTrackKnowledge.with_distances in Ew.
    destruct (RawSample.distance first) as [d |] eqn:Ed; [| discriminate].
    split; [reflexivity |]. split; [discriminate |].
    apply given_distances_fails in Ew.
    inversion Ew as [? ? H0 | ? ? H0]; subst; [congruence | exact H0].
Qed.

Lemma compute_distances_length raw : forall prev distance,
  length (MonacoTrackKnowledge.compute_distances prev distance raw) = length raw.
Proof.
  induction raw as [| point rest IH]; intros prev distance; [reflexivity |].
  cbn [MonacoTrackKnowledge.compute_distances length]. now rewrite IH.
Qed.

Lemma given_distances_length raw : forall telemetry,
  MonacoTrackKnowledge.given_distances raw = Some telemetry ->
  length telemetry = length raw.
Proof.
  induction raw as [| point rest IH]; intros telemetry H;
    cbn [MonacoTrackKnowledge.given_distances] in H.
  - now inversion H.
  - destruct (RawSample.distance point); [| discriminate].
    destruct (MonacoTrackKnowledge.given_distances rest) as [rest' |]; [| discriminate].
    inversion H; subst. cbn [length]. now rewrite (IH rest').
Qed.

Lemma with_distances_length raw telemetry :
  MonacoTrackKnowledge.with_distances raw = Some telemetry ->
  length telemetry = length raw.
Proof.
  unfold MonacoTrackKnowledge.with_distances. destruct raw as [| first rest]; [discriminate |].
  destruct (RawSample.distance first).
  - apply given_distances_length.
  - intros H. injection H as <-.
    exact (compute_distances_length (first :: rest) None 0).
Qed.

Lemma init_all_fields raw track :
  MonacoTrackKnowledge.init raw = Some track ->
  exists telemetry,
    MonacoTrackKnowledge.with_distances raw = Some telemetry
    /\ track
       = MonacoTrackKnowledge.mk
           telemetry
           (list_max (map Sample.distance telemetry))
           (MonacoTrackKnowledge._extract_racing_line telemetry)
           (MonacoTrackKnowledge._find_braking_zones telemetry)
           (MonacoTrackKnowledge._find_apex_points telemetry)
           (MonacoTrackKnowledge._analyze_critical_turns
              (MonacoTrackKnowledge._find_braking_zones telemetry)
              (MonacoTrackKnowledge._find_apex_points telemetry)).
Proof.
  unfold MonacoTrackKnowledge.init.
  destruct (MonacoTrackKnowledge.with_distances raw) as [telemetry |]; [| discriminate].
  intros H. inversion H. now exists telemetry.
Qed.

Lemma compute_distances_nth raw : forall prev distance i,
  (S i < length raw)%nat ->
  let telemetry := MonacoTrackKnowledge.compute_distances prev distance raw in
  let a := nth i telemetry Sample.zero in
  let b := nth (S i) telemetry Sample.zero in
  Sample.distance b
  = Sample.distance a
    + sqrt ((Sample.x b - Sample.x a) ^ 2 + (Sample.y b - Sample.y a) ^ 2
            + (Sample.z b - Sample.z a) ^ 2).
Proof.
  induction raw as [| p raw IH]; intros prev distance i Hi; [cbn in Hi; lia |].
  destruct raw as [| q raw]; [cbn in Hi; lia |].
  destruct i as [| i].
  - cbn. reflexivity.
  - cbn [length] in Hi.
    specialize (IH (Some p)
                   (match prev with
                    | None => distance
                    | Some prev =>
                        distance
                        + sqrt ((RawSample.x p - RawSample.x prev) ^ 2
                                + (RawSample.y p - RawSample.y prev) ^ 2
                                + (RawSample.z p - RawSample.z prev) ^ 2)
                    end) i ltac:(cbn [length]; lia)).
    cbv zeta in IH |- *.
    change (MonacoTrackKnowledge.compute_distances prev distance (p :: q :: raw))
      with (Sample.mk (RawSample.x p) (RawSample.y p) (RawSample.z p)
              (match prev with
               | None => distance
               | Some prev =>
                   distance
                   + sqrt ((RawSample.x p - RawSample.x prev) ^ 2
                           + (RawSample.y p - RawSample.y prev) ^ 2
                           + (RawSample.z p - RawSample.z prev) ^ 2)
               end)
              (RawSample.speed p) (RawSample.throttle p) (RawSample.brake p)
            :: MonacoTrackKnowledge.compute_distances (Some p)
                 (match prev with
                  | None => distance
                  | Some prev =>
                      distance
                      + sqrt ((RawSample.x p - RawSample.x prev) ^ 2
                              + (RawSample.y p - RawSample.y prev) ^ 2
                              + (RawSample.z p - RawSample.z prev) ^ 2)
                  end) (q :: raw)).
    cbn [nth]. exact IH.
Qed.

(** X7.  When the first entry of the file has no distance, loading
    succeeds and every entry gets the length of the path so far as its
    distance: 0 for the first entry, and for each later one the distance of
    its predecessor plus the straight-line distance between the two in
    space, whatever distance the file gives it.  These distances never
    decrease, and the critical turns come in order of apex distance. *)
Theorem computed_distances_are_path_lengths (first : RawSample.t) (rest : list RawSample.t) :
  RawSample.distance first = None ->
  exists track,
    MonacoTrackKnowledge.init (first :: rest) = Some track
    /\ length (MonacoTrackKnowledge.telemetry track) = S (length rest)
    /\ Sample.distance (nth 0 (MonacoTrackKnowledge.telemetry track) Sample.zero) = 0
    /\ (forall i, (S i < S (length rest))%nat ->
          let a := nth i (MonacoTrackKnowledge.telemetry track) Sample.zero in
          let b := nth (S i) (MonacoTrackKnowledge.telemetry track) Sample.zero in
          Sample.distance b
          = Sample.distance a
            + sqrt ((Sample.x b - Sample.x a) ^ 2 + (Sample.y b - Sample.y a) ^ 2
                    + (Sample.z b - Sample.z a) ^ 2))
    /\ Sorted (by_distance Rle) (MonacoTrackKnowledge.telemetry track)
    /\ Sorted (by_apex_distance Rle) (MonacoTrackKnowledge.critical_turns track).
Proof.
  intros Hd.
  assert (Hw : MonacoTrackKnowledge.with_distances (first :: rest)
               = Some (MonacoTrackKnowledge.compute_distances None 0 (first :: rest))).
  { unfold MonacoTrackKnowledge.with_distances. now rewrite Hd. }
  unfold MonacoTrackKnowledge.init. rewrite Hw.
  set (telemetry := MonacoTrackKnowledge.compute_distances None 0 (first :: rest)).
  eexists. split; [reflexivity |].
  cbn [MonacoTrackKnowledge.telemetry MonacoTrackKnowledge.critical_turns].
  split; [exact (compute_distances_length (first :: rest) None 0) |].
  split; [reflexivity |].
  split; [intros i Hi; exact (compute_distances_nth (first :: rest) None 0 i Hi) |].
  assert (Hs : Sorted (by_distance Rle) telemetry) by apply compute_distances_sorted.
  split; [exact Hs |].
  apply turns_sorted; [exact Rle_is_Transitive | exact Hs].
Qed.

Lemma computed_distances_are_path_lengths_witness :
  exists track,
    MonacoTrackKnowledge.init unmeasured_lap = Some track
    /\ length (MonacoTrackKnowledge.telemetry track) = 2%nat
    /\ Sample.distance (nth 0 (MonacoTrackKnowledge.telemetry track) Sample.zero) = 0
    /\ (forall i, (S i < 2)%nat ->
          let a := nth i (MonacoTrackKnowledge.telemetry track) Sample.zero in
          let b := nth (S i) (MonacoTrackKnowledge.telemetry track) Sample.zero in
          Sample.distance b
          = Sample.distance a
            + sqrt ((Sample.x b - Sample.x a) ^ 2 + (Sample.y b - Sample.y a) ^ 2
                    + (Sample.z b - Sample.z a) ^ 2))
    /\ Sorted (by_distance Rle) (MonacoTrackKnowledge.telemetry track)
    /\ Sorted (by_apex_distance Rle) (MonacoTrackKnowledge.critical_turns track).
Proof.
  apply (computed_distances_are_path_lengths
           (RawSample.mk 0 0 0 None 120 0 0) [RawSample.mk 3 4 0 None 120 0 0]).
  reflexivity.
Defined.

(** X8.  A lap of at most 40 entries has no apex and therefore no critical
    turn: the scan for apexes leaves out the first and the last 20
    entries. *)
Theorem short_lap_has_no_turns (raw : list RawSample.t) (track : MonacoTrackKnowledge.t) :
  MonacoTrackKnowledge.init raw = Some track ->
  (length raw <= 40)%nat ->
  MonacoTrackKnowledge.apex_points track = []
  /\ MonacoTrackKnowledge.critical_turns track = [].
Proof.
  intros Hi Hl. destruct (init_all_fields raw track Hi) as (telemetry & Hw & ->).
  cbn [MonacoTrackKnowledge.apex_points MonacoTrackKnowledge.critical_turns].
  assert (Ha : MonacoTrackKnowledge._find_apex_points telemetry = []).
  { unfold MonacoTrackKnowledge._find_apex_points, MonacoTrackKnowledge.window.
    rewrite (with_distances_length raw telemetry Hw).
    replace (length raw - 20 - 20)%nat with 0%nat by lia. reflexivity. }
  rewrite Ha. split; reflexivity.
Qed.

Lemma short_lap_has_no_turns_witness :
  MonacoTrackKnowledge.apex_points straight_track = []
  /\ MonacoTrackKnowledge.critical_turns straight_track = [].
Proof.
  apply (short_lap_has_no_turns straight_lap straight_track).
  - exact straight_track_init.
  - cbn. lia.
Defined.

(** ** Track length *)

Lemma fold_max_ge_init l m : m <= fold_left Py.max l m.
Proof.
  revert m. induction l as [| v l IH]; intros m; cbn [fold_left]; [lra |].
  eapply Rle_trans; [apply py_max_le_l | apply IH].
Qed.

Lemma fold_max_ge_elem l m v : In v l -> v <= fold_left Py.max l m.
Proof.
  revert m. induction l as [| w l IH]; intros m; [contradiction |].
  intros [-> | Hv]; cbn [fold_left].
  - eapply Rle_trans; [apply py_max_le_r | apply fold_max_ge_init].
  - now apply IH.
Qed.

Lemma fold_max_in l m : fold_left Py.max l m = m \/ In (fold_left Py.max l m) l.
Proof.
  revert m. induction l as [| w l IH]; intros m; cbn [fold_left]; [now left |].
  destruct (IH (Py.max m w)) as [H | H].
  - rewrite H. unfold Py.max. destruct (Rlt_dec m w); [right; now left | now left].
  - right. now right.
Qed.

Lemma list_max_ge l v : In v l -> v <= list_max l.
Proof.
  destruct l as [| w l]; [contradiction |]. cbn [list_max].
  intros [-> | Hv]; [apply fold_max_ge_init | now apply fold_max_ge_elem].
Qed.

Lemma list_max_in l : l <> [] -> In (list_max l) l.
Proof.
  destruct l as [| w l]; [congruence |]. intros _. cbn [list_max].
  destruct (fold_max_in l w) as [H | H]; [left; now rewrite H | now right].
Qed.

Lemma racing_line_distances telemetry :
  map LinePoint.distance (MonacoTrackKnowledge._extract_racing_line telemetry)
  = map Sample.distance telemetry.
Proof.
  unfold MonacoTrackKnowledge._extract_racing_line. rewrite map_map. reflexivity.
Qed.

Lemma track_length_bounds raw track :
  MonacoTrackKnowledge.init raw = Some track ->
  (forall p, In p (MonacoTrackKnowledge.racing_line track) ->
             LinePoint.distance p <= MonacoTrackKnowledge.track_length track)
  /\ exists p, In p (MonacoTrackKnowledge.racing_line track)
               /\ LinePoint.distance p = MonacoTrackKnowledge.track_length track.
Proof.
  intros Hi. destruct (init_not_empty raw track Hi) as [_ Hne].
  destruct (init_all_fields raw track Hi) as (telemetry & Hw & ->).
  cbn [MonacoTrackKnowledge.racing_line MonacoTrackKnowledge.track_length
       MonacoTrackKnowledge.telemetry] in *.
  rewrite <- racing_line_distances. split.
  - intros p Hp. apply list_max_ge. now apply in_map.
  - assert (Hm : map LinePoint.distance (MonacoTrackKnowledge._extract_racing_line telemetry)
                 <> []).
    { rewrite racing_line_distances. destruct telemetry; [congruence | discriminate]. }
    apply list_max_in in Hm. apply in_map_iff in Hm.
    destruct Hm as (p & Hd & Hp). now exists p.
Qed.

(** ** Braking zones and critical turns *)

Lemma brake_run_end_spec from_j : forall j,
  let r := MonacoTrackKnowledge.brake_run_end from_j j in
  (j <= r <= j + length from_j)%nat
  /\ (forall k, (k < r - j)%nat ->
                Py.truthy (Sample.brake (nth k from_j Sample.zero)) = true)
  /\ ((r < j + length from_j)%nat ->
      Py.truthy (Sample.brake (nth (r - j) from_j Sample.zero)) = false).
Proof.
  induction from_j as [| t rest IH]; intros j; cbn [MonacoTrackKnowledge.brake_run_end].
  - cbn [length]. repeat split; intros; lia.
  - destruct (Py.truthy (Sample.brake t)) eqn:Et.
    + destruct (IH (S j)) as (Hr & Hb & He). cbv zeta in *.
      set (r := MonacoTrackKnowledge.brake_run_end rest (S j)) in *.
      cbn [length]. split; [lia |]. split.
      * intros k Hk. destruct k as [| k]; [exact Et |]. cbn [nth]. apply Hb. lia.
      * intros Hlt. replace (r - j)%nat with (S (r - S j)) by lia. cbn [nth].
        apply He. lia.
    + cbv zeta. cbn [length]. split; [lia |]. split.
      * intros k Hk. lia.
      * intros _. replace (j - j)%nat with 0%nat by lia. exact Et.
Qed.

Lemma braking_zone_characterised telemetry bz :
  In bz (MonacoTrackKnowledge._find_braking_zones telemetry) ->
  exists i j,
    (i < j < length telemetry)%nat
    /\ (forall k, (i <= k < j)%nat ->
                  Py.truthy (Sample.brake (nth k telemetry Sample.zero)) = true)
    /\ Py.truthy (Sample.brake (nth j telemetry Sample.zero)) = false
    /\ (i = 0%nat
        \/ Py.truthy (Sample.brake (nth (i - 1) telemetry Sample.zero)) = false)
    /\ bz = BrakingZone.mk
              (Sample.distance (nth i telemetry Sample.zero))
              (Sample.distance (nth j telemetry Sample.zero))
              (Sample.speed (nth i telemetry Sample.zero))
              (Sample.speed (nth j telemetry Sample.zero))
              (Sample.distance (nth j telemetry Sample.zero)
               - Sample.distance (nth i telemetry Sample.zero)).
Proof.
  unfold MonacoTrackKnowledge._find_braking_zones. intros H.
  apply in_flat_map in H. destruct H as (i & Hi & H). apply in_seq in Hi.
  destruct (Py.truthy (Sample.brake (nth i telemetry Sample.zero))) eqn:Eb;
    [| contradiction].
  destruct ((i =? 0)%nat
            || negb (Py.truthy (Sample.brake (nth (i - 1) telemetry Sample.zero))))%bool
    eqn:Ep; [| contradiction].
  cbn [andb] in H. cbv zeta in H.
  destruct (brake_run_end_spec (skipn i telemetry) i) as (Hr & Hrun & Hend).
  cbv zeta in *.
  set (j := MonacoTrackKnowledge.brake_run_end (skipn i telemetry) i) in *.
  rewrite length_skipn in Hr, Hend.
  destruct (j <? length telemetry)%nat eqn:Ej; [| contradiction].
  apply Nat.ltb_lt in Ej. destruct H as [<- | []].
  assert (Hij : (i < j)%nat).
  { destruct (Nat.eq_dec j i) as [Heq | Hne]; [| lia].
    specialize (Hend ltac:(lia)). rewrite nth_skipn in Hend.
    replace (i + (j - i))%nat with i in Hend by lia. congruence. }
  exists i, j. repeat split; try lia.
  - intros k Hk. specialize (Hrun (k - i)%nat ltac:(lia)). rewrite nth_skipn in Hrun.
    now replace (i + (k - i))%nat with k in Hrun by lia.
  - specialize (Hend ltac:(lia)). rewrite nth_skipn in Hend.
    now replace (i + (j - i))%nat with j in Hend by lia.
  - apply orb_prop in Ep. destruct Ep as [Ep | Ep].
    + left. now apply Nat.eqb_eq.
    + right. now apply negb_true_iff.
Qed.

Lemma Sorted_by_distance_nth (rel : R -> R -> Prop) telemetry :
  Transitive rel ->
  Sorted (by_distance rel) telemetry ->
  forall i j, (i < j < length telemetry)%nat ->
  rel (Sample.distance (nth i telemetry Sample.zero))
      (Sample.distance (nth j telemetry Sample.zero)).
Proof.
  intros Ht Hs. apply (StronglySorted_nth rel Sample.distance Sample.zero).
  apply Sorted_StronglySorted; [exact Ht |].
  now apply (Sorted_map_key rel Sample.distance).
Qed.

(** X9.  On a lap whose distances never decrease, every braking zone runs
    forward: it starts at an entry with the brake on, ends at the first
    later entry with the brake off, the brake is on at every entry in
    between, and its length is the distance between the two ends, which is
    not negative. *)
Theorem braking_zones_run_forward (telemetry : list Sample.t) (bz : BrakingZone.t) :
  Sorted (by_distance Rle) telemetry ->
  In bz (MonacoTrackKnowledge._find_braking_zones telemetry) ->
  BrakingZone.start_distance bz <= BrakingZone.end_distance bz
  /\ BrakingZone.braking_distance bz
     = BrakingZone.end_distance bz - BrakingZone.start_distance bz
  /\ 0 <= BrakingZone.braking_distance bz
  /\ exists i j,
       (i < j < length telemetry)%nat
       /\ BrakingZone.start_distance bz = Sample.distance (nth i telemetry Sample.zero)
       /\ BrakingZone.end_distance bz = Sample.distance (nth j telemetry Sample.zero)
       /\ (forall k, (i <= k < j)%nat ->
                     Py.truthy (Sample.brake (nth k telemetry Sample.zero)) = true)
       /\ Py.truthy (Sample.brake (nth j telemetry Sample.zero)) = false.
Proof.
  intros Hs Hin.
  destruct (braking_zone_characterised telemetry bz Hin)
    as (i & j & Hij & Hrun & Hend & _ & ->).
  cbn [BrakingZone.start_distance BrakingZone.end_distance BrakingZone.braking_distance].
  pose proof (Sorted_by_distance_nth Rle telemetry Rle_is_Transitive Hs i j Hij) as Hle.
  repeat split; try lra.
  exists i, j. repeat split; try lia; assumption.
Qed.

Lemma brake_tap_zones : MonacoTrackKnowledge._find_braking_zones brake_tap = [brake_tap_zone].
Proof.
  unfold MonacoTrackKnowledge._find_braking_zones, brake_tap, brake_tap_zone.
  cbv [length seq flat_map nth Sample.brake Sample.distance Sample.speed
       MonacoTrackKnowledge.brake_run_end skipn Nat.sub Nat.eqb Nat.ltb Nat.leb app].
  rewrite ?truthy_0, ?truthy_1. cbn [andb orb negb app]. reflexivity.
Qed.

Lemma braking_zones_run_forward_witness :
  BrakingZone.start_distance brake_tap_zone <= BrakingZone.end_distance brake_tap_zone
  /\ BrakingZone.braking_distance brake_tap_zone
     = BrakingZone.end_distance brake_tap_zone - BrakingZone.start_distance brake_tap_zone
  /\ 0 <= BrakingZone.braking_distance brake_tap_zone
  /\ exists i j,
       (i < j < length brake_tap)%nat
       /\ BrakingZone.start_distance brake_tap_zone
          = Sample.distance (nth i brake_tap Sample.zero)
       /\ BrakingZone.end_distance brake_tap_zone
          = Sample.distance (nth j brake_tap Sample.zero)
       /\ (forall k, (i <= k < j)%nat ->
                     Py.truthy (Sample.brake (nth k brake_tap Sample.zero)) = true)
       /\ Py.truthy (Sample.brake (nth j brake_tap Sample.zero)) = false.
Proof.
  apply (braking_zones_run_forward brake_tap brake_tap_zone).
  - unfold brake_tap. repeat constructor. unfold by_distance. cbn. lra.
  - rewrite brake_tap_zones. now left.
Defined.

Lemma critical_turn_characterised braking_zones apex_points t :
  In t (MonacoTrackKnowledge._analyze_critical_turns braking_zones apex_points) ->
  exists apex bz,
    In apex apex_points
    /\ In bz braking_zones
    /\ BrakingZone.start_distance bz < Apex.distance apex
    /\ Apex.distance apex < BrakingZone.end_distance bz + 100
    /\ t = Turn.mk (Apex.distance apex) (Apex.speed apex)
                   (BrakingZone.start_distance bz) (BrakingZone.braking_distance bz)
                   (BrakingZone.entry_speed bz) (Apex.x apex, Apex.y apex).
Proof.
  unfold MonacoTrackKnowledge._analyze_critical_turns. intros H.
  apply in_flat_map in H. destruct H as (apex & Ha & H).
  destruct (MonacoTrackKnowledge.corresponding_zone braking_zones apex) as [bz |] eqn:Ez;
    [| contradiction].
  destruct H as [<- | []].
  unfold MonacoTrackKnowledge.corresponding_zone in Ez.
  apply find_some in Ez. destruct Ez as [Hbz Ht].
  apply andb_prop in Ht. destruct Ht as [H1 H2].
  apply ltb_true in H1. apply ltb_true in H2.
  exists apex, bz. repeat split; assumption.
Qed.

(** X10.  Every critical turn of a loaded lap pairs an apex with a braking
    zone that starts before it: the braking point lies before the apex, the
    apex less than 100 beyond the end of the braking zone, and the apex is
    a telemetry entry slower than 150 that has at least 20 entries before
    it and 20 after it. *)
Theorem critical_turn_brakes_before_apex
  (raw : list RawSample.t) (track : MonacoTrackKnowledge.t) (t : Turn.t) :
  MonacoTrackKnowledge.init raw = Some track ->
  In t (MonacoTrackKnowledge.critical_turns track) ->
  Turn.braking_point t < Turn.apex_distance t
  /\ Turn.apex_distance t < Turn.braking_point t + Turn.braking_distance t + 100
  /\ Turn.apex_speed t < 150
  /\ (exists bz,
        In bz (MonacoTrackKnowledge.braking_zones track)
        /\ Turn.braking_point t = BrakingZone.start_distance bz
        /\ Turn.braking_distance t = BrakingZone.braking_distance bz
        /\ Turn.entry_speed t = BrakingZone.entry_speed bz)
  /\ (exists i,
        (MonacoTrackKnowledge.window <= i
         < length (MonacoTrackKnowledge.telemetry track) - MonacoTrackKnowledge.window)%nat
        /\ let entry := nth i (MonacoTrackKnowledge.telemetry track) Sample.zero in
           Turn.apex_distance t = Sample.distance entry
           /\ Turn.apex_speed t = Sample.speed entry
           /\ Turn.apex_coords t = (Sample.x entry, Sample.y entry)).
Proof.
  intros Hi Ht. destruct (init_all_fields raw track Hi) as (telemetry & _ & ->).
  cbn [MonacoTrackKnowledge.critical_turns MonacoTrackKnowledge.braking_zones
       MonacoTrackKnowledge.telemetry] in *.
  destruct (critical_turn_characterised _ _ t Ht) as (apex & bz & Ha & Hbz & H1 & H2 & ->).
  cbn [Turn.braking_point Turn.apex_distance Turn.braking_distance Turn.apex_speed
       Turn.entry_speed Turn.apex_coords].
  destruct (braking_zone_characterised telemetry bz Hbz) as (i & j & _ & _ & _ & _ & Hz).
  apply apex_points_characterised in Ha. destruct Ha as (k & Hk & -> & Hslow & _).
  unfold MonacoTrackKnowledge.apex_of in *.
  cbn [Apex.distance Apex.speed Apex.x Apex.y] in *.
  split; [exact H1 |]. split.
  { rewrite Hz in H2 |- *.
    cbn [BrakingZone.start_distance BrakingZone.end_distance
         BrakingZone.braking_distance] in *. lra. }
  split; [exact Hslow |]. split.
  - exists bz. repeat split. exact Hbz.
  - exists k. split; [exact Hk |]. cbv zeta. repeat split.
Qed.

Lemma repeated_sample_lap_loaded :
  exists track,
    MonacoTrackKnowledge.init repeated_sample_lap = Some track
    /\ Sorted (by_distance Rle) (MonacoTrackKnowledge.telemetry track)
    /\ MonacoTrackKnowledge.critical_turns track
       = [repeated_sample_turn; repeated_sample_turn]
    /\ 0 < MonacoTrackKnowledge.track_length track.
Proof.
  destruct repeated_sample_lap_turns as [telemetry [Hw [Hsorted Hturns]]].
  destruct (MonacoTrackKnowledge.init repeated_sample_lap) as [track |] eqn:Hinit.
  2:{ unfold MonacoTrackKnowledge.init in Hinit. rewrite Hw in Hinit. discriminate. }
  destruct (init_all_fields _ _ Hinit) as (telemetry' & Hw' & ->).
  rewrite Hw in Hw'. injection Hw' as <-.
  exists (MonacoTrackKnowledge.mk
            telemetry
            (list_max (map Sample.distance telemetry))
            (MonacoTrackKnowledge._extract_racing_line telemetry)
            (MonacoTrackKnowledge._find_braking_zones telemetry)
            (MonacoTrackKnowledge._find_apex_points telemetry)
            (MonacoTrackKnowledge._analyze_critical_turns
               (MonacoTrackKnowledge._find_braking_zones telemetry)
               (MonacoTrackKnowledge._find_apex_points telemetry))).
  cbn [MonacoTrackKnowledge.telemetry MonacoTrackKnowledge.critical_turns
       MonacoTrackKnowledge.track_length].
  split; [reflexivity |]. split; [exact Hsorted |]. split; [exact Hturns |].
  assert (Hin : In 40 (map Sample.distance telemetry)).
  { unfold repeated_sample_lap in Hw.
    cbv [MonacoTrackKnowledge.with_distances MonacoTrackKnowledge.given_distances
         map app lap_sample RawSample.distance RawSample.x RawSample.y RawSample.z
         RawSample.speed RawSample.throttle RawSample.brake] in Hw.
    injection Hw as <-. cbn [map Sample.distance In]. do 41 right. now left. }
  apply list_max_ge in Hin. lra.
Qed.

Lemma critical_turn_brakes_before_apex_witness :
  exists track,
    MonacoTrackKnowledge.init repeated_sample_lap = Some track
    /\ Turn.braking_point repeated_sample_turn < Turn.apex_distance repeated_sample_turn
    /\ Turn.apex_distance repeated_sample_turn
       < Turn.braking_point repeated_sample_turn
         + Turn.braking_distance repeated_sample_turn + 100
    /\ Turn.apex_speed repeated_sample_turn < 150
    /\ (exists bz,
          In bz (MonacoTrackKnowledge.braking_zones track)
          /\ Turn.braking_point repeated_sample_turn = BrakingZone.start_distance bz
          /\ Turn.braking_distance repeated_sample_turn = BrakingZone.braking_distance bz
          /\ Turn.entry_speed repeated_sample_turn = BrakingZone.entry_speed bz)
    /\ (exists i,
          (MonacoTrackKnowledge.window <= i
           < length (MonacoTrackKnowledge.telemetry track) - MonacoTrackKnowledge.window)%nat
          /\ let entry := nth i (MonacoTrackKnowledge.telemetry track) Sample.zero in
             Turn.apex_distance repeated_sample_turn = Sample.distance entry
             /\ Turn.apex_speed repeated_sample_turn = Sample.speed entry
             /\ Turn.apex_coords repeated_sample_turn = (Sample.x entry, Sample.y entry)).
Proof.
  destruct repeated_sample_lap_loaded as (track & Hi & _ & Ht & _).
  exists track. split; [exact Hi |].
  apply (critical_turn_brakes_before_apex repeated_sample_lap track repeated_sample_turn Hi).
  rewrite Ht. now left.
Defined.

(** ** The nearest racing-line point *)

Lemma nearest_scan_from x y line : forall p0,
  exists p,
    MonacoTrackKnowledge.nearest_scan x y line (Fin (line_distance x y p0)) (Some p0)
    = Some p
    /\ line_distance x y p <= line_distance x y p0
    /\ (forall q, In q line -> line_distance x y p <= line_distance x y q)
    /\ (p = p0
        \/ exists before after,
             line = before ++ p :: after
             /\ line_distance x y p < line_distance x y p0
             /\ forall q, In q before -> line_distance x y p < line_distance x y q).
Proof.
  induction line as [| q rest IH]; intros p0.
  - exists p0. cbn. repeat split; [lra | contradiction | now left].
  - cbn [MonacoTrackKnowledge.nearest_scan]. cbv zeta. cbn [lt_ext].
    fold (line_distance x y q).
    destruct (Py.ltb (line_distance x y q) (line_distance x y p0)) eqn:E.
    + apply ltb_true in E.
      destruct (IH q) as (p & Hr & Hle & Hall & Hcase).
      exists p. split; [exact Hr |]. split; [lra |]. split.
      * intros r [<- | Hr']; [exact Hle | now apply Hall].
      * right. destruct Hcase as [-> | (before & after & -> & Hlt & Hb)].
        -- exists [], rest. repeat split; [exact E | contradiction].
        -- exists (q :: before), after. repeat split; [lra |].
           intros r [<- | Hr']; [exact Hlt | now apply Hb].
    + apply ltb_false in E.
      destruct (IH p0) as (p & Hr & Hle & Hall & Hcase).
      exists p. split; [exact Hr |]. split; [exact Hle |]. split.
      * intros r [<- | Hr']; [lra | now apply Hall].
      * destruct Hcase as [-> | (before & after & -> & Hlt & Hb)]; [now left | right].
        exists (q :: before), after. repeat split; [exact Hlt |].
        intros r [<- | Hr']; [lra | now apply Hb].
Qed.

Lemma nearest_line_point_in self x y p :
  MonacoTrackKnowledge.get_nearest_line_point self x y = Some p ->
  In p (MonacoTrackKnowledge.racing_line self).
Proof.
  unfold MonacoTrackKnowledge.get_nearest_line_point.
  destruct (MonacoTrackKnowledge.racing_line self) as [| first rest]; [discriminate |].
  cbn [MonacoTrackKnowledge.nearest_scan]. cbv zeta. cbn [lt_ext].
  fold (line_distance x y first).
  destruct (nearest_scan_from x y rest first) as (q & -> & _ & _ & Hcase).
  intros H. injection H as <-.
  destruct Hcase as [-> | (before & after & -> & _)]; [now left | right].
  apply in_or_app. right. now left.
Qed.

(** X11.  [get_nearest_line_point] returns nothing only on an empty racing
    line; otherwise it returns the first, in sequence order, of the
    racing-line points at the least distance from [(x, y)]: every earlier
    point is strictly farther away and no later point is nearer. *)
Theorem nearest_line_point_is_first_nearest
  (self : MonacoTrackKnowledge.t) (x y : R) :
  match MonacoTrackKnowledge.get_nearest_line_point self x y with
  | None => MonacoTrackKnowledge.racing_line self = []
  | Some p =>
      exists before after,
        MonacoTrackKnowledge.racing_line self = before ++ p :: after
        /\ (forall q, In q before -> line_distance x y p < line_distance x y q)
        /\ (forall q, In q after -> line_distance x y p <= line_distance x y q)
  end.
Proof.
  unfold MonacoTrackKnowledge.get_nearest_line_point.
  destruct (MonacoTrackKnowledge.racing_line self) as [| first rest]; [reflexivity |].
  cbn [MonacoTrackKnowledge.nearest_scan]. cbv zeta. cbn [lt_ext].
  fold (line_distance x y first).
  destruct (nearest_scan_from x y rest first) as (p & -> & Hle & Hall & Hcase).
  destruct Hcase as [-> | (before & after & -> & Hlt & Hb)].
  - exists [], rest. repeat split; [contradiction | exact Hall].
  - exists (first :: before), after. repeat split.
    + intros q [<- | Hq]; [exact Hlt | now apply Hb].
    + intros q Hq. apply Hall. apply in_or_app. right. now right.
Qed.

(** ** The next turn ahead *)

Lemma find_first {A} (f : A -> bool) (l : list A) :
  match find f l with
  | Some a =>
      exists before after,
        l = before ++ a :: after /\ f a = true
        /\ forall b, In b before -> f b = false
  | None => forall b, In b l -> f b = false
  end.
Proof.
  induction l as [| a l IH]; cbn [find]; [intros b [] |].
  destruct (f a) eqn:Ea.
  - exists [], l. repeat split; [exact Ea | intros b []].
  - destruct (find f l) as [c |].
    + destruct IH as (before & after & -> & Hc & Hb).
      exists (a :: before), after. repeat split; [exact Hc |].
      intros b [<- | Hin]; [exact Ea | now apply Hb].
    + intros b [<- | Hin]; [exact Ea | now apply IH].
Qed.

Lemma StronglySorted_app_later {A} (rel : A -> A -> Prop) before a after :
  StronglySorted rel (before ++ a :: after) ->
  forall b, In b after -> rel a b.
Proof.
  induction before as [| c before IH]; cbn [app]; intros H b Hb.
  - inversion H as [| ? ? _ Hall]; subst.
    rewrite Forall_forall in Hall. now apply Hall.
  - inversion H; subst. now apply IH.
Qed.

Lemma by_apex_distance_Transitive : Transitive (by_apex_distance Rle).
Proof. intros a b c. unfold by_apex_distance. apply Rle_trans. Qed.

(** X12.  On a loaded lap whose distances never decrease,
    [get_upcoming_turn] returns the critical turn ahead with the nearest
    apex: a turn whose apex lies beyond the given distance and no farther
    than the apex of any other such turn.  It returns nothing exactly when
    no apex lies beyond the given distance. *)
Theorem upcoming_turn_is_nearest_ahead
  (raw : list RawSample.t) (track : MonacoTrackKnowledge.t) (current_distance : R) :
  MonacoTrackKnowledge.init raw = Some track ->
  Sorted (by_distance Rle) (MonacoTrackKnowledge.telemetry track) ->
  match MonacoTrackKnowledge.get_upcoming_turn track current_distance with
  | Some turn =>
      In turn (MonacoTrackKnowledge.critical_turns track)
      /\ current_distance < Turn.apex_distance turn
      /\ forall other,
           In other (MonacoTrackKnowledge.critical_turns track) ->
           current_distance < Turn.apex_distance other ->
           Turn.apex_distance turn <= Turn.apex_distance other
  | None =>
      forall other,
        In other (MonacoTrackKnowledge.critical_turns track) ->
        Turn.apex_distance other <= current_distance
  end.
Proof.
  intros Hi Hs. destruct (init_fields raw track Hi) as (Hc & _).
  assert (Hsorted : StronglySorted (by_apex_distance Rle)
                      (MonacoTrackKnowledge.critical_turns track)).
  { apply Sorted_StronglySorted; [exact by_apex_distance_Transitive |].
    rewrite Hc. apply turns_sorted; [exact Rle_is_Transitive | exact Hs]. }
  unfold MonacoTrackKnowledge.get_upcoming_turn.
  pose proof (find_first
                (fun turn => Py.ltb current_distance (Turn.apex_distance turn))
                (MonacoTrackKnowledge.critical_turns track)) as Hf.
  destruct (find _ _) as [turn |].
  - destruct Hf as (before & after & Hl & Ht & Hb).
    apply ltb_true in Ht. rewrite Hl in *. split; [| split; [exact Ht |]].
    + apply in_or_app. right. now left.
    + intros other Ho Hahead. apply in_app_or in Ho.
      destruct Ho as [Ho | [<- | Ho]].
      * apply Hb in Ho. apply ltb_false in Ho. lra.
      * lra.
      * exact (StronglySorted_app_later _ before turn after Hsorted other Ho).
  - intros other Ho. apply Hf in Ho. now apply ltb_false in Ho.
Qed.

Lemma upcoming_turn_is_nearest_ahead_witness :
  exists track,
    MonacoTrackKnowledge.init repeated_sample_lap = Some track
    /\ match MonacoTrackKnowledge.get_upcoming_turn track 0 with
       | Some turn =>
           In turn (MonacoTrackKnowledge.critical_turns track)
           /\ 0 < Turn.apex_distance turn
           /\ forall other,
                In other (MonacoTrackKnowledge.critical_turns track) ->
                0 < Turn.apex_distance other ->
                Turn.apex_distance turn <= Turn.apex_distance other
       | None =>
           forall other,
             In other (MonacoTrackKnowledge.critical_turns track) ->
             Turn.apex_distance other <= 0
       end.
Proof.
  destruct repeated_sample_lap_loaded as (track & Hi & Hs & _).
  exists track. split; [exact Hi |].
  exact (upcoming_turn_is_nearest_ahead repeated_sample_lap track 0 Hi Hs).
Defined.

(** ** Telemetry lookup by distance *)

Lemma index_scan_from distance from_i : forall telemetry i best_idx,
  (best_idx < i)%nat ->
  skipn i telemetry = from_i ->
  (i + length from_i = length telemetry)%nat ->
  (forall j, (j < i)%nat ->
             index_diff telemetry distance best_idx <= index_diff telemetry distance j) ->
  (forall j, (j < best_idx)%nat ->
             index_diff telemetry distance best_idx < index_diff telemetry distance j) ->
  let idx :=
    MonacoTrackKnowledge.index_scan distance from_i i
      (Fin (index_diff telemetry distance best_idx)) best_idx in
  (idx < length telemetry)%nat
  /\ (forall j, (j < length telemetry)%nat ->
                index_diff telemetry distance idx <= index_diff telemetry distance j)
  /\ (forall j, (j < idx)%nat ->
                index_diff telemetry distance idx < index_diff telemetry distance j).
Proof.
  induction from_i as [| point rest IH]; intros telemetry i best_idx Hb Hsk Hlen Hmin Hfirst.
  - cbn [MonacoTrackKnowledge.index_scan length] in *. cbv zeta.
    repeat split; [lia | | exact Hfirst]. intros j Hj. apply Hmin. lia.
  - cbn [MonacoTrackKnowledge.index_scan]. cbv zeta. cbn [lt_ext length] in *.
    assert (Hp : nth i telemetry Sample.zero = point).
    { replace i with (i + 0)%nat by lia. rewrite <- nth_skipn, Hsk. reflexivity. }
    assert (Hrest : skipn (S i) telemetry = rest).
    { replace (S i) with (1 + i)%nat by lia. rewrite <- skipn_skipn, Hsk. reflexivity. }
    assert (Hd : Rabs (Sample.distance point - distance) = index_diff telemetry distance i).
    { unfold index_diff. now rewrite Hp. }
    rewrite Hd.
    destruct (Py.ltb (index_diff telemetry distance i)
                     (index_diff telemetry distance best_idx)) eqn:E.
    + apply ltb_true in E. apply IH; try lia; try assumption.
      * intros j Hj. destruct (Nat.eq_dec j i) as [-> | Hne]; [lra |].
        specialize (Hmin j ltac:(lia)). lra.
      * intros j Hj. specialize (Hmin j ltac:(lia)). lra.
    + apply ltb_false in E. apply IH; try lia; try assumption.
      intros j Hj. destruct (Nat.eq_dec j i) as [-> | Hne]; [lra |].
      apply Hmin. lia.
Qed.

Lemma telemetry_index_spec self distance :
  MonacoTrackKnowledge.telemetry self <> [] ->
  let telemetry := MonacoTrackKnowledge.telemetry self in
  let idx := MonacoTrackKnowledge._get_telemetry_index self distance in
  (idx < length telemetry)%nat
  /\ (forall j, (j < length telemetry)%nat ->
                index_diff telemetry distance idx <= index_diff telemetry distance j)
  /\ (forall j, (j < idx)%nat ->
                index_diff telemetry distance idx < index_diff telemetry distance j).
Proof.
  intros Hne. cbv zeta.
  unfold MonacoTrackKnowledge._get_telemetry_index.
  destruct (MonacoTrackKnowledge.telemetry self) as [| first rest] eqn:Et; [congruence |].
  cbn [MonacoTrackKnowledge.index_scan]. cbv zeta. cbn [lt_ext].
  change (Rabs (Sample.distance first - distance))
    with (index_diff (first :: rest) distance 0).
  apply index_scan_from.
  - lia.
  - reflexivity.
  - cbn [length]. lia.
  - intros j Hj. replace j with 0%nat by lia. lra.
  - intros j Hj. lia.
Qed.

(** X13.  [_get_telemetry_index] returns 0 on an empty telemetry;
    otherwise it returns the index of an entry whose distance is closest to
    the given one, and the first such index: no entry is closer and every
    earlier entry is strictly farther. *)
Theorem telemetry_index_is_first_closest (self : MonacoTrackKnowledge.t) (distance : R) :
  let telemetry := MonacoTrackKnowledge.telemetry self in
  let idx := MonacoTrackKnowledge._get_telemetry_index self distance in
  match telemetry with
  | [] => idx = 0%nat
  | _ :: _ =>
      (idx < length telemetry)%nat
      /\ (forall j, (j < length telemetry)%nat ->
                    index_diff telemetry distance idx <= index_diff telemetry distance j)
      /\ (forall j, (j < idx)%nat ->
                    index_diff telemetry distance idx < index_diff telemetry distance j)
  end.
Proof.
  cbv zeta.
  destruct (MonacoTrackKnowledge.telemetry self) as [| first rest] eqn:Et.
  - unfold MonacoTrackKnowledge._get_telemetry_index. rewrite Et. reflexivity.
  - rewrite <- Et. apply telemetry_index_spec. rewrite Et. discriminate.
Qed.

(** X14.  On a lap whose distances strictly increase, looking up the
    distance of an entry returns the index of that entry. *)
Theorem telemetry_index_of_entry (self : MonacoTrackKnowledge.t) (i : nat) :
  Sorted (by_distance Rlt) (MonacoTrackKnowledge.telemetry self) ->
  (i < length (MonacoTrackKnowledge.telemetry self))%nat ->
  MonacoTrackKnowledge._get_telemetry_index self
    (Sample.distance (nth i (MonacoTrackKnowledge.telemetry self) Sample.zero))
  = i.
Proof.
  intros Hs Hi.
  assert (Hne : MonacoTrackKnowledge.telemetry self <> []).
  { intros E. rewrite E in Hi. cbn in Hi. lia. }
  destruct (telemetry_index_spec self
              (Sample.distance (nth i (MonacoTrackKnowledge.telemetry self) Sample.zero))
              Hne) as (Hlt & Hmin & _).
  cbv zeta in *.
  set (telemetry := MonacoTrackKnowledge.telemetry self) in *.
  set (idx := MonacoTrackKnowledge._get_telemetry_index self _) in *.
  specialize (Hmin i Hi). unfold index_diff in Hmin.
  replace (Sample.distance (nth i telemetry Sample.zero)
           - Sample.distance (nth i telemetry Sample.zero)) with 0 in Hmin by ring.
  rewrite Rabs_R0 in Hmin.
  pose proof (Rabs_pos (Sample.distance (nth idx telemetry Sample.zero)
                        - Sample.distance (nth i telemetry Sample.zero))) as Hpos.
  assert (Heq : Sample.distance (nth idx telemetry Sample.zero)
                = Sample.distance (nth i telemetry Sample.zero)).
  { assert (Hz : Rabs (Sample.distance (nth idx telemetry Sample.zero)
                       - Sample.distance (nth i telemetry Sample.zero)) = 0) by lra.
    destruct (Req_dec (Sample.distance (nth idx telemetry Sample.zero)
                       - Sample.distance (nth i telemetry Sample.zero)) 0) as [H0 | H0];
      [lra |].
    apply Rabs_no_R0 in H0. contradiction. }
  destruct (Nat.lt_trichotomy idx i) as [H | [H | H]]; [| exact H |].
  - pose proof (Sorted_by_distance_nth Rlt telemetry Rlt_is_Transitive Hs idx i ltac:(lia)).
    lra.
  - pose proof (Sorted_by_distance_nth Rlt telemetry Rlt_is_Transitive Hs i idx ltac:(lia)).
    lra.
Qed.

Lemma telemetry_index_of_entry_witness :
  MonacoTrackKnowledge._get_telemetry_index straight_track
    (Sample.distance (nth 1 (MonacoTrackKnowledge.telemetry straight_track) Sample.zero))
  = 1%nat.
Proof.
  apply (telemetry_index_of_entry straight_track 1).
  - unfold straight_track. cbn [MonacoTrackKnowledge.telemetry].
    repeat constructor. unfold by_distance. cbn. lra.
  - cbn. lia.
Defined.

(** ** Curvature zones *)

Lemma curve_type_eqb_true a b : CurveType.eqb a b = true <-> a = b.
Proof. destruct a, b; cbn; split; intros H; try reflexivity; discriminate. Qed.

Lemma curve_type_eqb_false a b : CurveType.eqb a b = false <-> a <> b.
Proof. destruct a, b; cbn; split; intros H; try congruence; try reflexivity. Qed.

Lemma alternating_snoc zones a b :
  alternating (zones ++ [a]) -> Zone.type a <> Zone.type b ->
  alternating ((zones ++ [a]) ++ [b]).
Proof.
  induction zones as [| z zones IH]; intros Ha Hab.
  - cbn. auto.
  - cbn [app] in *. destruct zones as [| y zones].
    + cbn in *. tauto.
    + cbn [app alternating] in *. destruct Ha as [Hzy Ha]. split; [exact Hzy |].
      now apply IH.
Qed.

Lemma alternating_replace_last zones a b :
  alternating (zones ++ [a]) -> Zone.type b = Zone.type a ->
  alternating (zones ++ [b]).
Proof.
  induction zones as [| z zones IH]; intros Ha Hab.
  - cbn. auto.
  - cbn [app] in *. destruct zones as [| y zones].
    + cbn in *. rewrite Hab. tauto.
    + cbn [app alternating] in *. destruct Ha as [Hzy Ha]. split; [exact Hzy |].
      now apply IH.
Qed.

Lemma classify_speed_min m s c :
  MonacoTrackKnowledge.classify_speed m = c ->
  MonacoTrackKnowledge.classify_speed s = c ->
  MonacoTrackKnowledge.classify_speed (Py.min m s) = c.
Proof. intros Hm Hs. unfold Py.min. now destruct (Rlt_dec s m). Qed.

Lemma classify_speed_severity speed :
  snd (MonacoTrackKnowledge.classify_speed speed)
  = match fst (MonacoTrackKnowledge.classify_speed speed) with
    | CurveType.straight => 0
    | CurveType.fast_corner => 0.3
    | CurveType.medium_corner => 0.6
    | CurveType.slow_corner => 0.9
    end.
Proof.
  unfold MonacoTrackKnowledge.classify_speed.
  repeat match goal with |- context [Rlt_dec ?a ?b] => destruct (Rlt_dec a b) end;
    reflexivity.
Qed.

Lemma curvature_scan_zones limit entries : forall zones current_zone,
  (current_zone = None -> zones = []) ->
  Forall zone_of_class (zones ++ open_zone current_zone) ->
  alternating (zones ++ open_zone current_zone) ->
  let '(zones', current_zone') :=
    MonacoTrackKnowledge.curvature_scan limit entries zones current_zone in
  (current_zone' = None -> zones' = [])
  /\ Forall zone_of_class (zones' ++ open_zone current_zone')
  /\ alternating (zones' ++ open_zone current_zone').
Proof.
  induction entries as [| t rest IH]; intros zones current_zone Hn Hok Halt;
    cbn [MonacoTrackKnowledge.curvature_scan].
  - auto.
  - destruct (Py.ltb limit (Sample.distance t)); [auto |].
    cbv zeta.
    destruct (MonacoTrackKnowledge.classify_speed (Sample.speed t))
      as [curve_type severity] eqn:Ec.
    destruct current_zone as [zone |].
    + destruct (CurveType.eqb (Zone.type zone) curve_type) eqn:Et.
      * apply curve_type_eqb_true in Et.
        apply IH; [discriminate | |].
        -- cbn [open_zone] in *. apply Forall_app in Hok. destruct Hok as [Hz Hl].
           apply Forall_app. split; [exact Hz |].
           inversion Hl as [| ? ? (He & Hm & Hle) _]; subst.
           constructor; [| constructor].
           unfold zone_of_class.
           cbn [Zone.type Zone.severity Zone.entry_speed Zone.min_speed].
           split; [exact He |]. split.
           ++ apply classify_speed_min; [exact Hm |].
              rewrite Ec. f_equal.
              pose proof (classify_speed_severity (Sample.speed t)) as H1.
              pose proof (classify_speed_severity (Zone.min_speed zone)) as H2.
              rewrite Ec in H1. rewrite Hm in H2. cbn [fst snd] in H1, H2.
              rewrite H1, H2. reflexivity.
           ++ eapply Rle_trans; [apply py_min_le_l | exact Hle].
        -- cbn [open_zone] in *.
           eapply alternating_replace_last; [exact Halt | reflexivity].
      * apply curve_type_eqb_false in Et.
        apply IH; [discriminate | |].
        -- cbn [open_zone] in *. apply Forall_app. split; [exact Hok |].
           constructor; [| constructor]. unfold zone_of_class.
           cbn [Zone.type Zone.severity Zone.entry_speed Zone.min_speed].
           repeat split; try exact Ec. lra.
        -- cbn [open_zone] in *. apply alternating_snoc; [exact Halt |].
           cbn [Zone.type]. exact Et.
    + rewrite (Hn eq_refl) in *. apply IH; [discriminate | |].
      * cbn [open_zone app]. constructor; [| constructor]. unfold zone_of_class.
        cbn [Zone.type Zone.severity Zone.entry_speed Zone.min_speed].
        repeat split; try exact Ec. lra.
      * cbn. exact I.
Qed.

(** X15.  [_analyze_curvature] fails exactly when [start_idx] is not an
    index of the telemetry.  The zones it returns alternate in type, and
    each zone has the type and severity of the speed class in which both
    its entry speed and its minimum speed lie, the minimum not above the
    entry speed. *)
Theorem curvature_zones_alternate
  (self : MonacoTrackKnowledge.t) (start_idx : nat) (lookahead : R) :
  match MonacoTrackKnowledge._analyze_curvature self start_idx lookahead with
  | None => (length (MonacoTrackKnowledge.telemetry self) <= start_idx)%nat
  | Some zones =>
      (start_idx < length (MonacoTrackKnowledge.telemetry self))%nat
      /\ alternating zones
      /\ Forall zone_of_class zones
  end.
Proof.
  unfold MonacoTrackKnowledge._analyze_curvature.
  destruct (nth_error (MonacoTrackKnowledge.telemetry self) start_idx) as [start |] eqn:En.
  - cbv zeta.
    pose proof (curvature_scan_zones
                  (Sample.distance start + lookahead)
                  (firstn 200 (skipn start_idx (MonacoTrackKnowledge.telemetry self)))
                  [] None (fun _ => eq_refl) (Forall_nil _) I) as H.
    destruct (MonacoTrackKnowledge.curvature_scan _ _ _ _) as [zones current_zone].
    destruct H as (_ & Hok & Halt).
    assert (Hlt : (start_idx < length (MonacoTrackKnowledge.telemetry self))%nat).
    { apply nth_error_Some. congruence. }
    destruct current_zone as [zone |]; cbn [open_zone] in *.
    + auto.
    + rewrite app_nil_r in *. auto.
  - now apply nth_error_None.
Qed.

(** ** Section information *)

Lemma nth_error_nth_default {A} (l : list A) (d : A) i :
  (i < length l)%nat -> nth_error l i = Some (nth i l d).
Proof. intros H. now apply nth_error_nth'. Qed.

Lemma leb_true a b : Py.leb a b = true <-> a <= b.
Proof.
  unfold Py.leb. destruct (Rle_dec a b); split; intros; try lra; try discriminate; auto.
Qed.

Lemma analyze_curvature_returns self start_idx lookahead :
  (start_idx < length (MonacoTrackKnowledge.telemetry self))%nat ->
  exists zones, MonacoTrackKnowledge._analyze_curvature self start_idx lookahead = Some zones.
Proof.
  intros Hlt. unfold MonacoTrackKnowledge._analyze_curvature.
  rewrite (nth_error_nth_default _ Sample.zero _ Hlt). cbv zeta.
  destruct (MonacoTrackKnowledge.curvature_scan _ _ _ _) as [zones [zone |]]; eauto.
Qed.

Lemma calculate_speed_targets_returns self start_idx lookahead :
  (start_idx < length (MonacoTrackKnowledge.telemetry self))%nat ->
  exists targets,
    MonacoTrackKnowledge._calculate_speed_targets self start_idx lookahead = Some targets.
Proof.
  intros Hlt. unfold MonacoTrackKnowledge._calculate_speed_targets.
  rewrite (nth_error_nth_default _ Sample.zero _ Hlt). eauto.
Qed.

Lemma first_of_filter {A} (f : A -> bool) (l : list A) :
  match filter f l with
  | [] => None
  | a :: _ => Some a
  end = find f l.
Proof.
  induction l as [| a l IH]; [reflexivity |]. cbn [filter find].
  destruct (f a); [reflexivity | exact IH].
Qed.

Lemma section_info_fields self current_distance lookahead info :
  MonacoTrackKnowledge.get_track_section_info self current_distance lookahead = Some info ->
  MonacoTrackKnowledge.telemetry self <> []
  /\ MonacoTrackKnowledge.track_length self <> 0
  /\ SectionInfo.next_turn info = next_turn_within self current_distance lookahead
  /\ SectionInfo.section_type info
     = MonacoTrackKnowledge._classify_section current_distance (SectionInfo.next_turn info)
  /\ SectionInfo.racing_line_strategy info
     = MonacoTrackKnowledge._get_racing_line_strategy
         current_distance (SectionInfo.next_turn info)
  /\ SectionInfo.distance_to_next_turn info
     = match SectionInfo.next_turn info with
       | Some next_turn => Some (Turn.braking_point next_turn - current_distance)
       | None => None
       end
  /\ SectionInfo.track_progress_pct info
     = current_distance / MonacoTrackKnowledge.track_length self * 100
  /\ MonacoTrackKnowledge._analyze_curvature
       self (MonacoTrackKnowledge._get_telemetry_index self current_distance) lookahead
     = Some (SectionInfo.curvature_zones info)
  /\ MonacoTrackKnowledge._calculate_speed_targets
       self (MonacoTrackKnowledge._get_telemetry_index self current_distance) lookahead
     = Some (SectionInfo.speed_targets info).
Proof.
  unfold MonacoTrackKnowledge.get_track_section_info. cbv zeta.
  destruct (MonacoTrackKnowledge._analyze_curvature _ _ _) as [zones |] eqn:Ez;
    [| discriminate].
  destruct (MonacoTrackKnowledge._calculate_speed_targets _ _ _) as [targets |] eqn:Es;
    [| discriminate].
  destruct (Py.eqb (MonacoTrackKnowledge.track_length self) 0) eqn:El; [discriminate |].
  intros H. injection H as <-.
  cbn [SectionInfo.next_turn SectionInfo.section_type SectionInfo.racing_line_strategy
       SectionInfo.distance_to_next_turn SectionInfo.track_progress_pct
       SectionInfo.curvature_zones SectionInfo.speed_targets].
  apply eqb_false in El.
  assert (Hne : MonacoTrackKnowledge.telemetry self <> []).
  { intros E. unfold MonacoTrackKnowledge._analyze_curvature,
      MonacoTrackKnowledge._get_telemetry_index in Ez.
    rewrite E in Ez. cbn in Ez. discriminate. }
  unfold next_turn_within. rewrite !first_of_filter.
  repeat split; try assumption.
Qed.

Lemma section_info_returns self current_distance lookahead :
  MonacoTrackKnowledge.telemetry self <> [] ->
  MonacoTrackKnowledge.track_length self <> 0 ->
  exists info,
    MonacoTrackKnowledge.get_track_section_info self current_distance lookahead = Some info.
Proof.
  intros Hne Hlen. unfold MonacoTrackKnowledge.get_track_section_info. cbv zeta.
  destruct (telemetry_index_spec self current_distance Hne) as (Hidx & _). cbv zeta in Hidx.
  destruct (analyze_curvature_returns self _ lookahead Hidx) as [zones ->].
  destruct (calculate_speed_targets_returns self _ lookahead Hidx) as [targets ->].
  rewrite (eqb_nonzero _ Hlen). eauto.
Qed.

Lemma section_type_ahead self current_distance lookahead info :
  MonacoTrackKnowledge.get_track_section_info self current_distance lookahead = Some info ->
  SectionInfo.section_type info <> SectionType.apex_zone
  /\ SectionInfo.section_type info <> SectionType.corner_exit
  /\ SectionInfo.racing_line_strategy info <> Strategy.corner_exit.
Proof.
  intros Ei.
  destruct (section_info_fields _ _ _ _ Ei) as (_ & _ & Hn & Hs & Hr & _).
  rewrite Hs, Hr. unfold next_turn_within in Hn.
  destruct (SectionInfo.next_turn info) as [turn |].
  - symmetry in Hn. apply find_some in Hn. destruct Hn as [_ Ht].
    apply andb_prop in Ht. destruct Ht as [H1 _]. apply ltb_true in H1.
    unfold MonacoTrackKnowledge._classify_section,
      MonacoTrackKnowledge._get_racing_line_strategy. cbv zeta.
    assert (Ha : 0 < Turn.apex_distance turn - current_distance) by lra.
    repeat match goal with
           | |- context [Rlt_dec ?a ?b] => destruct (Rlt_dec a b)
           end;
      try contradiction; repeat split; discriminate.
  - cbn [MonacoTrackKnowledge._classify_section
         MonacoTrackKnowledge._get_racing_line_strategy].
    repeat split; discriminate.
Qed.


Lemma find_none_forall {A} (f : A -> bool) (l : list A) :
  (forall a, In a l -> f a = false) -> find f l = None.
Proof.
  induction l as [| a l IH]; intros H; [reflexivity |]. cbn [find].
  rewrite (H a) by now left. apply IH. intros b Hb. apply H. now right.
Qed.

Lemma find_within_sorted (turns : list Turn.t) (lower upper : R) :
  StronglySorted (by_apex_distance Rle) turns ->
  find (fun turn =>
          (Py.ltb lower (Turn.apex_distance turn)
           && Py.leb (Turn.apex_distance turn) upper)%bool) turns
  = match find (fun turn => Py.ltb lower (Turn.apex_distance turn)) turns with
    | Some turn => if Py.leb (Turn.apex_distance turn) upper then Some turn else None
    | None => None
    end.
Proof.
  induction turns as [| a turns IH]; intros Hs; [reflexivity |].
  inversion Hs as [| ? ? Hs' Hall]; subst. cbn [find].
  destruct (Py.ltb lower (Turn.apex_distance a)) eqn:Ea; cbn [andb].
  - destruct (Py.leb (Turn.apex_distance a) upper) eqn:Eu; [reflexivity |].
    apply find_none_forall. intros b Hb.
    rewrite Forall_forall in Hall. specialize (Hall b Hb). unfold by_apex_distance in Hall.
    apply andb_false_iff. right.
    unfold Py.leb in *. destruct (Rle_dec (Turn.apex_distance a) upper); [discriminate |].
    destruct (Rle_dec (Turn.apex_distance b) upper); [lra | reflexivity].
  - now apply IH.
Qed.

(** X17.  On a loaded lap whose distances never decrease, the next turn of
    the section information is the upcoming turn when its apex lies within
    the lookahead and none otherwise, and the distance to the next turn,
    when there is one, is below the lookahead. *)
Theorem section_next_turn_is_upcoming_turn
  (raw : list RawSample.t) (track : MonacoTrackKnowledge.t)
  (current_distance lookahead : R) (info : SectionInfo.t) :
  MonacoTrackKnowledge.init raw = Some track ->
  Sorted (by_distance Rle) (MonacoTrackKnowledge.telemetry track) ->
  MonacoTrackKnowledge.get_track_section_info track current_distance lookahead
  = Some info ->
  SectionInfo.next_turn info
  = match MonacoTrackKnowledge.get_upcoming_turn track current_distance with
    | Some turn =>
        if Py.leb (Turn.apex_distance turn) (current_distance + lookahead)
        then Some turn else None
    | None => None
    end
  /\ match SectionInfo.distance_to_next_turn info with
     | Some distance_to_next_turn => distance_to_next_turn < lookahead
     | None => SectionInfo.next_turn info = None
     end.
Proof.
  intros Hi Hs Hinfo.
  destruct (section_info_fields _ _ _ _ Hinfo) as (_ & _ & Hn & _ & _ & Hd & _).
  destruct (init_all_fields raw track Hi) as (telemetry & _ & Ht).
  assert (Hc : MonacoTrackKnowledge.critical_turns track
               = MonacoTrackKnowledge._analyze_critical_turns
                   (MonacoTrackKnowledge._find_braking_zones
                      (MonacoTrackKnowledge.telemetry track))
                   (MonacoTrackKnowledge._find_apex_points
                      (MonacoTrackKnowledge.telemetry track)))
    by (rewrite Ht; reflexivity).
  assert (Hsorted : StronglySorted (by_apex_distance Rle)
                      (MonacoTrackKnowledge.critical_turns track)).
  { apply Sorted_StronglySorted; [exact by_apex_distance_Transitive |].
    rewrite Hc. apply turns_sorted; [exact Rle_is_Transitive | exact Hs]. }
  split.
  - rewrite Hn. unfold next_turn_within, MonacoTrackKnowledge.get_upcoming_turn.
    now apply find_within_sorted.
  - rewrite Hd. unfold next_turn_within in Hn.
    destruct (SectionInfo.next_turn info) as [turn |]; [| reflexivity].
    symmetry in Hn. apply find_some in Hn. destruct Hn as [Hin Hw].
    apply andb_prop in Hw. destruct Hw as [_ Hw]. apply leb_true in Hw.
    rewrite Hc in Hin.
    destruct (critical_turn_characterised _ _ turn Hin) as (apex & bz & _ & _ & Hb & _ & ->).
    cbn [Turn.braking_point Turn.apex_distance] in *. lra.
Qed.

Lemma section_next_turn_is_upcoming_turn_witness :
  exists track info,
    MonacoTrackKnowledge.init repeated_sample_lap = Some track
    /\ MonacoTrackKnowledge.get_track_section_info track 0 200 = Some info
    /\ SectionInfo.next_turn info
       = match MonacoTrackKnowledge.get_upcoming_turn track 0 with
         | Some turn => if Py.leb (Turn.apex_distance turn) (0 + 200) then Some turn else None
         | None => None
         end
    /\ match SectionInfo.distance_to_next_turn info with
       | Some distance_to_next_turn => distance_to_next_turn < 200
       | None => SectionInfo.next_turn info = None
       end.
Proof.
  destruct repeated_sample_lap_loaded as (track & Hi & Hs & _ & Hl).
  destruct (init_not_empty _ _ Hi) as [_ Hne].
  destruct (section_info_returns track 0 200 Hne ltac:(lra)) as [info Hinfo].
  exists track, info. split; [exact Hi |]. split; [exact Hinfo |].
  exact (section_next_turn_is_upcoming_turn repeated_sample_lap track 0 200 info Hi Hs Hinfo).
Defined.

(** ** Guidance *)

Lemma guidance_fields self current_distance guidance :
  MonacoTrackKnowledge.get_optimal_speed_and_angle self current_distance = Some guidance ->
  let telemetry := MonacoTrackKnowledge.telemetry self in
  let idx := MonacoTrackKnowledge._get_telemetry_index self current_distance in
  exists info,
    MonacoTrackKnowledge.get_track_section_info
      self current_distance MonacoTrackKnowledge.default_lookahead = Some info
    /\ (idx < length telemetry)%nat
    /\ Guidance.optimal_speed guidance = Sample.speed (nth idx telemetry Sample.zero)
    /\ Guidance.reference_throttle guidance
       = Sample.throttle (nth idx telemetry Sample.zero)
    /\ Guidance.reference_brake guidance = Sample.brake (nth idx telemetry Sample.zero)
    /\ Guidance.section_type guidance = SectionInfo.section_type info
    /\ Guidance.next_turn_info guidance = SectionInfo.next_turn info
    /\ Guidance.recommended_strategy guidance = SectionInfo.racing_line_strategy info
    /\ (-45 <= Guidance.steering_angle guidance <= 45)
    /\ ((0 < idx < length telemetry - 1)%nat \/ Guidance.steering_angle guidance = 0).
Proof.
  unfold MonacoTrackKnowledge.get_optimal_speed_and_angle. cbv zeta.
  set (idx := MonacoTrackKnowledge._get_telemetry_index self current_distance).
  destruct (nth_error (MonacoTrackKnowledge.telemetry self) idx) as [reference_point |] eqn:En;
    [| discriminate].
  destruct (MonacoTrackKnowledge.get_track_section_info _ _ _) as [info |];
    [| discriminate].
  intros H. injection H as <-.
  assert (Hlt : (idx < length (MonacoTrackKnowledge.telemetry self))%nat).
  { apply nth_error_Some. congruence. }
  rewrite (nth_error_nth_default _ Sample.zero _ Hlt) in En. injection En as <-.
  exists info.
  cbn [Guidance.optimal_speed Guidance.reference_throttle Guidance.reference_brake
       Guidance.section_type Guidance.next_turn_info Guidance.recommended_strategy
       Guidance.steering_angle].
  repeat (split; [first [reflexivity | exact Hlt] |]).
  destruct ((0 <? idx)%nat && (idx <? length (MonacoTrackKnowledge.telemetry self) - 1)%nat)%bool
    eqn:Eb.
  - apply andb_prop in Eb. destruct Eb as [E1 E2].
    apply Nat.ltb_lt in E1. apply Nat.ltb_lt in E2.
    split; [| left; lia].
    split; [apply py_max_le_l |].
    unfold Py.max. destruct (Rlt_dec (-45) _); [apply py_min_le_l | lra].
  - split; [lra | now right].
Qed.

Lemma guidance_returns self current_distance :
  MonacoTrackKnowledge.telemetry self <> [] ->
  MonacoTrackKnowledge.track_length self <> 0 ->
  exists guidance,
    MonacoTrackKnowledge.get_optimal_speed_and_angle self current_distance = Some guidance.
Proof.
  intros Hne Hnz. unfold MonacoTrackKnowledge.get_optimal_speed_and_angle. cbv zeta.
  destruct (telemetry_index_spec self current_distance Hne) as (Hidx & _).
  cbv zeta in Hidx.
  rewrite (nth_error_nth_default _ Sample.zero _ Hidx).
  destruct (section_info_returns self current_distance
              MonacoTrackKnowledge.default_lookahead Hne Hnz) as [info ->].
  eauto.
Qed.

(** X18.  [get_optimal_speed_and_angle] fails exactly on an empty telemetry
    and on a track of length 0: a call that fails has one of the two, and a
    call that returns has neither.  Otherwise the optimal speed is the speed
    of the telemetry entry [_get_telemetry_index] finds, the steering angle
    lies between -45 and 45 degrees and is 0 when that entry is the first
    or the last one, and the section type is never the apex zone or the
    corner exit. *)
Theorem guidance_steering_angle_bounded
  (self : MonacoTrackKnowledge.t) (current_distance : R) :
  let telemetry := MonacoTrackKnowledge.telemetry self in
  let idx := MonacoTrackKnowledge._get_telemetry_index self current_distance in
  match MonacoTrackKnowledge.get_optimal_speed_and_angle self current_distance with
  | None => telemetry = [] \/ MonacoTrackKnowledge.track_length self = 0
  | Some guidance =>
      telemetry <> []
      /\ MonacoTrackKnowledge.track_length self <> 0
      /\ (idx < length telemetry)%nat
      /\ Guidance.optimal_speed guidance = Sample.speed (nth idx telemetry Sample.zero)
      /\ -45 <= Guidance.steering_angle guidance <= 45
      /\ ((0 < idx < length telemetry - 1)%nat \/ Guidance.steering_angle guidance = 0)
      /\ Guidance.section_type guidance <> SectionType.apex_zone
      /\ Guidance.section_type guidance <> SectionType.corner_exit
  end.
Proof.
  cbv zeta.
  destruct (MonacoTrackKnowledge.get_optimal_speed_and_angle self current_distance)
    as [guidance |] eqn:Eg.
  - destruct (guidance_fields self current_distance guidance Eg)
      as (info & Hi & Hlt & Hs & _ & _ & Hst & _ & _ & Hb & Hz).
    destruct (section_type_ahead _ _ _ _ Hi) as (Hp1 & Hp2 & _).
    destruct (section_info_fields _ _ _ _ Hi) as (Hne & Hnz & _).
    rewrite Hst. repeat split; try assumption; try apply Hb.
  - destruct (MonacoTrackKnowledge.telemetry self) as [| entry entries] eqn:Et; [now left |].
    assert (Hne : MonacoTrackKnowledge.telemetry self <> []) by (rewrite Et; discriminate).
    destruct (Req_dec (MonacoTrackKnowledge.track_length self) 0) as [Hz | Hnz];
      [now right |].
    destruct (guidance_returns self current_distance Hne Hnz) as [guidance Hg].
    congruence.
Qed.

(** ** The racing agent *)

Lemma wrap_down_spec rounds : forall heading_error,
  heading_error <= PI + 2 * PI * INR rounds ->
  let wrapped := AIRacingAgent.wrap_down rounds heading_error in
  wrapped <= PI
  /\ (heading_error <= PI -> wrapped = heading_error)
  /\ (PI < heading_error -> - PI < wrapped)
  /\ exists k, wrapped = heading_error - 2 * PI * INR k.
Proof.
  pose proof PI_RGT_0 as Hpi.
  induction rounds as [| rounds IH]; intros e He; cbn [AIRacingAgent.wrap_down]; cbv zeta.
  - cbn [INR] in He. repeat split; try lra. exists 0%nat. cbn [INR]. lra.
  - destruct (Rlt_dec PI e) as [Hgt | Hle].
    + rewrite S_INR in He.
      destruct (IH (e - 2 * PI) ltac:(lra)) as (H1 & H2 & H3 & (k & Hk)). cbv zeta in *.
      split; [exact H1 |]. split; [lra |]. split.
      * intros _. destruct (Rle_dec (e - 2 * PI) PI) as [Hs | Hs].
        -- rewrite (H2 Hs). lra.
        -- apply H3. lra.
      * exists (S k). rewrite S_INR, Hk. lra.
    + repeat split; try lra. exists 0%nat. cbn [INR]. lra.
Qed.

Lemma wrap_up_spec rounds : forall heading_error,
  - PI - 2 * PI * INR rounds <= heading_error ->
  let wrapped := AIRacingAgent.wrap_up rounds heading_error in
  - PI <= wrapped
  /\ (- PI <= heading_error -> wrapped = heading_error)
  /\ (heading_error < - PI -> wrapped < PI)
  /\ exists k, wrapped = heading_error + 2 * PI * INR k.
Proof.
  pose proof PI_RGT_0 as Hpi.
  induction rounds as [| rounds IH]; intros e He; cbn [AIRacingAgent.wrap_up]; cbv zeta.
  - cbn [INR] in He. repeat split; try lra. exists 0%nat. cbn [INR]. lra.
  - destruct (Rlt_dec e (- PI)) as [Hlt | Hge].
    + rewrite S_INR in He.
      destruct (IH (e + 2 * PI) ltac:(lra)) as (H1 & H2 & H3 & (k & Hk)). cbv zeta in *.
      split; [exact H1 |]. split; [lra |]. split.
      * intros _. destruct (Rle_dec (- PI) (e + 2 * PI)) as [Hs | Hs].
        -- rewrite (H2 Hs). lra.
        -- apply H3. lra.
      * exists (S k). rewrite S_INR, Hk. lra.
    + repeat split; try lra. exists 0%nat. cbn [INR]. lra.
Qed.

Lemma enough_rounds_covers heading_error :
  Rabs heading_error <= 2 * PI * INR (AIRacingAgent.enough_rounds heading_error).
Proof.
  pose proof PI_RGT_0 as Hpi. unfold AIRacingAgent.enough_rounds.
  set (q := Rabs heading_error / (2 * PI)).
  assert (Hq : 0 <= q).
  { unfold q. apply Rmult_le_pos; [apply Rabs_pos |].
    left. apply Rinv_0_lt_compat. lra. }
  destruct (archimed q) as [Hup _].
  assert (Hz : (0 <= up q)%Z).
  { apply le_IZR. lra. }
  rewrite INR_IZR_INZ, Z2Nat.id by exact Hz.
  assert (He : Rabs heading_error = q * (2 * PI)) by (unfold q; field; lra).
  rewrite He. nra.
Qed.

(** X19.  The two normalisation loops of [decide_controls] stop within the
    rounds allowed for them, and leave the heading error between -pi and
    pi, changed by a whole number of turns; an error already in that range
    is left as it is. *)
Theorem normalize_heading_error_range (heading_error : R) :
  let normalized := AIRacingAgent.normalize_heading_error heading_error in
  - PI <= normalized <= PI
  /\ (exists k, normalized = heading_error + 2 * PI * IZR k)
  /\ (heading_error < - PI \/ PI < heading_error \/ normalized = heading_error).
Proof.
  pose proof PI_RGT_0 as Hpi. cbv zeta. unfold AIRacingAgent.normalize_heading_error.
  pose proof (enough_rounds_covers heading_error) as Hr1.
  assert (Ha : heading_error <= Rabs heading_error /\ - Rabs heading_error <= heading_error).
  { split; [apply Rle_abs |]. pose proof (Rle_abs (- heading_error)) as H.
    rewrite Rabs_Ropp in H. lra. }
  destruct (wrap_down_spec (AIRacingAgent.enough_rounds heading_error) heading_error
              ltac:(lra)) as (Hd1 & Hd2 & Hd3 & (k1 & Hk1)).
  cbv zeta in *.
  set (e1 := AIRacingAgent.wrap_down _ heading_error) in *.
  pose proof (enough_rounds_covers e1) as Hr2.
  assert (Ha1 : e1 <= Rabs e1 /\ - Rabs e1 <= e1).
  { split; [apply Rle_abs |]. pose proof (Rle_abs (- e1)) as H.
    rewrite Rabs_Ropp in H. lra. }
  destruct (wrap_up_spec (AIRacingAgent.enough_rounds e1) e1 ltac:(lra))
    as (Hu1 & Hu2 & Hu3 & (k2 & Hk2)).
  cbv zeta in *.
  set (e2 := AIRacingAgent.wrap_up _ e1) in *.
  split; [| split].
  - split; [exact Hu1 |].
    destruct (Rle_dec (- PI) e1) as [Hs | Hs]; [rewrite (Hu2 Hs); exact Hd1 |].
    left. apply Hu3. lra.
  - exists (Z.of_nat k2 - Z.of_nat k1)%Z.
    rewrite minus_IZR, <- !INR_IZR_INZ, Hk2, Hk1. lra.
  - destruct (Rlt_dec heading_error (- PI)) as [H1 | H1]; [now left | right].
    destruct (Rlt_dec PI heading_error) as [H2 | H2]; [now left | right].
    rewrite Hu2; [apply Hd2; lra |]. rewrite Hd2; lra.
Qed.

Lemma current_phase_ahead turn distance :
  distance < Turn.apex_distance turn ->
  let '(phase, dist_to_turn, braking_point) :=
    AIRacingAgent.current_phase (Some turn) distance in
  dist_to_turn = Turn.apex_distance turn - distance
  /\ braking_point = Turn.braking_point turn - distance
  /\ ((phase = Phase.braking /\ braking_point < 10 /\ 10 < dist_to_turn)
      \/ (phase = Phase.apex /\ dist_to_turn < 10)
      \/ (phase = Phase.turn_in /\ 10 <= dist_to_turn < 50
          /\ (10 <= braking_point \/ dist_to_turn = 10))
      \/ (phase = Phase.straight /\ 50 <= dist_to_turn /\ 10 <= braking_point)).
Proof.
  intros Hahead. unfold AIRacingAgent.current_phase. cbv zeta.
  split; [reflexivity |]. split; [reflexivity |].
  set (d := Turn.apex_distance turn - distance).
  set (b := Turn.braking_point turn - distance).
  assert (Hd : 0 < d) by (unfold d; lra).
  destruct (Rlt_dec d (-50)); [lra |].
  unfold Py.ltb.
  destruct (Rlt_dec b 10), (Rlt_dec 10 d), (Rlt_dec d 10), (Rlt_dec (-20) d),
    (Rlt_dec d 50); cbn [andb]; try lra;
    try (left; repeat split; lra);
    try (right; left; repeat split; lra);
    try (right; right; left; repeat split; lra);
    try (right; right; right; repeat split; lra).
Qed.

(** X20.  [decide_controls] never treats the car as past the turn: the
    upcoming turn is always ahead, so the phase is never the exit one and
    the throttle is 100, 50, 30 or 0.  Without an upcoming turn the car is
    on a straight at full throttle and no brake.  With one, the controls
    follow the distances to its apex and to its braking point: braking
    (throttle 0) when the braking point is less than 10 ahead and the apex
    more than 10, the apex phase (throttle 30) when the apex is less than
    10 ahead, turning in (throttle 50, brake 20) when it is less than 50
    ahead, full throttle otherwise.  The steering lies in [-1, 1] and the
    decision is appended to the log. *)
Theorem decide_controls_by_phase
  (self : AIRacingAgent.t) (state : CarState.t) (time : R) :
  let '(self', (throttle, brake, steering)) :=
    AIRacingAgent.decide_controls self state time in
  - 1 <= steering <= 1
  /\ (exists decision,
        AIRacingAgent.current_decisions self'
        = AIRacingAgent.current_decisions self ++ [decision]
        /\ AIDecision.current_turn_phase decision <> Phase.exit
        /\ AIDecision.throttle_decision decision = throttle
        /\ AIDecision.brake_decision decision = brake
        /\ AIDecision.steering_decision decision = steering)
  /\ match MonacoTrackKnowledge.get_upcoming_turn
             (AIRacingAgent.track self) (CarState.distance state) with
     | None => throttle = 100 /\ brake = 0
     | Some turn =>
         let dist_to_turn := Turn.apex_distance turn - CarState.distance state in
         let braking_point := Turn.braking_point turn - CarState.distance state in
         0 < dist_to_turn
         /\ ((braking_point < 10 /\ 10 < dist_to_turn
              /\ throttle = 0
              /\ brake = Py.min 100 ((CarState.speed state * 3.6 - Turn.apex_speed turn) / 2)
                         * AIRacingAgent.brake_aggression self)
             \/ (dist_to_turn < 10 /\ throttle = 30 /\ brake = 0)
             \/ (10 <= dist_to_turn < 50 /\ (10 <= braking_point \/ dist_to_turn = 10)
                 /\ throttle = 50 /\ brake = 20)
             \/ (50 <= dist_to_turn /\ 10 <= braking_point
                 /\ throttle = 100 /\ brake = 0))
     end.
Proof.
  unfold AIRacingAgent.decide_controls. cbv zeta.
  pose proof (find_first
                (fun turn => Py.ltb (CarState.distance state) (Turn.apex_distance turn))
                (MonacoTrackKnowledge.critical_turns (AIRacingAgent.track self))) as Hf.
  unfold MonacoTrackKnowledge.get_upcoming_turn.
  assert (Hsteer : forall nearest, - 1 <= AIRacingAgent.steering_for nearest state <= 1).
  { intros [nearest |]; unfold AIRacingAgent.steering_for; cbv zeta;
      [apply clip_range; lra | lra]. }
  destruct (find _ _) as [turn |].
  - destruct Hf as (_ & _ & _ & Ht & _). apply ltb_true in Ht.
    pose proof (current_phase_ahead turn (CarState.distance state) Ht) as Hp.
    destruct (AIRacingAgent.current_phase (Some turn) (CarState.distance state))
      as [[phase dist_to_turn] braking_point].
    destruct Hp as (-> & -> & Hp).
    split; [apply Hsteer |]. split.
    + eexists. split; [reflexivity |].
      cbn [AIDecision.current_turn_phase AIDecision.throttle_decision
           AIDecision.brake_decision AIDecision.steering_decision].
      repeat split.
      destruct Hp as [(-> & _) | [(-> & _) | [(-> & _) | (-> & _)]]]; discriminate.
    + cbv zeta. split; [lra |].
      destruct Hp as [(-> & H1 & H2) | [(-> & H1) | [(-> & H1 & H2) | (-> & H1 & H2)]]];
        cbn [AIRacingAgent.throttle_for AIRacingAgent.brake_for].
      * left. repeat split; assumption.
      * right. left. repeat split; assumption.
      * right. right. left. repeat split; try assumption; apply H1.
      * right. right. right. repeat split; assumption.
  - cbn [AIRacingAgent.current_phase AIRacingAgent.throttle_for AIRacingAgent.brake_for].
    split; [apply Hsteer |]. split; [| split; reflexivity].
    eexists. split; [reflexivity |].
    cbn [AIDecision.current_turn_phase AIDecision.throttle_decision
         AIDecision.brake_decision AIDecision.steering_decision].
    repeat split. discriminate.
Qed.

(** ** The observation *)

Lemma observation_returns self :
  MonacoTrackKnowledge.racing_line (RacingEnv.track self) <> [] ->
  RacingEnv.observation_fails self = false ->
  exists obs,
    RacingEnv._get_observation self = Some obs
    /\ length obs = 12%nat
    /\ nth 0 obs 0 = CarState.speed (RacingEnv.state self) / 100
    /\ 0 <= nth 1 obs 0
    /\ nth 8 obs 0 = CarState.throttle (RacingEnv.state self) / 100
    /\ nth 9 obs 0 = CarState.brake (RacingEnv.state self) / 100
    /\ nth 10 obs 0 = CarState.steering (RacingEnv.state self)
    /\ nth 11 obs 0 = CarState.tire_temp (RacingEnv.state self) / 100.
Proof.
  intros Hline Hobs. unfold RacingEnv.observation_fails in Hobs.
  destruct (MonacoTrackKnowledge.telemetry (RacingEnv.track self)) as [| entry entries] eqn:Et;
    [discriminate |].
  apply eqb_false in Hobs.
  assert (Hne : MonacoTrackKnowledge.telemetry (RacingEnv.track self) <> [])
    by (rewrite Et; discriminate).
  unfold RacingEnv._get_observation. cbv zeta.
  destruct (nearest_line_point_exists (RacingEnv.track self)
              (CarState.x (RacingEnv.state self)) (CarState.y (RacingEnv.state self)) Hline)
    as [nearest ->].
  destruct (section_info_returns (RacingEnv.track self)
              (CarState.distance (RacingEnv.state self))
              MonacoTrackKnowledge.default_lookahead Hne Hobs) as [info Hi].
  rewrite Hi.
  destruct (guidance_returns (RacingEnv.track self)
              (CarState.distance (RacingEnv.state self)) Hne Hobs) as [guidance ->].
  destruct (SectionInfo.next_turn info) as [next_turn |];
    (eexists; split; [reflexivity |]); cbn [length nth];
    (repeat split; try reflexivity);
    (apply Rmult_le_pos; [apply sqrt_pos | lra]).
Qed.

(** X21.  [_get_observation] fails exactly on an empty racing line, an
    empty telemetry or a track of length 0; otherwise it returns twelve
    numbers. *)
Theorem observation_fails_iff (self : RacingEnv.t) :
  let track := RacingEnv.track self in
  match RacingEnv._get_observation self with
  | None =>
      MonacoTrackKnowledge.racing_line track = []
      \/ MonacoTrackKnowledge.telemetry track = []
      \/ MonacoTrackKnowledge.track_length track = 0
  | Some obs =>
      length obs = 12%nat
      /\ MonacoTrackKnowledge.racing_line track <> []
      /\ MonacoTrackKnowledge.telemetry track <> []
      /\ MonacoTrackKnowledge.track_length track <> 0
  end.
Proof.
  cbv zeta.
  destruct (RacingEnv._get_observation self) as [obs |] eqn:Eo.
  - unfold RacingEnv._get_observation in Eo. cbv zeta in Eo.
    destruct (MonacoTrackKnowledge.get_nearest_line_point _ _ _) as [nearest |] eqn:En;
      [| discriminate].
    destruct (MonacoTrackKnowledge.get_track_section_info _ _ _) as [info |] eqn:Ei;
      [| discriminate].
    destruct (section_info_fields _ _ _ _ Ei) as (Hne & Hlen & _).
    assert (Hline : MonacoTrackKnowledge.racing_line (RacingEnv.track self) <> []).
    { intros E. unfold MonacoTrackKnowledge.get_nearest_line_point in En.
      rewrite E in En. discriminate. }
    destruct (SectionInfo.next_turn info); cbv beta iota zeta in Eo;
      (destruct (MonacoTrackKnowledge.get_optimal_speed_and_angle _ _); [| discriminate]);
      injection Eo as <-; repeat split; assumption.
  - destruct (MonacoTrackKnowledge.racing_line (RacingEnv.track self)) as [| p l] eqn:El;
      [now left | right].
    destruct (MonacoTrackKnowledge.telemetry (RacingEnv.track self)) as [| e t] eqn:Et;
      [now left | right].
    destruct (Req_dec (MonacoTrackKnowledge.track_length (RacingEnv.track self)) 0)
      as [Hz | Hnz]; [exact Hz |].
    destruct (observation_returns self) as (obs & Ho & _).
    + rewrite El. discriminate.
    + unfold RacingEnv.observation_fails. rewrite Et. now apply eqb_nonzero.
    + congruence.
Qed.

(** ** What one step keeps up to date *)

Lemma step_bookkeeping self action now self' result :
  RacingEnv.step self action now = Some (self', result) ->
  let s := RacingEnv.advanced self action in
  (exists nearest,
     MonacoTrackKnowledge.get_nearest_line_point
       (RacingEnv.track self) (CarState.x s) (CarState.y s) = Some nearest
     /\ CarState.distance (RacingEnv.state self') = LinePoint.distance nearest)
  /\ RacingEnv.simulator self' = RacingEnv.simulator self
  /\ RacingEnv.last_x self' = CarState.x (RacingEnv.state self')
  /\ RacingEnv.last_y self' = CarState.y (RacingEnv.state self')
  /\ RacingEnv.last_distance self' = CarState.distance (RacingEnv.state self')
  /\ RacingEnv.best_distance self'
     = Py.max (RacingEnv.best_distance self) (CarState.distance (RacingEnv.state self'))
  /\ RacingEnv.total_physical_distance self'
     = RacingEnv.total_physical_distance self + RacingEnv.physical_movement self action
  /\ RacingEnv.position_history self'
     = (if (RacingEnv.steps self mod 10 =? 0)%nat
        then RacingEnv.position_history self
             ++ [HistoryEntry.mk (CarState.x s) (CarState.y s) (CarState.speed s * 3.6)
                                 (CarState.distance s)]
        else RacingEnv.position_history self)
  /\ CarState.heading (RacingEnv.state self') = CarState.heading s
  /\ CarState.throttle (RacingEnv.state self') = CarState.throttle s
  /\ CarState.brake (RacingEnv.state self') = CarState.brake s
  /\ CarState.steering (RacingEnv.state self') = CarState.steering s
  /\ CarState.gear (RacingEnv.state self') = CarState.gear s
  /\ CarState.rpm (RacingEnv.state self') = CarState.rpm s
  /\ CarState.vx (RacingEnv.state self') = CarState.vx s
  /\ CarState.vy (RacingEnv.state self') = CarState.vy s
  /\ CarState.tire_temp (RacingEnv.state self') = CarState.tire_temp s
  /\ CarState.fuel_kg (RacingEnv.state self') = CarState.fuel_kg s
  /\ RacingEnv.observation_fails self' = false.
Proof.
  unfold RacingEnv.step, RacingEnv.physical_movement, RacingEnv.advanced,
    RacingEnv.controls.
  destruct action as [[a0 a1] a2]. cbv zeta.
  destruct (MonacoTrackKnowledge.get_nearest_line_point _ _ _) as [nearest |] eqn:En;
    [| discriminate].
  match goal with
  | |- match RacingEnv._calculate_reward ?e ?sd ?pr now with _ => _ end = _ -> _ =>
      destruct (RacingEnv._calculate_reward e sd pr now) as [[[reward done] info] |] eqn:Ecr;
      [| discriminate];
      destruct (RacingEnv.observation_fails e) eqn:Eobs; [discriminate |];
      intros E; inversion E; subst; clear E
  end.
  split; [exists nearest; split; [reflexivity | env_fields; reflexivity] |].
  env_fields. repeat split; try reflexivity. exact Eobs.
Qed.

(** X22.  Whenever [step] returns, the observation it hands back exists:
    it has twelve components, the speed share and the position error are
    not negative, the throttle and brake shares lie in [0, 1] and the
    steering in [-1, 1]. *)
Theorem step_returns_observation
  (self : RacingEnv.t) (action : R * R * R) (now : R)
  (self' : RacingEnv.t) (result : StepResult.t) :
  RacingEnv.step self action now = Some (self', result) ->
  exists obs,
    RacingEnv._get_observation self' = Some obs
    /\ length obs = 12%nat
    /\ 0 <= nth 0 obs 0
    /\ 0 <= nth 1 obs 0
    /\ 0 <= nth 8 obs 0 <= 1
    /\ 0 <= nth 9 obs 0 <= 1
    /\ -1 <= nth 10 obs 0 <= 1.
Proof.
  intros Hstep.
  destruct (step_inversion _ _ _ _ _ Hstep) as (_ & _ & _ & Hv & _ & Htrack & _).
  destruct (step_bookkeeping _ _ _ _ _ Hstep)
    as ((nearest & Hn & _) & _ & _ & _ & _ & _ & _ & _ & _ & Ht & Hb & Hs & _ & _ & _ & _
        & _ & _ & Hobs).
  cbv zeta in *.
  assert (Hline : MonacoTrackKnowledge.racing_line (RacingEnv.track self') <> []).
  { rewrite Htrack. intros E. unfold MonacoTrackKnowledge.get_nearest_line_point in Hn.
    rewrite E in Hn. discriminate. }
  destruct (observation_returns self' Hline Hobs)
    as (obs & Ho & Hl & H0 & H1 & H8 & H9 & H10 & _).
  exists obs. split; [exact Ho |]. split; [exact Hl |].
  rewrite H0, H8, H9, H10, Hv, Ht, Hb, Hs.
  unfold RacingEnv.advanced. destruct (RacingEnv.controls action) as [[throttle brake] steering].
  destruct (update_car_state_fields (RacingEnv.simulator self) (RacingEnv.state self)
              throttle brake steering) as (Hsp & _ & _ & _ & _ & _ & Hth & Hbr & Hst).
  cbv zeta in *. rewrite Hth, Hbr, Hst.
  pose proof (clip_range throttle 0 100 ltac:(lra)).
  pose proof (clip_range brake 0 100 ltac:(lra)).
  pose proof (clip_range steering (-1) 1 ltac:(lra)).
  assert (0 <= CarState.speed
                 (update_car_state (RacingEnv.simulator self) (RacingEnv.state self)
                                   throttle brake steering))
    by (rewrite Hsp; apply py_max_le_l).
  repeat split; try lra; exact H1.
Qed.

Lemma step_returns_observation_witness :
  exists self' obs,
    RacingEnv.step parked_env idle 0 = Some (self', still_running)
    /\ RacingEnv._get_observation self' = Some obs
    /\ length obs = 12%nat
    /\ 0 <= nth 0 obs 0
    /\ 0 <= nth 1 obs 0
    /\ 0 <= nth 8 obs 0 <= 1
    /\ 0 <= nth 9 obs 0 <= 1
    /\ -1 <= nth 10 obs 0 <= 1.
Proof.
  destruct (parked_step parked_env 0 0 parked_env_parked ltac:(lia))
    as [self' [Hstep _]].
  destruct (step_returns_observation parked_env idle 0 self' still_running Hstep)
    as (obs & Hobs).
  exists self', obs. split; [exact Hstep | exact Hobs].
Defined.

(** ** Stuck detection measures speed *)

Lemma physical_movement_in_step self action :
  0 <= F1PhysicsSimulator.dt (RacingEnv.simulator self) ->
  RacingEnv.last_x self = CarState.x (RacingEnv.state self) ->
  RacingEnv.last_y self = CarState.y (RacingEnv.state self) ->
  RacingEnv.physical_movement self action
  = CarState.speed (RacingEnv.advanced self action)
    * F1PhysicsSimulator.dt (RacingEnv.simulator self).
Proof.
  intros Hdt Hx Hy. unfold RacingEnv.physical_movement, RacingEnv.advanced,
    RacingEnv.controls.
  destruct action as [[a0 a1] a2]. cbv zeta.
  unfold RacingEnv.distance_to. rewrite Hx, Hy.
  exact (displacement_length (RacingEnv.simulator self) (RacingEnv.state self)
           (Py.clip ((a0 + 1) * 50) 0 100) (Py.clip ((a1 + 1) * 50) 0 100)
           (Py.clip a2 (-1) 1) Hdt).
Qed.

(** X23.  In an environment with the simulator of [F1PhysicsSimulator()]
    whose last recorded position is the car's position, as [reset] and
    every [step] leave it, a tick counts as one without progress exactly
    when the speed after the physics update is below 1 m/s: the
    displacement of a tick is [speed * dt] with [dt = 0.01].  The step
    leaves the environment in such a state again. *)
Theorem stuck_counter_counts_slow_ticks
  (self : RacingEnv.t) (action : R * R * R) (now : R)
  (self' : RacingEnv.t) (result : StepResult.t) :
  RacingEnv.step self action now = Some (self', result) ->
  RacingEnv.simulator self = F1PhysicsSimulator.default ->
  RacingEnv.last_x self = CarState.x (RacingEnv.state self) ->
  RacingEnv.last_y self = CarState.y (RacingEnv.state self) ->
  RacingEnv.consecutive_no_progress self'
  = (if Rlt_dec (CarState.speed (RacingEnv.state self')) 1
     then S (RacingEnv.consecutive_no_progress self) else O)
  /\ RacingEnv.simulator self' = F1PhysicsSimulator.default
  /\ RacingEnv.last_x self' = CarState.x (RacingEnv.state self')
  /\ RacingEnv.last_y self' = CarState.y (RacingEnv.state self').
Proof.
  intros Hstep Hsim Hx Hy.
  destruct (step_inversion _ _ _ _ _ Hstep)
    as (_ & _ & _ & Hv & _ & _ & _ & _ & _ & _ & Hc).
  destruct (step_bookkeeping _ _ _ _ _ Hstep) as (_ & Hs & Hlx & Hly & _).
  rewrite Hs, Hsim. repeat split; try assumption.
  rewrite Hc, Hv, physical_movement_in_step; [| rewrite Hsim; cbn; lra | exact Hx | exact Hy].
  rewrite Hsim. cbn [F1PhysicsSimulator.dt F1PhysicsSimulator.default F1PhysicsSimulator.init].
  set (v := CarState.speed (RacingEnv.advanced self action)).
  destruct (Rlt_dec (v * 0.01) 0.01), (Rlt_dec v 1); try reflexivity; lra.
Qed.

Lemma stuck_counter_counts_slow_ticks_witness :
  exists self',
    RacingEnv.step parked_env idle 0 = Some (self', still_running)
    /\ RacingEnv.consecutive_no_progress self'
       = (if Rlt_dec (CarState.speed (RacingEnv.state self')) 1
          then S (RacingEnv.consecutive_no_progress parked_env) else O)
    /\ RacingEnv.simulator self' = F1PhysicsSimulator.default
    /\ RacingEnv.last_x self' = CarState.x (RacingEnv.state self')
    /\ RacingEnv.last_y self' = CarState.y (RacingEnv.state self').
Proof.
  destruct (parked_step parked_env 0 0 parked_env_parked ltac:(lia))
    as [self' [Hstep _]].
  exists self'. split; [exact Hstep |].
  apply (stuck_counter_counts_slow_ticks parked_env idle 0 self' still_running Hstep);
    reflexivity.
Defined.

(** ** Progress along the track *)

(** X24.  On a loaded lap the distance the car is credited with after a
    step is the distance of a racing-line point, so it never exceeds the
    track length; the best distance stays within the track length once it
    is within it; and a lap is reported completed only with the credited
    distance equal to the track length. *)
Theorem step_distance_within_track
  (raw : list RawSample.t) (self : RacingEnv.t) (action : R * R * R) (now : R)
  (self' : RacingEnv.t) (result : StepResult.t) :
  MonacoTrackKnowledge.init raw = Some (RacingEnv.track self) ->
  RacingEnv.step self action now = Some (self', result) ->
  let track_length := MonacoTrackKnowledge.track_length (RacingEnv.track self) in
  (exists p, In p (MonacoTrackKnowledge.racing_line (RacingEnv.track self))
             /\ CarState.distance (RacingEnv.state self') = LinePoint.distance p)
  /\ CarState.distance (RacingEnv.state self') <= track_length
  /\ RacingEnv.best_distance self' <= Py.max (RacingEnv.best_distance self) track_length
  /\ match StepResult.info result with
     | InfoCompleted _ => CarState.distance (RacingEnv.state self') = track_length
     | _ => True
     end.
Proof.
  intros Hi Hstep track_length.
  destruct (track_length_bounds raw _ Hi) as (Hmax & _).
  destruct (step_bookkeeping _ _ _ _ _ Hstep)
    as ((nearest & Hn & Hd) & _ & _ & _ & _ & Hb & _).
  assert (Hin : In nearest (MonacoTrackKnowledge.racing_line (RacingEnv.track self))).
  { exact (nearest_line_point_in _ _ _ _ Hn). }
  assert (Hle : CarState.distance (RacingEnv.state self') <= track_length).
  { rewrite Hd. now apply Hmax. }
  split; [exists nearest; split; assumption |].
  split; [exact Hle |]. split.
  - rewrite Hb. unfold Py.max.
    repeat match goal with |- context [Rlt_dec ?a ?b] => destruct (Rlt_dec a b) end; lra.
  - destruct (StepResult.info result) eqn:Einfo; try exact I.
    destruct (step_completed _ _ _ _ _ _ Hstep Einfo) as (Hge & _).
    fold track_length in Hge. lra.
Qed.

Lemma step_distance_within_track_witness :
  exists self',
    RacingEnv.step parked_env idle 0 = Some (self', still_running)
    /\ (exists p, In p (MonacoTrackKnowledge.racing_line (RacingEnv.track parked_env))
                  /\ CarState.distance (RacingEnv.state self') = LinePoint.distance p)
    /\ CarState.distance (RacingEnv.state self')
       <= MonacoTrackKnowledge.track_length (RacingEnv.track parked_env)
    /\ RacingEnv.best_distance self'
       <= Py.max (RacingEnv.best_distance parked_env)
                 (MonacoTrackKnowledge.track_length (RacingEnv.track parked_env))
    /\ match StepResult.info still_running with
       | InfoCompleted _ =>
           CarState.distance (RacingEnv.state self')
           = MonacoTrackKnowledge.track_length (RacingEnv.track parked_env)
       | _ => True
       end.
Proof.
  destruct (parked_step parked_env 0 0 parked_env_parked ltac:(lia))
    as [self' [Hstep _]].
  exists self'. split; [exact Hstep |].
  exact (step_distance_within_track straight_lap parked_env idle 0 self' still_running
           straight_track_init Hstep).
Defined.

(** ** The step limit *)

(** X25.  No episode goes on past the step limit: a step that brings the
    step count to [max_steps_per_episode] or beyond returns [done], never
    the ongoing outcome, and when it reports the timeout its reward is the
    partial credit [distance / track_length * 50]. *)
Theorem episode_ends_at_step_limit
  (self : RacingEnv.t) (action : R * R * R) (now : R)
  (self' : RacingEnv.t) (result : StepResult.t) :
  RacingEnv.step self action now = Some (self', result) ->
  (TrainingConfig.max_steps_per_episode (RacingEnv.config self)
   <= Z.of_nat (S (RacingEnv.steps self)))%Z ->
  StepResult.done result = true
  /\ RacingEnv.steps self' = S (RacingEnv.steps self)
  /\ match StepResult.info result with
     | InfoTimeout =>
         StepResult.reward result
         = CarState.distance (RacingEnv.state self')
           / MonacoTrackKnowledge.track_length (RacingEnv.track self) * 50
     | InfoOngoing _ _ _ => False
     | _ => True
     end.
Proof.
  intros Hstep Hlimit.
  destruct (step_inversion _ _ _ _ _ Hstep)
    as ((sd & pr & Hr) & _ & _ & _ & _ & Htrack & Hconfig & _ & _ & Hsteps & _).
  split; [| split; [exact Hsteps |]].
  - unfold RacingEnv._calculate_reward in Hr. cbv zeta in Hr.
    destruct (MonacoTrackKnowledge.get_nearest_line_point _ _ _); [| discriminate].
    destruct (RacingEnv._is_off_track self') as [[|] |]; try discriminate.
    + now inversion Hr.
    + destruct (_ <? _)%nat; [now inversion Hr |].
      destruct (Rlt_dec _ 0); [now inversion Hr |].
      destruct (Rle_dec _ _); [now inversion Hr |].
      rewrite Hconfig, Hsteps in Hr.
      destruct (_ <=? _)%Z eqn:E; [| apply Z.leb_gt in E; lia].
      destruct (Py.eqb _ 0); [discriminate | now inversion Hr].
  - unfold RacingEnv._calculate_reward in Hr. cbv zeta in Hr.
    destruct (MonacoTrackKnowledge.get_nearest_line_point _ _ _); [| discriminate].
    destruct (RacingEnv._is_off_track self') as [[|] |]; try discriminate.
    + injection Hr as H1 H2 H3. now rewrite <- H3.
    + destruct (_ <? _)%nat; [injection Hr as H1 H2 H3; now rewrite <- H3 |].
      destruct (Rlt_dec _ 0); [injection Hr as H1 H2 H3; now rewrite <- H3 |].
      destruct (Rle_dec _ _); [injection Hr as H1 H2 H3; now rewrite <- H3 |].
      rewrite Hconfig, Hsteps in Hr.
      destruct (_ <=? _)%Z eqn:E; [| apply Z.leb_gt in E; lia].
      destruct (Py.eqb _ 0); [discriminate |].
      injection Hr as H1 H2 H3. rewrite <- H3, <- H1, Htrack. reflexivity.
Qed.

Lemma one_step_env_usable : usable (RacingEnv.track one_step_env).
Proof. exact straight_track_usable. Qed.

Lemma episode_ends_at_step_limit_witness :
  exists self' result,
    RacingEnv.step one_step_env idle 0 = Some (self', result)
    /\ StepResult.done result = true
    /\ RacingEnv.steps self' = S (RacingEnv.steps one_step_env)
    /\ match StepResult.info result with
       | InfoTimeout =>
           StepResult.reward result
           = CarState.distance (RacingEnv.state self')
             / MonacoTrackKnowledge.track_length (RacingEnv.track one_step_env) * 50
       | InfoOngoing _ _ _ => False
       | _ => True
       end.
Proof.
  destruct (step_returns one_step_env idle 0 one_step_env_usable) as (self' & result & Hstep).
  exists self', result. split; [exact Hstep |].
  apply (episode_ends_at_step_limit one_step_env idle 0 self' result Hstep).
  cbn. lia.
Defined.

(** ** Whole runs *)

Lemma advanced_frame self action :
  CarState.tire_temp (RacingEnv.advanced self action)
  = CarState.tire_temp (RacingEnv.state self)
  /\ CarState.fuel_kg (RacingEnv.advanced self action)
     = CarState.fuel_kg (RacingEnv.state self).
Proof.
  unfold RacingEnv.advanced. destruct (RacingEnv.controls action) as [[throttle brake] steering].
  destruct (update_car_state_more_fields (RacingEnv.simulator self) (RacingEnv.state self)
              throttle brake steering) as (_ & _ & _ & _ & Ht & Hf).
  cbv zeta in *. now split.
Qed.

Lemma history_length_step steps :
  ((S steps + 9) / 10
   = (steps + 9) / 10 + (if (steps mod 10 =? 0) then 1 else 0))%nat.
Proof.
  pose proof (Nat.div_mod_eq steps 10) as Hs.
  pose proof (Nat.mod_upper_bound steps 10 ltac:(lia)) as Hr.
  set (q := (steps / 10)%nat) in *. set (r := (steps mod 10)%nat) in *.
  destruct (r =? 0)%nat eqn:E.
  - apply Nat.eqb_eq in E. rewrite Hs, E.
    replace (S (10 * q + 0) + 9)%nat with (0 + (q + 1) * 10)%nat by lia.
    replace (10 * q + 0 + 9)%nat with (9 + q * 10)%nat by lia.
    rewrite !Nat.div_add by lia. cbn. lia.
  - apply Nat.eqb_neq in E. rewrite Hs.
    replace (S (10 * q + r) + 9)%nat with (r + (q + 1) * 10)%nat by lia.
    replace (10 * q + r + 9)%nat with ((r - 1) + (q + 1) * 10)%nat by lia.
    rewrite !Nat.div_add by lia.
    rewrite (Nat.div_small r) by lia. rewrite (Nat.div_small (r - 1)) by lia. lia.
Qed.

Lemma run_frame
  (inputs : list (R * R * R * R)) (self self' : RacingEnv.t)
  (results : list StepResult.t) :
  RacingEnv.run self inputs = Some (self', results) ->
  RacingEnv.track self' = RacingEnv.track self
  /\ RacingEnv.config self' = RacingEnv.config self
  /\ RacingEnv.simulator self' = RacingEnv.simulator self
  /\ RacingEnv.boundaries self' = RacingEnv.boundaries self
  /\ CarState.tire_temp (RacingEnv.state self') = CarState.tire_temp (RacingEnv.state self)
  /\ CarState.fuel_kg (RacingEnv.state self') = CarState.fuel_kg (RacingEnv.state self).
Proof.
  revert self self' results.
  induction inputs as [| [action now] inputs IH]; intros self self' results Hrun;
    cbn [RacingEnv.run] in Hrun.
  - injection Hrun as <- <-. repeat split; reflexivity.
  - destruct (RacingEnv.step self action now) as [[self1 result] |] eqn:Hstep;
      [| discriminate].
    destruct (RacingEnv.run self1 inputs) as [[self2 results2] |] eqn:Hrest;
      [| discriminate].
    injection Hrun as <- <-.
    destruct (IH _ _ _ Hrest) as (Ht & Hc & Hs & Hb & Htt & Hf).
    destruct (step_inversion _ _ _ _ _ Hstep)
      as (_ & _ & _ & _ & _ & Ht1 & Hc1 & Hb1 & _).
    destruct (step_bookkeeping _ _ _ _ _ Hstep)
      as (_ & Hs1 & _ & _ & _ & _ & _ & _ & _ & _ & _ & _ & _ & _ & _ & _
          & Htt1 & Hf1 & _).
    destruct (advanced_frame self action) as (Htt0 & Hf0).
    cbv zeta in *. repeat split; congruence.
Qed.

(** X26.  Over any run of steps the environment keeps its track,
    configuration, simulator, boundary data and lap start time; tyre
    temperature and fuel never change; the step count grows by the number
    of steps; the best distance and the total physical distance never
    decrease; and the position history gains one entry at every step whose
    number is a multiple of ten, so that an environment whose history
    holds [ceil(steps / 10)] entries still does so afterwards. *)
Theorem run_keeps_books
  (inputs : list (R * R * R * R)) (self self' : RacingEnv.t)
  (results : list StepResult.t) :
  RacingEnv.run self inputs = Some (self', results) ->
  RacingEnv.track self' = RacingEnv.track self
  /\ RacingEnv.config self' = RacingEnv.config self
  /\ RacingEnv.simulator self' = RacingEnv.simulator self
  /\ RacingEnv.boundaries self' = RacingEnv.boundaries self
  /\ RacingEnv.lap_start_time self' = RacingEnv.lap_start_time self
  /\ CarState.tire_temp (RacingEnv.state self') = CarState.tire_temp (RacingEnv.state self)
  /\ CarState.fuel_kg (RacingEnv.state self') = CarState.fuel_kg (RacingEnv.state self)
  /\ RacingEnv.steps self' = (RacingEnv.steps self + length inputs)%nat
  /\ length results = length inputs
  /\ RacingEnv.best_distance self <= RacingEnv.best_distance self'
  /\ RacingEnv.total_physical_distance self <= RacingEnv.total_physical_distance self'
  /\ (length (RacingEnv.position_history self') + (RacingEnv.steps self + 9) / 10
      = length (RacingEnv.position_history self) + (RacingEnv.steps self' + 9) / 10)%nat.
Proof.
  revert self self' results.
  induction inputs as [| [action now] inputs IH]; intros self self' results Hrun;
    cbn [RacingEnv.run] in Hrun.
  - injection Hrun as <- <-. cbn [length]. rewrite Nat.add_0_r.
    repeat split; try reflexivity; lra.
  - destruct (RacingEnv.step self action now) as [[self1 result] |] eqn:Hstep;
      [| discriminate].
    destruct (RacingEnv.run self1 inputs) as [[self2 results2] |] eqn:Hrest;
      [| discriminate].
    injection Hrun as <- <-.
    destruct (IH _ _ _ Hrest)
      as (Ht & Hc & Hs & Hb & Hl & Htt & Hf & Hn & Hr & Hbd & Htd & Hh).
    destruct (step_inversion _ _ _ _ _ Hstep)
      as (_ & _ & _ & _ & _ & Ht1 & Hc1 & Hb1 & Hl1 & Hn1 & _).
    destruct (step_bookkeeping _ _ _ _ _ Hstep)
      as (_ & Hs1 & _ & _ & _ & Hbd1 & Htd1 & Hh1 & _ & _ & _ & _ & _ & _ & _ & _
          & Htt1 & Hf1 & _).
    destruct (advanced_frame self action) as (Htt0 & Hf0).
    cbv zeta in *. cbn [length].
    split; [congruence |]. split; [congruence |]. split; [congruence |].
    split; [congruence |]. split; [congruence |]. split; [congruence |].
    split; [congruence |]. split; [lia |]. split; [lia |]. split.
    { eapply Rle_trans; [| exact Hbd]. rewrite Hbd1. apply py_max_le_l. }
    split.
    { eapply Rle_trans; [| exact Htd]. rewrite Htd1.
      assert (0 <= RacingEnv.physical_movement self action).
      { unfold RacingEnv.physical_movement. destruct action as [[a0 a1] a2]. cbv zeta.
        apply sqrt_pos. }
      lra. }
    rewrite Hn1 in Hh.
    pose proof (history_length_step (RacingEnv.steps self)) as Hd.
    assert (Hl2 : length (RacingEnv.position_history self1)
                  = (length (RacingEnv.position_history self)
                     + (if (RacingEnv.steps self mod 10 =? 0)%nat then 1 else 0))%nat).
    { rewrite Hh1. destruct (RacingEnv.steps self mod 10 =? 0)%nat;
        [rewrite length_app; cbn [length]; lia | lia]. }
    lia.
Qed.

Lemma run_keeps_books_witness :
  exists self',
    RacingEnv.run parked_env (repeat (idle, 0) 3) = Some (self', repeat still_running 3)
    /\ RacingEnv.track self' = RacingEnv.track parked_env
    /\ RacingEnv.config self' = RacingEnv.config parked_env
    /\ RacingEnv.simulator self' = RacingEnv.simulator parked_env
    /\ RacingEnv.boundaries self' = RacingEnv.boundaries parked_env
    /\ RacingEnv.lap_start_time self' = RacingEnv.lap_start_time parked_env
    /\ CarState.tire_temp (RacingEnv.state self')
       = CarState.tire_temp (RacingEnv.state parked_env)
    /\ CarState.fuel_kg (RacingEnv.state self')
       = CarState.fuel_kg (RacingEnv.state parked_env)
    /\ RacingEnv.steps self'
       = (RacingEnv.steps parked_env + length (repeat (idle, 0) 3))%nat
    /\ length (repeat still_running 3) = length (repeat (idle, 0) 3)
    /\ RacingEnv.best_distance parked_env <= RacingEnv.best_distance self'
    /\ RacingEnv.total_physical_distance parked_env
       <= RacingEnv.total_physical_distance self'
    /\ (length (RacingEnv.position_history self') + (RacingEnv.steps parked_env + 9) / 10
        = length (RacingEnv.position_history parked_env)
          + (RacingEnv.steps self' + 9) / 10)%nat.
Proof.
  destruct (parked_run 3 parked_env 0 parked_env_parked ltac:(lia)) as [self' [Hrun _]].
  exists self'. split; [exact Hrun |].
  exact (run_keeps_books (repeat (idle, 0) 3) parked_env self' (repeat still_running 3) Hrun).
Defined.

(** ** Reset *)

Lemma nth_error_first_second {A} (l : list A) :
  l <> [] ->
  exists first second,
    nth_error l 0 = Some first
    /\ nth_error l (Nat.min 5 (length l - 1)) = Some second.
Proof.
  intros Hne. destruct l as [| first rest]; [congruence |].
  exists first.
  destruct (nth_error (first :: rest) (Nat.min 5 (length (first :: rest) - 1)))
    as [second |] eqn:E.
  - now exists second.
  - apply nth_error_None in E. cbn [length] in E. lia.
Qed.

(** X27.  [reset] fails exactly on an empty racing line ([IndexError]), an
    empty telemetry or a track of length 0 (both raised while the
    observation is computed).  Otherwise the car stands on the first
    racing-line point, headed for the sixth (or the last, on a shorter
    line), at 8.3 m/s in second gear, all counters are cleared, the history
    is empty, the lap clock starts at the current time, and the
    observation exists. *)
Theorem reset_starts_at_line_start (self : RacingEnv.t) (now : R) :
  let track := RacingEnv.track self in
  let racing_line := MonacoTrackKnowledge.racing_line track in
  match RacingEnv.reset self now with
  | None =>
      racing_line = []
      \/ MonacoTrackKnowledge.telemetry track = []
      \/ MonacoTrackKnowledge.track_length track = 0
  | Some self' =>
      (exists first second,
         nth_error racing_line 0 = Some first
         /\ nth_error racing_line (Nat.min 5 (length racing_line - 1)) = Some second
         /\ RacingEnv.state self' = start_state first second (RacingEnv.state self))
      /\ self'
         = RacingEnv.mk track (RacingEnv.config self) (RacingEnv.simulator self)
             (RacingEnv.boundaries self) (RacingEnv.state self') 0 0 0 now 0 []
             (CarState.x (RacingEnv.state self')) (CarState.y (RacingEnv.state self')) 0
      /\ exists obs, RacingEnv._get_observation self' = Some obs /\ length obs = 12%nat
  end.
Proof.
  cbv zeta. unfold RacingEnv.reset. cbv zeta.
  destruct (MonacoTrackKnowledge.racing_line (RacingEnv.track self)) as [| p l] eqn:El;
    [now left |].
  destruct (nth_error_first_second (p :: l) ltac:(discriminate))
    as (first & second & H1 & H2).
  rewrite H1, H2.
  match goal with
  | |- match (if RacingEnv.observation_fails ?e then _ else _) with _ => _ end =>
      destruct (RacingEnv.observation_fails e) eqn:Eobs
  end.
  - right. unfold RacingEnv.observation_fails in Eobs. cbn [RacingEnv.track] in Eobs.
    destruct (MonacoTrackKnowledge.telemetry (RacingEnv.track self)); [now left | right].
    now apply eqb_true in Eobs.
  - split; [exists first, second; repeat split |]. split; [reflexivity |].
    match goal with
    | |- exists obs, RacingEnv._get_observation ?e = _ /\ _ =>
        destruct (observation_returns e) as (obs & Ho & Hl & _)
    end.
    + cbn [RacingEnv.track]. rewrite El. discriminate.
    + exact Eobs.
    + now exists obs.
Qed.

(** X28.  Resetting after a run gives the environment that resetting
    before the run gives, up to the velocity components [vx] and [vy] the
    run left behind: these two fields [reset] does not clear. *)
Theorem reset_forgets_the_run
  (self self' : RacingEnv.t) (inputs : list (R * R * R * R))
  (results : list StepResult.t) (now : R) (fresh : RacingEnv.t) :
  RacingEnv.run self inputs = Some (self', results) ->
  RacingEnv.reset self now = Some fresh ->
  exists fresh',
    RacingEnv.reset self' now = Some fresh'
    /\ fresh'
       = RacingEnv.mk (RacingEnv.track fresh) (RacingEnv.config fresh)
           (RacingEnv.simulator fresh) (RacingEnv.boundaries fresh)
           (CarState.mk (CarState.x (RacingEnv.state fresh))
                        (CarState.y (RacingEnv.state fresh))
                        (CarState.heading (RacingEnv.state fresh))
                        (CarState.speed (RacingEnv.state fresh))
                        (CarState.vx (RacingEnv.state self'))
                        (CarState.vy (RacingEnv.state self'))
                        (CarState.throttle (RacingEnv.state fresh))
                        (CarState.brake (RacingEnv.state fresh))
                        (CarState.steering (RacingEnv.state fresh))
                        (CarState.gear (RacingEnv.state fresh))
                        (CarState.rpm (RacingEnv.state fresh))
                        (CarState.tire_temp (RacingEnv.state fresh))
                        (CarState.fuel_kg (RacingEnv.state fresh))
                        (CarState.lap_time (RacingEnv.state fresh))
                        (CarState.distance (RacingEnv.state fresh)))
           (RacingEnv.steps fresh) (RacingEnv.last_distance fresh)
           (RacingEnv.best_distance fresh) (RacingEnv.lap_start_time fresh)
           (RacingEnv.consecutive_no_progress fresh) (RacingEnv.position_history fresh)
           (RacingEnv.last_x fresh) (RacingEnv.last_y fresh)
           (RacingEnv.total_physical_distance fresh).
Proof.
  intros Hrun Hreset.
  destruct (run_frame _ _ _ _ Hrun) as (Ht & Hc & Hs & Hb & Htt & Hf).
  unfold RacingEnv.reset in *. cbv zeta in *. rewrite Ht.
  destruct (nth_error (MonacoTrackKnowledge.racing_line (RacingEnv.track self)) 0)
    as [first |]; [| discriminate].
  destruct (nth_error (MonacoTrackKnowledge.racing_line (RacingEnv.track self)) _)
    as [second |]; [| discriminate].
  match type of Hreset with
  | (if RacingEnv.observation_fails ?e then _ else _) = _ =>
      destruct (RacingEnv.observation_fails e) eqn:Eobs; [discriminate |]
  end.
  injection Hreset as <-.
  match goal with
  | |- exists fresh', (if RacingEnv.observation_fails ?e then _ else _) = _ /\ _ =>
      replace (RacingEnv.observation_fails e) with false
  end.
  eexists. split; [reflexivity |]. env_fields. rewrite Hc, Hs, Hb, Htt, Hf. reflexivity.
Qed.

Lemma straight_env_reset : RacingEnv.reset parked_env 0 = Some straight_env_start.
Proof.
  unfold RacingEnv.reset, parked_env, RacingEnv.init, straight_track.
  cbn [RacingEnv.track MonacoTrackKnowledge.racing_line nth_error length Nat.sub Nat.min
       LinePoint.x LinePoint.y RacingEnv.state RacingEnv.config RacingEnv.simulator
       RacingEnv.boundaries CarState.vx CarState.vy CarState.tire_temp CarState.fuel_kg
       CarState.default CarState.x CarState.y].
  cbv zeta.
  assert (Hh : Py.arctan2 (0 - 0) (100 - 0) = 0).
  { unfold Py.arctan2. destruct (Rlt_dec 0 (100 - 0)); [| lra].
    replace ((0 - 0) / (100 - 0)) with 0 by lra. apply atan_0. }
  rewrite Hh. cbn [CarState.x CarState.y].
  unfold RacingEnv.observation_fails.
  cbn [RacingEnv.track MonacoTrackKnowledge.track_length
       MonacoTrackKnowledge.telemetry].
  replace (Py.eqb 100 0) with false by (symmetry; apply eqb_false; lra).
  reflexivity.
Qed.

Lemma reset_forgets_the_run_witness :
  exists self' fresh',
    RacingEnv.run parked_env (repeat (idle, 0) 3) = Some (self', repeat still_running 3)
    /\ RacingEnv.reset self' 0 = Some fresh'
    /\ fresh'
       = RacingEnv.mk (RacingEnv.track straight_env_start)
           (RacingEnv.config straight_env_start)
           (RacingEnv.simulator straight_env_start)
           (RacingEnv.boundaries straight_env_start)
           (CarState.mk (CarState.x (RacingEnv.state straight_env_start))
                        (CarState.y (RacingEnv.state straight_env_start))
                        (CarState.heading (RacingEnv.state straight_env_start))
                        (CarState.speed (RacingEnv.state straight_env_start))
                        (CarState.vx (RacingEnv.state self'))
                        (CarState.vy (RacingEnv.state self'))
                        (CarState.throttle (RacingEnv.state straight_env_start))
                        (CarState.brake (RacingEnv.state straight_env_start))
                        (CarState.steering (RacingEnv.state straight_env_start))
                        (CarState.gear (RacingEnv.state straight_env_start))
                        (CarState.rpm (RacingEnv.state straight_env_start))
                        (CarState.tire_temp (RacingEnv.state straight_env_start))
                        (CarState.fuel_kg (RacingEnv.state straight_env_start))
                        (CarState.lap_time (RacingEnv.state straight_env_start))
                        (CarState.distance (RacingEnv.state straight_env_start)))
           (RacingEnv.steps straight_env_start)
           (RacingEnv.last_distance straight_env_start)
           (RacingEnv.best_distance straight_env_start)
           (RacingEnv.lap_start_time straight_env_start)
           (RacingEnv.consecutive_no_progress straight_env_start)
           (RacingEnv.position_history straight_env_start)
           (RacingEnv.last_x straight_env_start) (RacingEnv.last_y straight_env_start)
           (RacingEnv.total_physical_distance straight_env_start).
Proof.
  destruct (parked_run 3 parked_env 0 parked_env_parked ltac:(lia)) as [self' [Hrun _]].
  destruct (reset_forgets_the_run parked_env self' (repeat (idle, 0) 3)
              (repeat still_running 3) 0 straight_env_start Hrun straight_env_reset)
    as (fresh' & Hreset & Hfresh).
  exists self', fresh'. split; [exact Hrun |]. split; [exact Hreset | exact Hfresh].
Defined.

(** ** Discounted returns *)

Lemma returns_fold_head gamma entries : forall acc,
  fst acc = hd 0 (snd acc) ->
  fst (fold_left (PPOTrainer.returns_step gamma) entries acc)
  = hd 0 (snd (fold_left (PPOTrainer.returns_step gamma) entries acc)).
Proof.
  induction entries as [| [reward done] entries IH]; intros [ret returns] H; [exact H |].
  cbn [fold_left]. apply IH. reflexivity.
Qed.

Lemma returns_fold_length gamma entries : forall acc,
  length (snd (fold_left (PPOTrainer.returns_step gamma) entries acc))
  = (length entries + length (snd acc))%nat.
Proof.
  induction entries as [| [reward done] entries IH]; intros [ret returns]; [reflexivity |].
  cbn [fold_left]. rewrite IH. cbn [PPOTrainer.returns_step snd length]. lia.
Qed.

Lemma combine_snoc {A B} (l : list A) (l' : list B) a b :
  length l = length l' ->
  combine (l ++ [a]) (l' ++ [b]) = combine l l' ++ [(a, b)].
Proof.
  revert l'. induction l as [| x l IH]; intros [| y l'] H; cbn in H; try lia.
  - reflexivity.
  - cbn [app combine]. f_equal. apply IH. lia.
Qed.

(** X29.  For as many done flags as rewards, [_calculate_returns] gives
    one return per step: the return of a step is its reward plus [gamma]
    times the return of the next step, and the reward alone when the step
    is terminal or the last one. *)
Theorem returns_follow_the_recurrence
  (gamma reward : R) (done : bool) (rewards : list R) (dones : list bool) :
  length rewards = length dones ->
  let later := PPOTrainer._calculate_returns gamma rewards dones in
  PPOTrainer._calculate_returns gamma (reward :: rewards) (done :: dones)
  = (reward + gamma * (if done then 0 else hd 0 later)) :: later
  /\ length later = length rewards.
Proof.
  intros Hlen. cbv zeta. unfold PPOTrainer._calculate_returns. cbn [rev].
  rewrite combine_snoc by (rewrite !length_rev; exact Hlen).
  rewrite fold_left_app. cbn [fold_left].
  pose proof (returns_fold_head gamma (combine (rev rewards) (rev dones)) (0, []) eq_refl)
    as Hh.
  pose proof (returns_fold_length gamma (combine (rev rewards) (rev dones)) (0, [])) as Hl.
  destruct (fold_left _ _ _) as [ret returns]. cbn [fst snd] in *.
  unfold PPOTrainer.returns_step. cbn [snd]. rewrite Hh. split; [reflexivity |].
  rewrite Hl, length_combine, !length_rev. cbn [length]. lia.
Qed.

Lemma returns_follow_the_recurrence_witness :
  let later := PPOTrainer._calculate_returns 0.99 [2; 3] [false; true] in
  PPOTrainer._calculate_returns 0.99 [1; 2; 3] [false; false; true]
  = (1 + 0.99 * (if false then 0 else hd 0 later)) :: later
  /\ length later = length [2; 3].
Proof.
  apply (returns_follow_the_recurrence 0.99 1 false [2; 3] [false; true]).
  reflexivity.
Defined.

Lemma returns_fold_cut gamma entries : forall ret ret' returns,
  (exists reward rest, entries = (reward, true) :: rest) ->
  snd (fold_left (PPOTrainer.returns_step gamma) entries (ret, returns))
  = snd (fold_left (PPOTrainer.returns_step gamma) entries (ret', [])) ++ returns.
Proof.
  intros ret ret' returns (reward & rest & ->). cbn [fold_left PPOTrainer.returns_step].
  generalize (reward + gamma * 0). clear reward. intros r.
  assert (H : forall entries a acc acc',
             snd (fold_left (PPOTrainer.returns_step gamma) entries (a, acc ++ acc'))
             = snd (fold_left (PPOTrainer.returns_step gamma) entries (a, acc)) ++ acc').
  { clear. induction entries as [| [reward done] entries IH]; intros a acc acc';
      [reflexivity |].
    cbn [fold_left PPOTrainer.returns_step]. rewrite app_comm_cons. apply IH. }
  exact (H rest r [r] returns).
Qed.

(** X30.  A terminal step cuts the returns: when the steps of a finished
    episode are followed by further steps, the returns of the episode are
    those it has on its own, and the returns of the further steps are
    unchanged. *)
Theorem returns_stop_at_episode_end
  (gamma : R) (rewards1 rewards2 : list R) (dones1 dones2 : list bool)
  (last_reward : R) :
  length rewards1 = length dones1 ->
  length rewards2 = length dones2 ->
  PPOTrainer._calculate_returns gamma
    (rewards1 ++ last_reward :: rewards2) (dones1 ++ true :: dones2)
  = PPOTrainer._calculate_returns gamma (rewards1 ++ [last_reward]) (dones1 ++ [true])
    ++ PPOTrainer._calculate_returns gamma rewards2 dones2.
Proof.
  intros H1 H2. unfold PPOTrainer._calculate_returns.
  replace (rewards1 ++ last_reward :: rewards2)
    with ((rewards1 ++ [last_reward]) ++ rewards2) by (rewrite <- app_assoc; reflexivity).
  replace (dones1 ++ true :: dones2)
    with ((dones1 ++ [true]) ++ dones2) by (rewrite <- app_assoc; reflexivity).
  rewrite !rev_app_distr.
  assert (Hc : forall (a c : list R) (b d : list bool),
             length a = length b ->
             combine (a ++ c) (b ++ d) = combine a b ++ combine c d).
  { clear. induction a as [| x a IH]; intros c [| y b] d H; cbn in H; try lia.
    - reflexivity.
    - cbn [app combine]. f_equal. apply IH. lia. }
  rewrite Hc by (rewrite !length_rev; exact H2).
  rewrite fold_left_app.
  destruct (fold_left (PPOTrainer.returns_step gamma)
                      (combine (rev rewards2) (rev dones2)) (0, []))
    as [ret returns] eqn:E.
  cbn [snd]. apply returns_fold_cut.
  cbn [rev app combine]. eauto.
Qed.

Lemma returns_stop_at_episode_end_witness :
  PPOTrainer._calculate_returns 0.99 ([1] ++ 2 :: [3]) ([false] ++ true :: [true])
  = PPOTrainer._calculate_returns 0.99 ([1] ++ [2]) ([false] ++ [true])
    ++ PPOTrainer._calculate_returns 0.99 [3] [true].
Proof.
  apply (returns_stop_at_episode_end 0.99 [1] [3] [false] [true] 2); reflexivity.
Defined.
